(** * letsTrade dashboard: notification glue, realtime hooks and page aggregates

    A shallow embedding of the parts of the letsTrade repository that its
    specification makes testable statements about:

    - [Dashboard]: the in-memory aggregates of the dashboard page
      (app/dashboard/page.tsx, [getPortfolioSummary]);
    - [UseNotifications]: the state kept by the [useNotifications] hook and
      its reactions to realtime events and user operations
      (hooks/use-notifications.ts);
    - [RecentTradesPanel]: the state of the [RecentTrades] component
      (components/dashboard/recent-trades.tsx);
    - [Sql]: the notifications table and the two trigger functions of
      supabase/migrations/20260204010000_notifications.sql;
    - [NotifyTrade], [NotifyAlert]: the two edge functions.

    The embedding comes first, the facts proved about it follow. *)

From Stdlib Require Import String Ascii.
From Stdlib Require Import ZArith List Bool Lia.
From Stdlib Require Import Floats.SpecFloat.
From Stdlib Require Import Numbers.DecimalString.
Import ListNotations.

Local Open Scope string_scope.
Local Open Scope Z_scope.

(** ** JavaScript numbers

    A JS [number] is an IEEE-754 binary64 value.  The operations are the
    ones of [SpecFloat] at precision 53 and maximal exponent 1024, so that
    division by zero gives an infinity or a NaN exactly as the runtime
    does. *)

Module JS.

Definition number := spec_float.

Definition prec : Z := 53.
Definition emax : Z := 1024.

(** The double nearest to an integer literal. *)
Definition of_Z (z : Z) : number := binary_normalize prec emax z 0 false.

Definition zero : number := S754_zero false.
Definition infinity : number := S754_infinity false.

Definition add : number -> number -> number := SFadd prec emax.
Definition sub : number -> number -> number := SFsub prec emax.
Definition mul : number -> number -> number := SFmul prec emax.
Definition div : number -> number -> number := SFdiv prec emax.

(** [a > b] *)
Definition gt (a b : number) : bool := SFltb b a.

(** [ToBoolean] on a number: [0], [-0] and [NaN] are falsy. *)
Definition truthy (x : number) : bool :=
  match x with
  | S754_zero _ | S754_nan => false
  | _ => true
  end.

(** [x || d] where [x] is a number, [null] or [undefined]. *)
Definition or_else (x : option number) (d : number) : number :=
  match x with
  | Some v => if truthy v then v else d
  | None => d
  end.

(** [Array.prototype.reduce] with an initial value. *)
Definition reduce {A B : Type} (f : B -> A -> B) (init : B) (l : list A) : B :=
  fold_left f l init.

(** [Array.prototype.slice(0, n)]. *)
Definition slice0 {A : Type} (n : nat) (l : list A) : list A := firstn n l.

End JS.

(** ** The dashboard page: [getPortfolioSummary] *)

Module Dashboard.

(** A row of the [portfolio] table as the page receives it; the two
    columns it reads may be [null]. *)
Record PortfolioRow := {
  p_stock_code : string;
  market_value : option JS.number;
  profit_loss : option JS.number
}.

Record Summary := {
  totalValue : JS.number;
  totalProfit : JS.number;
  profitRate : JS.number;
  positionCount : Z;
  todayTradeCount : Z
}.

(** [portfolio?.reduce((sum, p) => sum + (p.market_value || 0), 0) || 0] *)
Definition sum_market_value (portfolio : option (list PortfolioRow)) : JS.number :=
  JS.or_else
    (option_map
       (JS.reduce (fun sum p => JS.add sum (JS.or_else (market_value p) JS.zero)) JS.zero)
       portfolio)
    JS.zero.

(** [portfolio?.reduce((sum, p) => sum + (p.profit_loss || 0), 0) || 0] *)
Definition sum_profit_loss (portfolio : option (list PortfolioRow)) : JS.number :=
  JS.or_else
    (option_map
       (JS.reduce (fun sum p => JS.add sum (JS.or_else (profit_loss p) JS.zero)) JS.zero)
       portfolio)
    JS.zero.

(** [totalValue > 0 ? (totalProfit / (totalValue - totalProfit)) * 100 : 0] *)
Definition computeProfitRate (totalValue totalProfit : JS.number) : JS.number :=
  if JS.gt totalValue JS.zero
  then JS.mul (JS.div totalProfit (JS.sub totalValue totalProfit)) (JS.of_Z 100)
  else JS.zero.

(** [xs?.length || 0] *)
Definition length_or_zero {A : Type} (xs : option (list A)) : Z :=
  match xs with
  | Some l => Z.of_nat (length l)
  | None => 0
  end.

(** The function body after its two queries have resolved: [portfolio]
    and [todayTrades] are the [data] fields of the two results ([None]
    when the query produced no data). *)
Definition getPortfolioSummary {T : Type}
    (portfolio : option (list PortfolioRow)) (todayTrades : option (list T)) : Summary :=
  let totalValue := sum_market_value portfolio in
  let totalProfit := sum_profit_loss portfolio in
  let profitRate := computeProfitRate totalValue totalProfit in
  {| totalValue := totalValue;
     totalProfit := totalProfit;
     profitRate := profitRate;
     positionCount := length_or_zero portfolio;
     todayTradeCount := length_or_zero todayTrades |}.

End Dashboard.

(** ** Values stored in the database

    Postgres [NUMERIC] values are decimals: an integer and the number of
    fractional digits it carries ([12.50] is [{| unscaled := 1250; scale := 2 |}]). *)

Record numeric := { unscaled : Z; scale : nat }.

Module Numeric.

Definition of_Z (z : Z) : numeric := {| unscaled := z; scale := 0 |}.

Definition pow10 (n : nat) : Z := 10 ^ Z.of_nat n.

(** Comparison by value, whatever the two scales. *)
Definition leb (a b : numeric) : bool :=
  unscaled a * pow10 (scale b) <=? unscaled b * pow10 (scale a).

Definition eqb (a b : numeric) : bool :=
  unscaled a * pow10 (scale b) =? unscaled b * pow10 (scale a).

Definition is_zero (a : numeric) : bool := unscaled a =? 0.

Definition neg (a : numeric) : numeric :=
  {| unscaled := - unscaled a; scale := scale a |}.

Definition abs (a : numeric) : numeric :=
  {| unscaled := Z.abs (unscaled a); scale := scale a |}.

(** [ROUND(a, k)]: [k] fractional digits, halves rounded away from zero. *)
Definition round (a : numeric) (k : nat) : numeric :=
  if Nat.leb (scale a) k
  then {| unscaled := unscaled a * pow10 (k - scale a); scale := k |}
  else
    let d := pow10 (scale a - k) in
    {| unscaled := Z.sgn (unscaled a) * ((Z.abs (unscaled a) + d / 2) / d);
       scale := k |}.

Definition digits (z : Z) : string := NilZero.string_of_uint (N.to_uint (Z.to_N z)).

Fixpoint zeros (n : nat) : string :=
  match n with
  | O => ""
  | S m => "0" ++ zeros m
  end.

(** The cast of an [INTEGER] to [text]. *)
Definition int_text (z : Z) : string :=
  (if z <? 0 then "-" else "") ++ digits (Z.abs z).

(** The cast of a [NUMERIC] to [text]: all [scale] fractional digits. *)
Definition text (a : numeric) : string :=
  let p := pow10 (scale a) in
  let m := Z.abs (unscaled a) in
  let frac := digits (m mod p) in
  (if unscaled a <? 0 then "-" else "")
  ++ digits (m / p)
  ++ match scale a with
     | O => ""
     | S _ => "." ++ zeros (scale a - String.length frac) ++ frac
     end.

End Numeric.

(** JSON values ([jsonb] columns, webhook bodies). *)
#[local] Unset Elimination Schemes.
Inductive json :=
| JNull
| JBool (b : bool)
| JNumber (n : numeric)
| JString (s : string)
| JArray (items : list json)
| JObject (fields : list (string * json)).
#[local] Set Elimination Schemes.

Definition json_of_option {A : Type} (f : A -> json) (x : option A) : json :=
  match x with
  | Some a => f a
  | None => JNull
  end.

Definition JInt (z : Z) : json := JNumber (Numeric.of_Z z).

(** *** Rows of the [trades] table *)

Inductive OrderType := buy | sell.

Definition order_type_text (o : OrderType) : string :=
  match o with
  | buy => "buy"
  | sell => "sell"
  end.

Module Trade.

Record t := {
  id : Z;
  order_no : string;
  stock_code : string;
  stock_name : string;
  order_type : OrderType;
  status : string;
  quantity : Z;
  price : numeric;
  executed_quantity : option Z;
  executed_price : option numeric;
  strategy_id : option Z;
  signal_id : option Z;
  notes : option string;
  executed_at : option string;
  created_at : string;
  updated_at : string
}.

(** [row_to_json]: the row as the realtime channel and the webhook
    deliver it.  The numeric columns keep their decimal value: the code
    that receives a trade compares its status and prints its numbers, it
    computes nothing from them. *)
Definition to_json (r : t) : json :=
  JObject
    [ ("id", JInt (id r));
      ("order_no", JString (order_no r));
      ("stock_code", JString (stock_code r));
      ("stock_name", JString (stock_name r));
      ("order_type", JString (order_type_text (order_type r)));
      ("status", JString (status r));
      ("quantity", JInt (quantity r));
      ("price", JNumber (price r));
      ("executed_quantity", json_of_option JInt (executed_quantity r));
      ("executed_price", json_of_option JNumber (executed_price r));
      ("strategy_id", json_of_option JInt (strategy_id r));
      ("signal_id", json_of_option JInt (signal_id r));
      ("notes", json_of_option JString (notes r));
      ("executed_at", json_of_option JString (executed_at r));
      ("created_at", JString (created_at r));
      ("updated_at", JString (updated_at r)) ].

End Trade.

(** *** Rows of the [notifications] table *)

Inductive Severity := info | warning | critical.

Module Notification.

Record t := {
  id : Z;
  type : string;
  title : string;
  message : string;
  severity : Severity;
  data : option json;
  is_read : bool;
  read_at : option string;
  created_at : string
}.

(** [{ ...n, is_read: true, read_at: ts }] *)
Definition mark_read (ts : string) (n : t) : t :=
  {| id := id n; type := type n; title := title n; message := message n;
     severity := severity n; data := data n;
     is_read := true; read_at := Some ts; created_at := created_at n |}.

End Notification.

(** ** Console output *)

Inductive LogLevel := LogInfo | LogError.

Record LogEntry := { level : LogLevel; text : string; detail : option json }.

Definition console_log (t : string) : LogEntry :=
  {| level := LogInfo; text := t; detail := None |}.

Definition console_log_with (t : string) (d : json) : LogEntry :=
  {| level := LogInfo; text := t; detail := Some d |}.

Definition console_error (t : string) (d : json) : LogEntry :=
  {| level := LogError; text := t; detail := Some d |}.

(** ** The [useNotifications] hook

    The hook owns three pieces of React state.  Every callback of the
    source is a function on that state; what the callback sends to the
    database client and what it prints are returned next to the new state.
    The answers of the database client are inputs. *)

Module UseNotifications.

Record State := {
  notifications : list Notification.t;
  unreadCount : Z;
  isLoading : bool
}.

(** [useState([])], [useState(0)], [useState(true)] *)
Definition initial : State :=
  {| notifications := []; unreadCount := 0; isLoading := true |}.

Definition setNotifications (f : list Notification.t -> list Notification.t)
    (s : State) : State :=
  {| notifications := f (notifications s);
     unreadCount := unreadCount s;
     isLoading := isLoading s |}.

Definition setUnreadCount (f : Z -> Z) (s : State) : State :=
  {| notifications := notifications s;
     unreadCount := f (unreadCount s);
     isLoading := isLoading s |}.

Definition setIsLoading (b : bool) (s : State) : State :=
  {| notifications := notifications s;
     unreadCount := unreadCount s;
     isLoading := b |}.

(** Requests sent through the database client. *)
Inductive Filter :=
| EqId (id : Z)
| EqIsRead (b : bool).

Inductive Request :=
| SelectRecent (limit : nat)
  (** [select("*").order("created_at", {ascending: false}).limit(n)] *)
| UpdateRead (read_at : string) (filter : Filter).
  (** [update({is_read: true, read_at}).eq(column, value)] *)

(** How an awaited client call ends.  The client reports a failed
    statement in the [error] field of the value it resolves to; the call
    itself throws only when the client cannot be built or the request
    cannot be made. *)
Inductive Outcome (A : Type) :=
| ClientThrows (e : string)     (** [createClient()] throws: nothing is sent *)
| RequestThrows (e : string)    (** the awaited request rejects *)
| Resolves (a : A).
Arguments ClientThrows {A} e.
Arguments RequestThrows {A} e.
Arguments Resolves {A} a.

Record SelectResult := {
  sel_data : option (list Notification.t);
  sel_error : option string
}.

Record UpdateResult := { upd_error : option string }.

(** What a callback leaves behind. *)
Record Effects := {
  state : State;
  requests : list Request;
  console : list LogEntry
}.

(** [new Date().toISOString()]: the [k]-th reading of the clock during
    one callback. *)
Definition Clock := nat -> string.

Definition unread (n : Notification.t) : bool := negb (Notification.is_read n).

(** [fetchNotifications] *)
Definition fetchNotifications (answer : Outcome SelectResult) (s : State) : Effects :=
  let failed (sent : list Request) (e : string) :=
    {| state := setIsLoading false s;
       requests := sent;
       console := [console_error "Error fetching notifications:" (JString e)] |} in
  match answer with
  | ClientThrows e => failed [] e
  | RequestThrows e => failed [SelectRecent 50] e
  | Resolves r =>
      match sel_error r with
      | Some e => failed [SelectRecent 50] e
      | None =>
          let data := sel_data r in
          let s1 := setNotifications
                      (fun _ => match data with Some d => d | None => [] end) s in
          let s2 := setUnreadCount
                      (fun _ => match data with
                                | Some d => Z.of_nat (length (filter unread d))
                                | None => 0
                                end) s1 in
          {| state := setIsLoading false s2;
             requests := [SelectRecent 50];
             console := [] |}
      end
  end.

(** [onInsert] *)
Definition onInsert (notification : Notification.t) (s : State) : State :=
  let s1 := setNotifications (fun prev => JS.slice0 50 (notification :: prev)) s in
  setUnreadCount (fun prev => prev + 1) s1.

(** [onUpdate] *)
Definition onUpdate (old new : Notification.t) (s : State) : State :=
  let s1 := setNotifications
              (map (fun n => if Notification.id n =? Notification.id new
                             then new else n)) s in
  if negb (Notification.is_read old) && Notification.is_read new
  then setUnreadCount (fun prev => Z.max 0 (prev - 1)) s1
  else s1.

(** [markAsRead] *)
Definition markAsRead (clock : Clock) (answer : Outcome UpdateResult) (id : Z)
    (s : State) : Effects :=
  let failed (sent : list Request) (e : string) :=
    {| state := s;
       requests := sent;
       console := [console_error "Error marking notification as read:" (JString e)] |} in
  match answer with
  | ClientThrows e => failed [] e
  | RequestThrows e => failed [UpdateRead (clock 0%nat) (EqId id)] e
  | Resolves _ =>
      {| state := s;
         requests := [UpdateRead (clock 0%nat) (EqId id)];
         console := [] |}
  end.

(** [prev.map((n) => ({...n, is_read: true, read_at: new Date().toISOString()}))]:
    the clock is read once per element, starting at reading [k]. *)
Fixpoint mark_all (clock : Clock) (k : nat) (prev : list Notification.t)
    : list Notification.t :=
  match prev with
  | [] => []
  | n :: rest => Notification.mark_read (clock k) n :: mark_all clock (S k) rest
  end.

(** [markAllAsRead] *)
Definition markAllAsRead (clock : Clock) (answer : Outcome UpdateResult)
    (s : State) : Effects :=
  let failed (sent : list Request) (e : string) :=
    {| state := s;
       requests := sent;
       console := [console_error "Error marking all notifications as read:" (JString e)] |} in
  match answer with
  | ClientThrows e => failed [] e
  | RequestThrows e => failed [UpdateRead (clock 0%nat) (EqIsRead false)] e
  | Resolves _ =>
      let s1 := setNotifications (mark_all clock 1) s in
      {| state := setUnreadCount (fun _ => 0) s1;
         requests := [UpdateRead (clock 0%nat) (EqIsRead false)];
         console := [] |}
  end.

(** *** The hook as a machine

    Everything that can happen to a mounted hook. *)
Inductive Action :=
| Fetch (answer : Outcome SelectResult)
| Insert (notification : Notification.t)
| Update (old new : Notification.t)
| MarkAsRead (clock : Clock) (answer : Outcome UpdateResult) (id : Z)
| MarkAllAsRead (clock : Clock) (answer : Outcome UpdateResult).

Definition step (s : State) (a : Action) : State :=
  match a with
  | Fetch answer => state (fetchNotifications answer s)
  | Insert n => onInsert n s
  | Update old new => onUpdate old new s
  | MarkAsRead clock answer id => state (markAsRead clock answer id s)
  | MarkAllAsRead clock answer => state (markAllAsRead clock answer s)
  end.

Definition run (s : State) (actions : list Action) : State :=
  fold_left step actions s.

(** The state right after a successful initial fetch of [data]. *)
Definition fetched (data : list Notification.t) : State :=
  state (fetchNotifications
           (Resolves {| sel_data := Some data; sel_error := None |}) initial).

(** Number of unread rows in a list. *)
Definition count_unread (l : list Notification.t) : Z :=
  Z.of_nat (length (filter unread l)).

(** *** What the database does with an update request *)

Definition matches (f : Filter) (n : Notification.t) : bool :=
  match f with
  | EqId i => Notification.id n =? i
  | EqIsRead b => Bool.eqb (Notification.is_read n) b
  end.

Definition apply_request (r : Request) (table : list Notification.t)
    : list Notification.t :=
  match r with
  | SelectRecent _ => table
  | UpdateRead ts f =>
      map (fun n => if matches f n then Notification.mark_read ts n else n) table
  end.

(** The update events the realtime channel delivers for a request: one
    per row the statement touched, with the row before and after. *)
Definition echo (r : Request) (table : list Notification.t)
    : list (Notification.t * Notification.t) :=
  match r with
  | SelectRecent _ => []
  | UpdateRead ts f =>
      map (fun n => (n, Notification.mark_read ts n)) (filter (matches f) table)
  end.

End UseNotifications.

(** ** The [RecentTrades] component *)

Module RecentTradesPanel.

Record State := {
  trades : list Trade.t;
  newTradeIds : list Z    (** a [Set<number>] *)
}.

(** [useState(initialTrades)], [useState(new Set())] *)
Definition mount (initialTrades : list Trade.t) : State :=
  {| trades := initialTrades; newTradeIds := [] |}.

Definition set_add (x : Z) (s : list Z) : list Z :=
  if existsb (Z.eqb x) s then s else (s ++ [x])%list.

Definition set_delete (x : Z) (s : list Z) : list Z :=
  filter (fun y => negb (y =? x)) s.

(** [onNewTrade]; the timer it starts is [highlightExpired]. *)
Definition onNewTrade (trade : Trade.t) (s : State) : State :=
  {| trades := JS.slice0 5 (trade :: trades s);
     newTradeIds := set_add (Trade.id trade) (newTradeIds s) |}.

(** The [setTimeout] callback, 3000 ms after [onNewTrade trade]. *)
Definition highlightExpired (trade : Trade.t) (s : State) : State :=
  {| trades := trades s;
     newTradeIds := set_delete (Trade.id trade) (newTradeIds s) |}.

(** [onTradeUpdate] *)
Definition onTradeUpdate (updatedTrade : Trade.t) (s : State) : State :=
  {| trades := map (fun t => if Trade.id t =? Trade.id updatedTrade
                             then updatedTrade else t) (trades s);
     newTradeIds := newTradeIds s |}.

(** The [useEffect] that follows the [initialTrades] prop. *)
Definition initialTradesChanged (initialTrades : list Trade.t) (s : State) : State :=
  {| trades := initialTrades; newTradeIds := newTradeIds s |}.

(** A run of insert events. *)
Definition insertAll (inserted : list Trade.t) (s : State) : State :=
  fold_left (fun st t => onNewTrade t st) inserted s.

End RecentTradesPanel.

(** ** Code that threads a state and may throw *)

Module Exn.

Definition M (S E A : Type) : Type := S -> (A + E) * S.

Definition ret {S E A : Type} (a : A) : M S E A := fun s => (inl a, s).

Definition bind {S E A B : Type} (c : M S E A) (k : A -> M S E B) : M S E B :=
  fun s =>
    match c s with
    | (inl a, s') => k a s'
    | (inr e, s') => (inr e, s')
    end.

Definition throw {S E A : Type} (e : E) : M S E A := fun s => (inr e, s).

(** [try { c } catch (e) { h e }] *)
Definition try_catch {S E A : Type} (c : M S E A) (h : E -> M S E A) : M S E A :=
  fun s =>
    match c s with
    | (inl a, s') => (inl a, s')
    | (inr e, s') => h e s'
    end.

Definition modify {S E : Type} (f : S -> S) : M S E unit := fun s => (inl tt, f s).

Definition gets {S E A : Type} (f : S -> A) : M S E A := fun s => (inl (f s), s).

(** [if (b) { c }] *)
Definition when {S E : Type} (b : bool) (c : M S E unit) : M S E unit :=
  if b then c else ret tt.

End Exn.

Declare Scope exn_scope.
Delimit Scope exn_scope with exn.
Notation "x <- c ;; k" := (Exn.bind c (fun x => k))
  (at level 61, c at next level, right associativity) : exn_scope.
Notation "c ;; k" := (Exn.bind c (fun _ => k))
  (at level 61, right associativity) : exn_scope.

(** ** The database: notifications table and trigger functions *)

Module Sql.

(** The columns of [strategies] that configure alert levels. *)
Record Strategy := {
  strategy_id : Z;
  strategy_name : string;
  max_loss_rate : option Z;
  take_profit_rate : option Z
}.

(** A row of [portfolio]. *)
Record Position := {
  id : Z;
  stock_code : string;
  stock_name : string;
  quantity : Z;
  avg_price : numeric;
  current_price : numeric;
  total_cost : numeric;
  market_value : numeric;
  profit_loss : numeric;
  profit_loss_rate : numeric
}.

Record Database := {
  notifications : list Notification.t;
  notifications_id_seq : Z;            (** next value of the [BIGSERIAL] *)
  strategies : list Strategy;
  notified : list (string * json)      (** [pg_notify] channel and payload *)
}.

Inductive Error :=
| NotNullViolation (column : string)
| ValueTooLong (column : string)
| CheckViolation (column : string)
| PayloadTooLong.                      (** 22023, "payload string too long" *)

Definition Tx (A : Type) : Type := Exn.M Database Error A.

(** [a || b] on text: [NULL] if either side is. *)
Definition concat (a b : option string) : option string :=
  match a, b with
  | Some x, Some y => Some (x ++ y)
  | _, _ => None
  end.

(** Characters of a UTF-8 encoded text: the bytes that do not continue a
    character. *)
Fixpoint char_length (s : string) : nat :=
  match s with
  | EmptyString => O
  | String c rest =>
      let b := nat_of_ascii c in
      ((if Nat.leb 128 b && Nat.ltb b 192 then 0 else 1) + char_length rest)%nat
  end.

(** The first [n] characters of a text. *)
Fixpoint take_chars (n : nat) (s : string) : string :=
  match s with
  | EmptyString => ""
  | String c rest =>
      let b := nat_of_ascii c in
      if Nat.leb 128 b && Nat.ltb b 192
      then String c (take_chars n rest)
      else match n with
           | O => ""
           | S m => String c (take_chars m rest)
           end
  end.

(** What follows the first [n] characters of a text. *)
Fixpoint drop_chars (n : nat) (s : string) : string :=
  match s with
  | EmptyString => ""
  | String c rest =>
      let b := nat_of_ascii c in
      if Nat.leb 128 b && Nat.ltb b 192
      then drop_chars n rest
      else match n with
           | O => s
           | S m => drop_chars m rest
           end
  end.

Definition all_spaces (s : string) : bool :=
  forallb (Ascii.eqb " ") (list_ascii_of_string s).

(** A text assigned to a [VARCHAR(n)] column: one of more than [n]
    characters is refused, unless the characters after the [n]-th are
    all spaces, which are cut off. *)
Definition varchar (n : nat) (s : string) : option string :=
  if Nat.ltb n (char_length s)
  then if all_spaces (drop_chars n s) then Some (take_chars n s) else None
  else Some s.

Definition severity_of_text (s : string) : option Severity :=
  if String.eqb s "info" then Some info
  else if String.eqb s "warning" then Some warning
  else if String.eqb s "critical" then Some critical
  else None.

(** The values an [INSERT INTO notifications] supplies.  [id], [is_read]
    and [read_at] always take their defaults; [severity] does when the
    statement does not name the column. *)
Record NewNotification := {
  new_type : option string;
  new_title : option string;
  new_message : option string;
  new_severity : option string;
  new_data : option json;
  new_created_at : string
}.

(** The table definition: defaults first, then the column constraints. *)
Definition check_row (id : Z) (v : NewNotification) : Notification.t + Error :=
  match new_type v, new_title v, new_message v with
  | None, _, _ => inr (NotNullViolation "type")
  | _, None, _ => inr (NotNullViolation "title")
  | _, _, None => inr (NotNullViolation "message")
  | Some ty, Some ti, Some msg =>
      match varchar 50 ty, varchar 200 ti,
            varchar 20 (match new_severity v with Some s => s | None => "info" end) with
      | None, _, _ => inr (ValueTooLong "type")
      | _, None, _ => inr (ValueTooLong "title")
      | _, _, None => inr (ValueTooLong "severity")
      | Some ty', Some ti', Some sev' =>
          match severity_of_text sev' with
          | None => inr (CheckViolation "severity")
          | Some sev =>
              inl {| Notification.id := id;
                     Notification.type := ty';
                     Notification.title := ti';
                     Notification.message := msg;
                     Notification.severity := sev;
                     Notification.data := new_data v;
                     Notification.is_read := false;
                     Notification.read_at := None;
                     Notification.created_at := new_created_at v |}
          end
      end
  end.

(** [INSERT INTO notifications ...]: the sequence advances even when the
    row is refused. *)
Definition insert_notification (v : NewNotification) : Tx unit :=
  fun db =>
    let id := notifications_id_seq db in
    let advanced (rows : list Notification.t) :=
      {| notifications := rows;
         notifications_id_seq := id + 1;
         strategies := strategies db;
         notified := notified db |} in
    match check_row id v with
    | inl row => (inl tt, advanced (notifications db ++ [row])%list)
    | inr e => (inr e, advanced (notifications db))
    end.

(** [NOTIFY_PAYLOAD_MAX_LENGTH]: a payload of that many bytes is refused. *)
Definition payload_limit : Z := 8000.

(** [PERFORM pg_notify(channel, payload::text)], where [octet_length]
    gives the number of bytes of the server's text of a [jsonb] value. *)
Definition pg_notify (octet_length : json -> Z) (channel : string) (payload : json)
    : Tx unit :=
  if payload_limit <=? octet_length payload
  then Exn.throw PayloadTooLong
  else
    Exn.modify (fun db =>
      {| notifications := notifications db;
         notifications_id_seq := notifications_id_seq db;
         strategies := strategies db;
         notified := (notified db ++ [(channel, payload)])%list |}).

Inductive TG_OP := INSERT | UPDATE | DELETE.

Definition tg_op_text (op : TG_OP) : string :=
  match op with
  | INSERT => "INSERT"
  | UPDATE => "UPDATE"
  | DELETE => "DELETE"
  end.

Definition is_update (op : TG_OP) : bool :=
  match op with UPDATE => true | _ => false end.

Definition is_insert (op : TG_OP) : bool :=
  match op with INSERT => true | _ => false end.

Definition is_buy (o : OrderType) : bool :=
  match o with buy => true | sell => false end.

(** [jsonb_build_object('trade_id', NEW.id, 'stock_code', NEW.stock_code,
    'order_type', NEW.order_type)] *)
Definition trade_data (NEW : Trade.t) : json :=
  JObject [ ("trade_id", JInt (Trade.id NEW));
            ("stock_code", JString (Trade.stock_code NEW));
            ("order_type", JString (order_type_text (Trade.order_type NEW))) ].

(** The [payload] of [notify_trade_changes()]. *)
Definition trade_payload (op : TG_OP) (OLD : option Trade.t) (NEW : Trade.t) : json :=
  JObject [ ("type", JString (tg_op_text op));
            ("table", JString "trades");
            ("schema", JString "public");
            ("record", Trade.to_json NEW);
            ("old_record",
             if is_update op then json_of_option Trade.to_json OLD else JNull) ].

(** [notify_trade_changes()] *)
Definition notify_trade_changes (octet_length : json -> Z) (op : TG_OP)
    (OLD : option Trade.t) (NEW : Trade.t) (NOW : string) : Tx Trade.t :=
  (let payload := trade_payload op OLD NEW in
   pg_notify octet_length "trade_changes" payload ;;
   Exn.when
     (is_update op
      && match OLD with
         | Some o => negb (String.eqb (Trade.status o) "executed")
         | None => false
         end
      && String.eqb (Trade.status NEW) "executed")
     (insert_notification
        {| new_type := Some "trade_executed";
           new_title := Some (if is_buy (Trade.order_type NEW)
                              then "매수 체결" else "매도 체결");
           new_message :=
             concat (concat (concat (concat (concat (concat
               (Some (Trade.stock_name NEW)) (Some " "))
               (Some (if is_buy (Trade.order_type NEW) then "매수" else "매도")))
               (Some " "))
               (option_map Numeric.int_text (Trade.executed_quantity NEW)))
               (Some "주 @ ₩"))
               (option_map Numeric.text (Trade.executed_price NEW));
           new_severity := None;
           new_data := Some (trade_data NEW);
           new_created_at := NOW |}) ;;
   Exn.when
     (is_insert op)
     (insert_notification
        {| new_type := Some "trade_new";
           new_title := Some (if is_buy (Trade.order_type NEW)
                              then "매수 주문" else "매도 주문");
           new_message :=
             concat (concat (concat (concat (concat (concat
               (Some (Trade.stock_name NEW)) (Some " "))
               (Some (if is_buy (Trade.order_type NEW) then "매수" else "매도")))
               (Some " "))
               (Some (Numeric.int_text (Trade.quantity NEW))))
               (Some "주 @ ₩"))
               (Some (Numeric.text (Trade.price NEW)));
           new_severity := None;
           new_data := Some (trade_data NEW);
           new_created_at := NOW |}) ;;
   Exn.ret NEW)%exn.

Definition loss_threshold : numeric := {| unscaled := 50; scale := 1 |}.
Definition profit_threshold : numeric := {| unscaled := 100; scale := 1 |}.

(** The [jsonb_build_object] of both portfolio alerts. *)
Definition position_data (NEW : Position) : json :=
  JObject [ ("portfolio_id", JInt (id NEW));
            ("stock_code", JString (stock_code NEW));
            ("profit_loss_rate", JNumber (profit_loss_rate NEW));
            ("current_price", JNumber (current_price NEW));
            ("avg_price", JNumber (avg_price NEW)) ].

(** [check_portfolio_alerts()] *)
Definition check_portfolio_alerts (NEW : Position) (NOW : string) : Tx Position :=
  (Exn.when
     (Numeric.leb (profit_loss_rate NEW) (Numeric.neg loss_threshold))
     (insert_notification
        {| new_type := Some "stop_loss";
           new_title := Some "손절선 도달 경고";
           new_message :=
             Some (stock_name NEW ++ " 손실률 "
                   ++ Numeric.text (Numeric.round (Numeric.abs (profit_loss_rate NEW)) 2)
                   ++ "% - 손절 검토 필요");
           new_severity := Some "critical";
           new_data := Some (position_data NEW);
           new_created_at := NOW |}) ;;
   Exn.when
     (Numeric.leb profit_threshold (profit_loss_rate NEW))
     (insert_notification
        {| new_type := Some "take_profit";
           new_title := Some "익절선 도달";
           new_message :=
             Some (stock_name NEW ++ " 수익률 "
                   ++ Numeric.text (Numeric.round (profit_loss_rate NEW) 2)
                   ++ "% - 익절 검토");
           new_severity := Some "info";
           new_data := Some (position_data NEW);
           new_created_at := NOW |}) ;;
   Exn.ret NEW)%exn.

(** A trigger function that raises aborts the statement that fired it:
    the tables and the pending notifications are as before, only the
    sequence keeps the values it handed out. *)
Definition after_row {A : Type} (body : Tx A) (db : Database)
    : option Error * Database :=
  match body db with
  | (inl _, db') => (None, db')
  | (inr e, db') =>
      (Some e,
       {| notifications := notifications db;
          notifications_id_seq := notifications_id_seq db';
          strategies := strategies db;
          notified := notified db |})
  end.

(** [trigger_notify_trade_changes]: AFTER INSERT OR UPDATE ON trades,
    FOR EACH ROW. *)
Definition trigger_notify_trade_changes (octet_length : json -> Z) (op : TG_OP)
    (OLD : option Trade.t) (NEW : Trade.t) (NOW : string) (db : Database)
    : option Error * Database :=
  match op with
  | DELETE => (None, db)
  | _ => after_row (notify_trade_changes octet_length op OLD NEW NOW) db
  end.

(** [trigger_check_portfolio_alerts]: AFTER UPDATE ON portfolio, FOR EACH
    ROW, WHEN (OLD.profit_loss_rate IS DISTINCT FROM NEW.profit_loss_rate). *)
Definition trigger_check_portfolio_alerts (OLD NEW : Position) (NOW : string)
    (db : Database) : option Error * Database :=
  if negb (Numeric.eqb (profit_loss_rate OLD) (profit_loss_rate NEW))
  then after_row (check_portfolio_alerts NEW NOW) db
  else (None, db).

Definition count_type (ty : string) (db : Database) : nat :=
  length (filter (fun n => String.eqb (Notification.type n) ty) (notifications db)).

Definition empty : Database :=
  {| notifications := []; notifications_id_seq := 1; strategies := []; notified := [] |}.

(** The same database with another [strategies] table. *)
Definition with_strategies (l : list Strategy) (db : Database) : Database :=
  {| notifications := notifications db;
     notifications_id_seq := notifications_id_seq db;
     strategies := l;
     notified := notified db |}.

(** The type and the severity of each row of a list. *)
Definition types_and_severities (rows : list Notification.t)
    : list (string * Severity) :=
  map (fun n => (Notification.type n, Notification.severity n)) rows.

End Sql.

(** ** The edge functions

    What the two handlers share: the runtime they are deployed in and the
    world they act on. *)

Module Edge.

Inductive FetchOutcome :=
| FetchResponse (status : Z)
| FetchThrows (e : string).

(** [response.ok] *)
Definition response_ok (status : Z) : bool := (200 <=? status) && (status <=? 299).

(** The deployment.  [getSupabaseClient] and [corsHeaders] come from the
    functions' [_shared] directory, number formatting and the clock from
    the JavaScript runtime, [fetch] from the network. *)
Record Runtime := {
  env_get : string -> option string;            (** [Deno.env.get] *)
  getSupabaseClient : option string;            (** [Some e]: the call throws [e] *)
  database_reachable : bool;                    (** requests of the client arrive *)
  fetch : string -> json -> FetchOutcome;
  clock : nat -> string;                        (** [new Date().toISOString()] *)
  toLocaleString : numeric -> string;
  corsHeaders : list (string * string)
}.

Record WebhookPost := { url : string; body : json }.

Record World := {
  db : Sql.Database;
  console : list LogEntry;
  posted : list WebhookPost;
  clock_reads : nat
}.

Definition Js (A : Type) : Type := Exn.M World string A.

Definition log (e : LogEntry) : Js unit :=
  Exn.modify (fun w =>
    {| db := db w; console := (console w ++ [e])%list;
       posted := posted w; clock_reads := clock_reads w |}).

Definition with_db (d : Sql.Database) (w : World) : World :=
  {| db := d; console := console w; posted := posted w; clock_reads := clock_reads w |}.

(** [if (x)] on a string that may be undefined. *)
Definition truthy (x : option string) : bool :=
  match x with
  | Some s => negb (String.eqb s "")
  | None => false
  end.

(** [{ ...o, [k]: v }] *)
Fixpoint obj_set {V : Type} (k : string) (v : V) (o : list (string * V))
    : list (string * V) :=
  match o with
  | [] => [(k, v)]
  | (k', v') :: rest =>
      if String.eqb k' k then (k, v) :: rest else (k', v') :: obj_set k v rest
  end.

(** [{ ...o, ...extra }] *)
Definition obj_spread {V : Type} (o extra : list (string * V)) : list (string * V) :=
  fold_left (fun acc kv => obj_set (fst kv) (snd kv) acc) extra o.

(** Serialisation leaves out the keys whose value is [undefined]. *)
Fixpoint defined_fields (o : list (string * option json)) : list (string * json) :=
  match o with
  | [] => []
  | (k, Some v) :: rest => (k, v) :: defined_fields rest
  | (_, None) :: rest => defined_fields rest
  end.

Inductive ResponseBody :=
| Text (s : string)
| Json (j : json).     (** [JSON.stringify(j)] *)

Record Response := {
  status : Z;
  headers : list (string * string);
  payload : ResponseBody
}.

Record Request (P : Type) := {
  method : string;
  json_body : P + string      (** [await req.json()]; [inr e] when it throws *)
}.
Arguments method {P} r.
Arguments json_body {P} r.

Section Deployed.

Variable rt : Runtime.

Definition now : Js string :=
  fun w =>
    (inl (clock rt (clock_reads w)),
     {| db := db w; console := console w; posted := posted w;
        clock_reads := S (clock_reads w) |}).

(** [getSupabaseClient()] *)
Definition supabase : Js unit :=
  match getSupabaseClient rt with
  | Some e => Exn.throw e
  | None => Exn.ret tt
  end.

(** [await supabase.from("notifications").insert(row)]: the result,
    error or not, is dropped by both handlers. *)
Definition insert (row : Sql.NewNotification) : Js unit :=
  Exn.modify (fun w =>
    if database_reachable rt
    then with_db (snd (Sql.insert_notification row (db w))) w
    else w).

(** [await fetch(url, { method: "POST", ..., body: JSON.stringify(b) })] *)
Definition post (u : string) (b : json) : Js Z :=
  fun w =>
    let w' := {| db := db w; console := console w;
                 posted := (posted w ++ [{| url := u; body := b |}])%list;
                 clock_reads := clock_reads w |} in
    match fetch rt u b with
    | FetchResponse st => (inl st, w')
    | FetchThrows e => (inr e, w')
    end.

(** The part both [sendWebhookNotification] functions share: everything
    but the body they post. *)
Definition relay (make_body : string -> json) : Js unit :=
  (let webhookUrl := env_get rt "NOTIFICATION_WEBHOOK_URL" in
   if negb (truthy webhookUrl)
   then log (console_log "No webhook URL configured, skipping external notification")
   else
     Exn.try_catch
       (timestamp <- now ;;
        st <- post (match webhookUrl with Some u => u | None => "" end)
                   (make_body timestamp) ;;
        Exn.when (negb (response_ok st))
          (log (console_error "Webhook notification failed:" (JInt st))))
       (fun error =>
          log (console_error "Error sending webhook notification:" (JString error))))%exn.

Definition json_headers : list (string * string) :=
  obj_set "Content-Type" "application/json" (corsHeaders rt).

(** A handler body under the handler's own [try]/[catch]. *)
Definition respond (body : Js Response) (on_error : string -> LogEntry)
    (w : World) : Response * World :=
  match body w with
  | (inl r, w') => (r, w')
  | (inr e, w') =>
      ({| status := 500;
          headers := json_headers;
          payload := Json (JObject [("success", JBool false); ("error", JString e)]) |},
       {| db := db w'; console := (console w' ++ [on_error e])%list;
          posted := posted w'; clock_reads := clock_reads w' |})
  end.

Definition preflight : Response :=
  {| status := 200; headers := corsHeaders rt; payload := Text "ok" |}.

Definition success (msg : string) : Response :=
  {| status := 200;
     headers := json_headers;
     payload := Json (JObject [("success", JBool true); ("message", JString msg)]) |}.

(** [await req.json()] *)
Definition req_json {P : Type} (req : Request P) : Js P :=
  match json_body req with
  | inl p => Exn.ret p
  | inr e => Exn.throw e
  end.

End Deployed.

(** The same deployment with another webhook configuration: the value of
    [NOTIFICATION_WEBHOOK_URL] and the behaviour of the network. *)
Definition with_webhook (webhookUrl : option string)
    (net : string -> json -> FetchOutcome) (rt : Runtime) : Runtime :=
  {| env_get := fun k => if String.eqb k "NOTIFICATION_WEBHOOK_URL"
                         then webhookUrl else env_get rt k;
     getSupabaseClient := getSupabaseClient rt;
     database_reachable := database_reachable rt;
     fetch := net;
     clock := clock rt;
     toLocaleString := toLocaleString rt;
     corsHeaders := corsHeaders rt |}.

(** The three ways the outbound relay fails in a deployment, each with the
    line it leaves on the console. *)
Inductive RelayFails (rt : Runtime) : LogEntry -> Prop :=
| MissingUrl :
    truthy (env_get rt "NOTIFICATION_WEBHOOK_URL") = false ->
    RelayFails rt (console_log "No webhook URL configured, skipping external notification")
| NotOk (st : Z) :
    truthy (env_get rt "NOTIFICATION_WEBHOOK_URL") = true ->
    (forall u b, fetch rt u b = FetchResponse st) ->
    response_ok st = false ->
    RelayFails rt (console_error "Webhook notification failed:" (JInt st))
| FetchError (e : string) :
    truthy (env_get rt "NOTIFICATION_WEBHOOK_URL") = true ->
    (forall u b, fetch rt u b = FetchThrows e) ->
    RelayFails rt (console_error "Error sending webhook notification:" (JString e)).

End Edge.

(** *** [notify-trade] *)

Module NotifyTrade.

Import Edge.

Record WebhookPayload := {
  type : Sql.TG_OP;
  table : string;
  record : Trade.t;
  old_record : option Trade.t;
  schema : string
}.

Section Deployed.

Variable rt : Runtime.

(** [sendWebhookNotification(type, message, data)] *)
Definition sendWebhookNotification (ty message : string) (data : json) : Js unit :=
  relay rt (fun timestamp =>
    JObject [ ("type", JString ty);
              ("message", JString message);
              ("data", data);
              ("timestamp", JString timestamp) ]).

Definition action (trade : Trade.t) : string :=
  match Trade.order_type trade with
  | buy => "매수"
  | sell => "매도"
  end.

(** [sendNewTradeNotification(trade)] *)
Definition sendNewTradeNotification (trade : Trade.t) : Js unit :=
  (let message :=
     "[주문] " ++ Trade.stock_name trade ++ " " ++ action trade ++ " "
     ++ Numeric.int_text (Trade.quantity trade) ++ "주 @ ₩"
     ++ toLocaleString rt (Trade.price trade) in
   log (console_log_with "New trade notification:" (JString message)) ;;
   supabase rt ;;
   created_at <- now rt ;;
   insert rt
     {| Sql.new_type := Some "trade_new";
        Sql.new_title := Some (action trade ++ " 주문");
        Sql.new_message := Some message;
        Sql.new_severity := None;
        Sql.new_data :=
          Some (JObject [ ("trade_id", JInt (Trade.id trade));
                          ("stock_code", JString (Trade.stock_code trade)) ]);
        Sql.new_created_at := created_at |} ;;
   sendWebhookNotification "trade_new" message (Trade.to_json trade))%exn.

(** [trade.executed_price || trade.price] *)
Definition executedPrice (trade : Trade.t) : numeric :=
  match Trade.executed_price trade with
  | Some p => if Numeric.is_zero p then Trade.price trade else p
  | None => Trade.price trade
  end.

(** [sendTradeExecutedNotification(trade)] *)
Definition sendTradeExecutedNotification (trade : Trade.t) : Js unit :=
  (let message :=
     "[체결] " ++ Trade.stock_name trade ++ " " ++ action trade ++ " "
     ++ match Trade.executed_quantity trade with
        | Some q => Numeric.int_text q
        | None => "null"
        end
     ++ "주 @ ₩" ++ toLocaleString rt (executedPrice trade) in
   log (console_log_with "Trade executed notification:" (JString message)) ;;
   supabase rt ;;
   created_at <- now rt ;;
   insert rt
     {| Sql.new_type := Some "trade_executed";
        Sql.new_title := Some (action trade ++ " 체결 완료");
        Sql.new_message := Some message;
        Sql.new_severity := None;
        Sql.new_data :=
          Some (JObject [ ("trade_id", JInt (Trade.id trade));
                          ("stock_code", JString (Trade.stock_code trade)) ]);
        Sql.new_created_at := created_at |} ;;
   sendWebhookNotification "trade_executed" message (Trade.to_json trade))%exn.

(** [type === "UPDATE" && old_record?.status !== "executed"
     && record.status === "executed"] *)
Definition became_executed (p : WebhookPayload) : bool :=
  Sql.is_update (type p)
  && negb (match old_record p with
           | Some o => String.eqb (Trade.status o) "executed"
           | None => false
           end)
  && String.eqb (Trade.status (record p)) "executed".

(** The handler given to [serve]. *)
Definition serve (req : Request WebhookPayload) (w : World) : Response * World :=
  if String.eqb (method req) "OPTIONS"
  then (preflight rt, w)
  else
    respond rt
      (p <- req_json req ;;
       log (console_log_with
              ("Trade notification triggered: " ++ Sql.tg_op_text (type p))
              (Trade.to_json (record p))) ;;
       Exn.when (became_executed p) (sendTradeExecutedNotification (record p)) ;;
       Exn.when (Sql.is_insert (type p)) (sendNewTradeNotification (record p)) ;;
       Exn.ret (success rt "Notification processed"))%exn
      (fun e => console_error "Error processing notification:" (JString e))
      w.

End Deployed.

(** The database webhook's payload for an update of a [trades] row. *)
Definition update_payload (OLD NEW : Trade.t) : WebhookPayload :=
  {| type := Sql.UPDATE;
     table := "trades";
     record := NEW;
     old_record := Some OLD;
     schema := "public" |}.

Definition post_request {P : Type} (p : P) : Request P :=
  {| method := "POST"; json_body := inl p |}.

(** One update of a [trades] row seen by both trigger paths: the trigger
    function runs inside the statement, then the handler receives the
    webhook for the same change.  A statement that the trigger function
    aborts changes no row and calls no webhook. *)
Definition both_paths (rt : Runtime) (octet_length : json -> Z) (OLD NEW : Trade.t)
    (NOW : string) (w : World) : World :=
  match Sql.trigger_notify_trade_changes octet_length Sql.UPDATE (Some OLD) NEW NOW
          (db w) with
  | (None, d) => snd (serve rt (post_request (update_payload OLD NEW)) (with_db d w))
  | (Some _, d) => with_db d w
  end.

End NotifyTrade.

(** *** [notify-alert] *)

Module NotifyAlert.

Import Edge.

(** [type] and [severity] are the strings the request carries; the
    interface lists the values a caller is expected to send. *)
Record AlertRequest := {
  type : string;
  stock_code : option string;
  stock_name : option string;
  message : string;
  severity : string;
  data : option (list (string * json))
}.

Definition titles : list (string * string) :=
  [ ("stop_loss", "손절선 도달");
    ("take_profit", "익절선 도달");
    ("price_alert", "가격 알림");
    ("system_error", "시스템 오류") ].

(** [o[k]] for a key the literal [o] lists or that no object inherits;
    the inherited names are kept apart wherever they matter. *)
Fixpoint lookup (k : string) (o : list (string * string)) : option string :=
  match o with
  | [] => None
  | (k', v) :: rest => if String.eqb k' k then Some v else lookup k rest
  end.

(** [{ stock_code: alert.stock_code, stock_name: alert.stock_name, ...alert.data }] *)
Definition alert_data (alert : AlertRequest) : json :=
  JObject
    (defined_fields
       (obj_spread
          [ ("stock_code", option_map JString (stock_code alert));
            ("stock_name", option_map JString (stock_name alert)) ]
          (map (fun kv => (fst kv, Some (snd kv)))
               (match data alert with Some d => d | None => [] end)))).

(** The request object as the console prints it. *)
Definition to_json (alert : AlertRequest) : json :=
  JObject
    (defined_fields
       [ ("type", Some (JString (type alert)));
         ("stock_code", option_map JString (stock_code alert));
         ("stock_name", option_map JString (stock_name alert));
         ("message", Some (JString (message alert)));
         ("severity", Some (JString (severity alert)));
         ("data", option_map JObject (data alert)) ]).

Section Deployed.

Variable rt : Runtime.

(** [sendWebhookNotification(alert)] *)
Definition sendWebhookNotification (alert : AlertRequest) : Js unit :=
  relay rt (fun timestamp =>
    JObject [ ("type", JString ("alert_" ++ type alert));
              ("message", JString (message alert));
              ("severity", JString (severity alert));
              ("data", alert_data alert);
              ("timestamp", JString timestamp) ]).

(** [sendUrgentNotification(alert)] *)
Definition sendUrgentNotification (alert : AlertRequest) : Js unit :=
  (log (console_log_with "URGENT ALERT:" (JString (message alert))) ;;
   let emailApiKey := env_get rt "EMAIL_API_KEY" in
   let emailTo := env_get rt "ALERT_EMAIL" in
   Exn.when (truthy emailApiKey && truthy emailTo)
     (log (console_log
             ("Would send email to "
              ++ match emailTo with Some a => a | None => "" end
              ++ ": " ++ message alert))) ;;
   let smsApiKey := env_get rt "SMS_API_KEY" in
   let smsTo := env_get rt "ALERT_PHONE" in
   Exn.when (truthy smsApiKey && truthy smsTo)
     (log (console_log
             ("Would send SMS to "
              ++ match smsTo with Some a => a | None => "" end
              ++ ": " ++ message alert))))%exn.

(** [processAlert(alert)] *)
Definition processAlert (alert : AlertRequest) : Js unit :=
  (supabase rt ;;
   let title := match lookup (type alert) titles with
                | Some t => t
                | None => "알림"
                end in
   created_at <- now rt ;;
   insert rt
     {| Sql.new_type := Some (type alert);
        Sql.new_title := Some title;
        Sql.new_message := Some (message alert);
        Sql.new_severity := Some (severity alert);
        Sql.new_data := Some (alert_data alert);
        Sql.new_created_at := created_at |} ;;
   Exn.when (String.eqb (severity alert) "critical") (sendUrgentNotification alert) ;;
   sendWebhookNotification alert)%exn.

(** [!alert.type || !alert.message] *)
Definition missing_fields (alert : AlertRequest) : bool :=
  String.eqb (type alert) "" || String.eqb (message alert) "".

Definition bad_request : Response :=
  {| status := 400;
     headers := json_headers rt;
     payload := Json (JObject [ ("success", JBool false);
                                ("error", JString "Missing required fields: type, message") ]) |}.

(** The handler given to [serve]. *)
Definition serve (req : Request AlertRequest) (w : World) : Response * World :=
  if String.eqb (method req) "OPTIONS"
  then (preflight rt, w)
  else
    respond rt
      (alert <- req_json req ;;
       log (console_log_with
              ("Alert notification triggered: " ++ type alert)
              (to_json alert)) ;;
       if missing_fields alert
       then Exn.ret bad_request
       else
         processAlert alert ;;
         Exn.ret (success rt "Alert processed"))%exn
      (fun e => console_error "Error processing alert:" (JString e))
      w.

End Deployed.

End NotifyAlert.

(** ** Sample rows used in the examples below *)

Module Samples.

Definition notification (i : Z) (read : bool) : Notification.t :=
  {| Notification.id := i;
     Notification.type := "trade_new";
     Notification.title := "매수 주문";
     Notification.message := "삼성전자 매수 10주 @ ₩70000.00";
     Notification.severity := info;
     Notification.data := None;
     Notification.is_read := read;
     Notification.read_at := if read then Some "2026-02-04T09:00:00.000Z" else None;
     Notification.created_at := "2026-02-04T00:00:00.000Z" |}.

(** Unread rows with ids [n], [n-1], ..., [1], newest first. *)
Definition unread_rows (n : nat) : list Notification.t :=
  map (fun k => notification (Z.of_nat k) false) (rev (seq 1 n)).

Definition trade (i : Z) (st : string) : Trade.t :=
  {| Trade.id := i;
     Trade.order_no := "ORD-" ++ Numeric.int_text i;
     Trade.stock_code := "005930";
     Trade.stock_name := "삼성전자";
     Trade.order_type := buy;
     Trade.status := st;
     Trade.quantity := 10;
     Trade.price := {| unscaled := 7000000; scale := 2 |};
     Trade.executed_quantity :=
       if String.eqb st "executed" then Some 10 else Some 0;
     Trade.executed_price :=
       if String.eqb st "executed"
       then Some {| unscaled := 7000000; scale := 2 |} else None;
     Trade.strategy_id := None;
     Trade.signal_id := None;
     Trade.notes := None;
     Trade.executed_at :=
       if String.eqb st "executed" then Some "2026-02-04T00:00:05.000Z" else None;
     Trade.created_at := "2026-02-04T00:00:00.000Z";
     Trade.updated_at := "2026-02-04T00:00:05.000Z" |}.

Definition clock (k : nat) : string :=
  let ms := Numeric.digits (Z.of_nat k) in
  "2026-02-04T09:00:00." ++ Numeric.zeros (3 - String.length ms) ++ ms ++ "Z".

Definition updated : UseNotifications.Outcome UseNotifications.UpdateResult :=
  UseNotifications.Resolves {| UseNotifications.upd_error := None |}.

(** The hook holding one unread row, with id 7. *)
Definition one_unread : UseNotifications.State :=
  {| UseNotifications.notifications := [notification 7 false];
     UseNotifications.unreadCount := 1;
     UseNotifications.isLoading := false |}.

(** A position that cost nothing: its market value is all profit. *)
Definition free_shares : Dashboard.PortfolioRow :=
  {| Dashboard.p_stock_code := "005930";
     Dashboard.market_value := Some (JS.of_Z 100);
     Dashboard.profit_loss := Some (JS.of_Z 100) |}.

(** A [portfolio] row whose profit/loss rate is [rate] hundredths of a
    percent. *)
Definition position (rate : Z) : Sql.Position :=
  {| Sql.id := 1;
     Sql.stock_code := "005930";
     Sql.stock_name := "삼성전자";
     Sql.quantity := 10;
     Sql.avg_price := {| unscaled := 7000000; scale := 2 |};
     Sql.current_price := {| unscaled := 7000000 + 700 * rate; scale := 2 |};
     Sql.total_cost := {| unscaled := 70000000; scale := 2 |};
     Sql.market_value := {| unscaled := 70000000 + 7000 * rate; scale := 2 |};
     Sql.profit_loss := {| unscaled := 7000 * rate; scale := 2 |};
     Sql.profit_loss_rate := {| unscaled := 100 * rate; scale := 4 |} |}.

(** Digits in groups of three, from a reversed digit list. *)
Fixpoint group3 (rev_digits : list ascii) (k : nat) : list ascii :=
  match rev_digits with
  | [] => []
  | c :: rest =>
      match rest, k with
      | _ :: _, 2%nat => c :: ","%char :: group3 rest 0
      | _, _ => c :: group3 rest (S k)
      end
  end.

Fixpoint drop_zeros (l : list ascii) : list ascii :=
  match l with
  | c :: rest => if Ascii.eqb c "0" then drop_zeros rest else l
  | [] => []
  end.

(** [Number.prototype.toLocaleString] in the [en-US] locale: grouped
    integer digits and at most three fractional digits, trailing zeros
    dropped. *)
Definition toLocaleString (a : numeric) : string :=
  let r := if Nat.leb (scale a) 3 then a else Numeric.round a 3 in
  let p := Numeric.pow10 (scale r) in
  let m := Z.abs (unscaled r) in
  let int_part :=
    string_of_list_ascii
      (rev (group3 (rev (list_ascii_of_string (Numeric.digits (m / p)))) 0)) in
  let frac := Numeric.digits (m mod p) in
  let frac_part :=
    string_of_list_ascii
      (rev (drop_zeros
              (rev (list_ascii_of_string
                      (Numeric.zeros (scale r - String.length frac) ++ frac))))) in
  (if unscaled r <? 0 then "-" else "")
  ++ int_part
  ++ (if String.eqb frac_part "" then "" else "." ++ frac_part).

(** A deployment without a webhook URL, with a working database. *)
Definition runtime : Edge.Runtime :=
  {| Edge.env_get := fun _ => None;
     Edge.getSupabaseClient := None;
     Edge.database_reachable := true;
     Edge.fetch := fun _ _ => Edge.FetchResponse 200;
     Edge.clock := clock;
     Edge.toLocaleString := toLocaleString;
     Edge.corsHeaders :=
       [ ("Access-Control-Allow-Origin", "*");
         ("Access-Control-Allow-Headers",
          "authorization, x-client-info, apikey, content-type") ] |}.

(** The same deployment relaying to a webhook that answers 503. *)
Definition runtime_webhook_down : Edge.Runtime :=
  Edge.with_webhook (Some "https://hooks.example.com/trades")
                    (fun _ _ => Edge.FetchResponse 503) runtime.

Definition world : Edge.World :=
  {| Edge.db := Sql.empty; Edge.console := []; Edge.posted := []; Edge.clock_reads := 0 |}.

Definition stop_loss_alert : NotifyAlert.AlertRequest :=
  {| NotifyAlert.type := "stop_loss";
     NotifyAlert.stock_code := Some "005930";
     NotifyAlert.stock_name := Some "삼성전자";
     NotifyAlert.message := "삼성전자 손절선(5%) 도달! 현재 손실률: 5.20%";
     NotifyAlert.severity := "critical";
     NotifyAlert.data := Some [("position_id", JInt 1)] |}.

(** The bytes of the text of a [jsonb] value whose strings need no
    escaping: [", "] between members and [": "] after a key. *)
Fixpoint octet_length (j : json) : Z :=
  match j with
  | JNull => 4
  | JBool b => if b then 4 else 5
  | JNumber n => Z.of_nat (String.length (Numeric.text n))
  | JString s => 2 + Z.of_nat (String.length s)
  | JArray items =>
      2 + (fix members (l : list json) : Z :=
             match l with
             | [] => 0
             | x :: rest =>
                 octet_length x + (match rest with [] => 0 | _ => 2 end) + members rest
             end) items
  | JObject fields =>
      2 + (fix members (l : list (string * json)) : Z :=
             match l with
             | [] => 0
             | (k, v) :: rest =>
                 2 + Z.of_nat (String.length k) + 2 + octet_length v
                 + (match rest with [] => 0 | _ => 2 end) + members rest
             end) fields
  end.

(** Six pending trades, ids 6 down to 1. *)
Definition six_trades : list Trade.t :=
  map (fun k => trade (Z.of_nat k) "pending") (rev (seq 1 6)).

End Samples.

(** ** The realtime subscription ([useRealtime])

    A change of a table row as the channel delivers it, and the dispatch
    of [handleChange] to the callbacks of the subscriber.  A callback
    acts on the state of the component that subscribed. *)

Module Realtime.

Inductive Change (T : Type) :=
| INSERT (new : T)
| UPDATE (old new : T)
| DELETE (old : T).
Arguments INSERT {T} new.
Arguments UPDATE {T} old new.
Arguments DELETE {T} old.

Record Options (T S : Type) := {
  table : string;
  onInsert : option (T -> S -> S);
  onUpdate : option (T -> T -> S -> S);
  onDelete : option (T -> S -> S);
  onChange : option (Change T -> S -> S)
}.
Arguments table {T S} o.
Arguments onInsert {T S} o.
Arguments onUpdate {T S} o.
Arguments onDelete {T S} o.
Arguments onChange {T S} o.

(** [f?.(a)] *)
Definition call {A S : Type} (f : option (A -> S -> S)) (a : A) (s : S) : S :=
  match f with
  | Some g => g a s
  | None => s
  end.

(** [handleChange] *)
Definition handleChange {T S : Type} (o : Options T S) (payload : Change T)
    (s : S) : S :=
  let s0 := call (onChange o) payload s in
  match payload with
  | INSERT new => call (onInsert o) new s0
  | UPDATE old new =>
      match onUpdate o with
      | Some g => g old new s0
      | None => s0
      end
  | DELETE old => call (onDelete o) old s0
  end.

(** The changes of a channel, oldest first. *)
Definition deliver {T S : Type} (o : Options T S) (changes : list (Change T))
    (s : S) : S :=
  fold_left (fun st c => handleChange o c st) changes s.

Definition is_delete {T : Type} (c : Change T) : bool :=
  match c with
  | DELETE _ => true
  | _ => false
  end.

(** [useTradesRealtime] *)
Definition useTradesRealtime {S : Type}
    (onNewTrade : option (Trade.t -> S -> S))
    (onTradeUpdate : option (Trade.t -> Trade.t -> S -> S)) : Options Trade.t S :=
  {| table := "trades";
     onInsert := onNewTrade;
     onUpdate := onTradeUpdate;
     onDelete := None;
     onChange := None |}.

(** [usePortfolioRealtime] *)
Definition usePortfolioRealtime {P S : Type}
    (onPortfolioChange : option (P -> S -> S))
    (onPositionUpdate : option (P -> P -> S -> S)) : Options P S :=
  {| table := "portfolio";
     onInsert := onPortfolioChange;
     onUpdate := onPositionUpdate;
     onDelete := None;
     onChange := None |}.

(** The subscription of [useNotifications]. *)
Definition notifications : Options Notification.t UseNotifications.State :=
  {| table := "notifications";
     onInsert := Some UseNotifications.onInsert;
     onUpdate := Some UseNotifications.onUpdate;
     onDelete := None;
     onChange := None |}.

(** The subscription of [RecentTrades]; the highlight timers are apart. *)
Definition recent_trades : Options Trade.t RecentTradesPanel.State :=
  useTradesRealtime
    (Some RecentTradesPanel.onNewTrade)
    (Some (fun _ updatedTrade => RecentTradesPanel.onTradeUpdate updatedTrade)).

End Realtime.

(** A fetch that respects the query's [limit(50)]. *)
Definition within_limit (a : UseNotifications.Action) : Prop :=
  match a with
  | UseNotifications.Fetch (UseNotifications.Resolves r) =>
      match UseNotifications.sel_data r with
      | Some d => (length d <= 50)%nat
      | None => True
      end
  | _ => True
  end.

(** Update events as actions of the hook. *)
Definition update_actions (events : list (Notification.t * Notification.t))
    : list UseNotifications.Action :=
  map (fun e => UseNotifications.Update (fst e) (snd e)) events.

(** The actions of the hook that a stream of changes amounts to. *)
Definition hook_actions (changes : list (Realtime.Change Notification.t))
    : list UseNotifications.Action :=
  flat_map (fun c => match c with
                     | Realtime.INSERT n => [UseNotifications.Insert n]
                     | Realtime.UPDATE o n => [UseNotifications.Update o n]
                     | Realtime.DELETE _ => []
                     end) changes.

(** ** The notification bell *)

Module NotificationBell.

(** [getTypeIcon] *)
Definition getTypeIcon (type : string) : string :=
  if String.eqb type "trade_new" then "📝"
  else if String.eqb type "trade_executed" then "✅"
  else if String.eqb type "stop_loss" then "🔴"
  else if String.eqb type "take_profit" then "🟢"
  else if String.eqb type "price_alert" then "📊"
  else if String.eqb type "system_error" then "⚠️"
  else "🔔".

(** [getSeverityColor] *)
Definition getSeverityColor (severity : string) : string :=
  if String.eqb severity "critical" then "bg-red-500"
  else if String.eqb severity "warning" then "bg-yellow-500"
  else "bg-blue-500".

(** The badge on the bell: [unreadCount > 0 && (unreadCount > 9 ? "9+" :
    unreadCount)]. *)
Definition badge (unreadCount : Z) : option string :=
  if unreadCount >? 0
  then Some (if unreadCount >? 9 then "9+" else Numeric.int_text unreadCount)
  else None.

(** The rows of the dropdown: [notifications.slice(0, 10)]. *)
Definition shown (s : UseNotifications.State) : list Notification.t :=
  JS.slice0 10 (UseNotifications.notifications s).

End NotificationBell.

(** ** [RecentTrades]: everything that happens to the component *)

Module RecentTradesEvents.

Import RecentTradesPanel.

Inductive Event :=
| NewTrade (trade : Trade.t)
| TradeUpdate (old new : Trade.t)
| HighlightExpired (trade : Trade.t)
| InitialTradesChanged (initialTrades : list Trade.t).

Definition step (s : State) (e : Event) : State :=
  match e with
  | NewTrade t => onNewTrade t s
  | TradeUpdate _ new => onTradeUpdate new s
  | HighlightExpired t => highlightExpired t s
  | InitialTradesChanged l => initialTradesChanged l s
  end.

Definition run (s : State) (events : list Event) : State :=
  fold_left step events s.

(** What the last insert or timer of the trade [y] in a run says about
    its highlight: [Some true] after an insert, [Some false] after its
    timer, [None] when the run has neither. *)
Fixpoint last_highlight (y : Z) (events : list Event) : option bool :=
  match events with
  | [] => None
  | e :: rest =>
      match last_highlight y rest with
      | Some b => Some b
      | None =>
          match e with
          | NewTrade t => if Trade.id t =? y then Some true else None
          | HighlightExpired t => if Trade.id t =? y then Some false else None
          | _ => None
          end
      end
  end.

(** An event that cannot bring in more than five rows at once. *)
Definition bounded (e : Event) : Prop :=
  match e with
  | InitialTradesChanged l => (length l <= 5)%nat
  | _ => True
  end.

(** A status badge: the variant of the [Badge] and its text. *)
Record Badge := { variant : string; label : string }.

(** [getStatusBadge] of the component. *)
Definition getStatusBadge (status : string) : Badge :=
  if String.eqb status "executed" then {| variant := "default"; label := "체결" |}
  else if String.eqb status "partial" then {| variant := "secondary"; label := "부분체결" |}
  else if String.eqb status "pending" then {| variant := "outline"; label := "대기" |}
  else if String.eqb status "cancelled" then {| variant := "destructive"; label := "취소" |}
  else {| variant := "outline"; label := status |}.

End RecentTradesEvents.

(** ** The trades page *)

Module TradesPage.

Record QueryResult (A : Type) := {
  data : option (list A);
  error : option string
}.
Arguments data {A} q.
Arguments error {A} q.

(** [getTrades], from the answer of its query on: the rows and what is
    printed. *)
Definition getTrades (answer : QueryResult Trade.t) : list Trade.t * list LogEntry :=
  match error answer with
  | Some e => ([], [console_error "Trades fetch error:" (JString e)])
  | None => (match data answer with Some d => d | None => [] end, [])
  end.

Definition is_sell (o : OrderType) : bool :=
  match o with sell => true | buy => false end.

Definition buyCount (trades : list Trade.t) : nat :=
  length (filter (fun t => Sql.is_buy (Trade.order_type t)) trades).

Definition sellCount (trades : list Trade.t) : nat :=
  length (filter (fun t => is_sell (Trade.order_type t)) trades).

Definition executedCount (trades : list Trade.t) : nat :=
  length (filter (fun t => String.eqb (Trade.status t) "executed") trades).

(** [getStatusBadge] of the page. *)
Definition getStatusBadge (status : string) : RecentTradesEvents.Badge :=
  if String.eqb status "executed"
  then {| RecentTradesEvents.variant := "default"; RecentTradesEvents.label := "체결" |}
  else if String.eqb status "partial"
  then {| RecentTradesEvents.variant := "secondary"; RecentTradesEvents.label := "부분체결" |}
  else if String.eqb status "pending"
  then {| RecentTradesEvents.variant := "outline"; RecentTradesEvents.label := "대기" |}
  else if String.eqb status "cancelled"
  then {| RecentTradesEvents.variant := "destructive"; RecentTradesEvents.label := "취소" |}
  else if String.eqb status "rejected"
  then {| RecentTradesEvents.variant := "destructive"; RecentTradesEvents.label := "거부" |}
  else {| RecentTradesEvents.variant := "outline"; RecentTradesEvents.label := status |}.

End TradesPage.

(** ** [LiveStats] *)

Module LiveStats.

Record State := {
  stats : Dashboard.Summary;
  isUpdating : bool;
  refreshes : nat            (** calls of [router.refresh()] so far *)
}.

(** [useState(initialStats)], [useState(false)] *)
Definition mount (initialStats : Dashboard.Summary) : State :=
  {| stats := initialStats; isUpdating := false; refreshes := 0 |}.

(** [setIsUpdating(true); router.refresh();], the timer being [flashExpired] *)
Definition flash (s : State) : State :=
  {| stats := stats s; isUpdating := true; refreshes := S (refreshes s) |}.

(** [onPortfolioChange] and [onPositionUpdate] *)
Definition onPortfolioChange (s : State) : State := flash s.
Definition onPositionUpdate (s : State) : State := flash s.

(** [onNewTrade] *)
Definition onNewTrade (s : State) : State :=
  let prev := stats s in
  flash
    {| stats :=
         {| Dashboard.totalValue := Dashboard.totalValue prev;
            Dashboard.totalProfit := Dashboard.totalProfit prev;
            Dashboard.profitRate := Dashboard.profitRate prev;
            Dashboard.positionCount := Dashboard.positionCount prev;
            Dashboard.todayTradeCount := Dashboard.todayTradeCount prev + 1 |};
       isUpdating := isUpdating s;
       refreshes := refreshes s |}.

(** The [setTimeout] callback, 1000 ms after an event. *)
Definition flashExpired (s : State) : State :=
  {| stats := stats s; isUpdating := false; refreshes := refreshes s |}.

(** The [useEffect] that follows the [initialStats] prop. *)
Definition initialStatsChanged (initialStats : Dashboard.Summary) (s : State) : State :=
  {| stats := initialStats; isUpdating := isUpdating s; refreshes := refreshes s |}.

Inductive Event :=
| PortfolioInserted
| PositionUpdated
| TradeInserted
| FlashExpired
| InitialStatsChanged (initialStats : Dashboard.Summary).

Definition step (s : State) (e : Event) : State :=
  match e with
  | PortfolioInserted => onPortfolioChange s
  | PositionUpdated => onPositionUpdate s
  | TradeInserted => onNewTrade s
  | FlashExpired => flashExpired s
  | InitialStatsChanged i => initialStatsChanged i s
  end.

Definition run (s : State) (events : list Event) : State :=
  fold_left step events s.

Definition is_trade (e : Event) : bool :=
  match e with TradeInserted => true | _ => false end.

Definition is_realtime (e : Event) : bool :=
  match e with
  | PortfolioInserted | PositionUpdated | TradeInserted => true
  | _ => false
  end.

Definition is_refresh (e : Event) : bool :=
  match e with InitialStatsChanged _ => true | _ => false end.

End LiveStats.

(** ** [TradeNotifications]: the toasts *)

Module TradeNotifications.

Inductive ToastKind := Plain | Success.

Record Toast := {
  kind : ToastKind;
  title : string;
  description : string;
  duration : Z
}.

Section Formatting.

(** [Number.prototype.toLocaleString] of the browser. *)
Variable toLocaleString : numeric -> string.

(** [onNewTrade] *)
Definition onNewTrade (trade : Trade.t) : list Toast :=
  let isBuy := Sql.is_buy (Trade.order_type trade) in
  let icon := if isBuy then "📈" else "📉" in
  let action := if isBuy then "매수" else "매도" in
  let priceFormatted := toLocaleString (Trade.price trade) in
  let quantityFormatted := toLocaleString (Numeric.of_Z (Trade.quantity trade)) in
  [ {| kind := Plain;
       title := icon ++ " " ++ action ++ " 주문";
       description := Trade.stock_name trade ++ " " ++ quantityFormatted
                      ++ "주 @ ₩" ++ priceFormatted;
       duration := 5000 |} ].

(** [onTradeUpdate]; reading [toLocaleString] of a [null] executed
    quantity throws. *)
Definition onTradeUpdate (oldTrade newTrade : Trade.t) : list Toast + string :=
  if negb (String.eqb (Trade.status oldTrade) "executed")
     && String.eqb (Trade.status newTrade) "executed"
  then
    let isBuy := Sql.is_buy (Trade.order_type newTrade) in
    let icon := if isBuy then "✅" else "💰" in
    let action := if isBuy then "매수" else "매도" in
    let priceFormatted := toLocaleString (NotifyTrade.executedPrice newTrade) in
    match Trade.executed_quantity newTrade with
    | None => inr "TypeError"
    | Some q =>
        let quantityFormatted := toLocaleString (Numeric.of_Z q) in
        inl [ {| kind := Success;
                 title := icon ++ " " ++ action ++ " 체결 완료";
                 description := Trade.stock_name newTrade ++ " " ++ quantityFormatted
                                ++ "주 @ ₩" ++ priceFormatted;
                 duration := 5000 |} ]
    end
  else inl [].

End Formatting.

End TradeNotifications.

(** ** Keys of the notifications table

    [id BIGSERIAL PRIMARY KEY]: the stored ids are distinct and below the
    next value of the sequence. *)
Definition well_keyed (db : Sql.Database) : Prop :=
  NoDup (map Notification.id (Sql.notifications db))
  /\ Forall (fun n => Notification.id n < Sql.notifications_id_seq db)
            (Sql.notifications db).

(** A row as the table's defaults leave it: unread, never read. *)
Definition fresh (n : Notification.t) : Prop :=
  Notification.is_read n = false /\ Notification.read_at n = None.

(** [after] holds the rows of [before] followed by [added]: at most one
    row, fresh, with an id the sequence handed out in between. *)
Definition appended (before after : Sql.Database) (added : list Notification.t)
    : Prop :=
  Sql.notifications after = (Sql.notifications before ++ added)%list
  /\ (length added <= 1)%nat
  /\ Sql.notifications_id_seq before <= Sql.notifications_id_seq after
  /\ Forall (fun n => fresh n
                      /\ Sql.notifications_id_seq before <= Notification.id n
                         < Sql.notifications_id_seq after) added.

(** The requests a handler has sent to the webhook between two worlds:
    none, or one to the configured URL. *)
Definition posts_between (rt : Edge.Runtime) (before after : Edge.World)
    (posts : list Edge.WebhookPost) : Prop :=
  Edge.posted after = (Edge.posted before ++ posts)%list
  /\ (length posts <= 1)%nat
  /\ (Edge.truthy (Edge.env_get rt "NOTIFICATION_WEBHOOK_URL") = false -> posts = [])
  /\ Forall (fun p => Edge.env_get rt "NOTIFICATION_WEBHOOK_URL" = Some (Edge.url p))
            posts.

(** ** [checkStopLossConditions] of [notify-alert] *)

Module StopLossCheck.

Import Edge.

(** A row of [portfolio] with the strategy the query joins to it. *)
Record JoinedPosition := {
  position : Sql.Position;
  strategies : option Sql.Strategy
}.

Record QueryResult := {
  data : option (list JoinedPosition);
  error : option string
}.

(** [position.strategies?.max_loss_rate || 10] *)
Definition maxLossRate (p : JoinedPosition) : Z :=
  match strategies p with
  | Some st =>
      match Sql.max_loss_rate st with
      | Some n => if n =? 0 then 10 else n
      | None => 10
      end
  | None => 10
  end.

(** [Math.abs(position.profit_loss_rate)] *)
Definition currentLossRate (p : JoinedPosition) : numeric :=
  Numeric.abs (Sql.profit_loss_rate (position p)).

(** [currentLossRate >= maxLossRate] *)
Definition reached (p : JoinedPosition) : bool :=
  Numeric.leb (Numeric.of_Z (maxLossRate p)) (currentLossRate p).

Section Deployed.

Variable rt : Runtime.

(** [Number.prototype.toFixed(2)] *)
Variable toFixed2 : numeric -> string.

Definition alert_of (p : JoinedPosition) : NotifyAlert.AlertRequest :=
  {| NotifyAlert.type := "stop_loss";
     NotifyAlert.stock_code := Some (Sql.stock_code (position p));
     NotifyAlert.stock_name := Some (Sql.stock_name (position p));
     NotifyAlert.message :=
       Sql.stock_name (position p) ++ " 손절선(" ++ Numeric.int_text (maxLossRate p)
       ++ "%) 도달! 현재 손실률: " ++ toFixed2 (currentLossRate p) ++ "%";
     NotifyAlert.severity := "critical";
     NotifyAlert.data :=
       Some [ ("position_id", JInt (Sql.id (position p)));
              ("current_loss_rate", JNumber (currentLossRate p));
              ("max_loss_rate", JInt (maxLossRate p)) ] |}.

(** The body of the [for] loop. *)
Definition check_position (p : JoinedPosition) : Js unit :=
  Exn.when (reached p) (NotifyAlert.processAlert rt (alert_of p)).

Fixpoint for_each (positions : list JoinedPosition) : Js unit :=
  match positions with
  | [] => Exn.ret tt
  | p :: rest => (check_position p ;; for_each rest)%exn
  end.

(** [checkStopLossConditions], given the answer of its query. *)
Definition checkStopLossConditions (answer : QueryResult) : Js unit :=
  (supabase rt ;;
   match error answer with
   | Some e => log (console_error "Error fetching positions:" (JString e))
   | None => for_each (match data answer with Some d => d | None => [] end)
   end)%exn.

End Deployed.

End StopLossCheck.

(** ** The portfolio page *)

Module PortfolioPage.

(** A row of [portfolio] as the page reads it. *)
Record Position := {
  stock_code : string;
  market_value : JS.number;
  total_cost : JS.number;
  profit_loss : JS.number
}.

Record QueryResult := {
  data : option (list Position);
  error : option string
}.

(** [getPortfolio], from the answer of its query on. *)
Definition getPortfolio (answer : QueryResult) : list Position * list LogEntry :=
  match error answer with
  | Some e => ([], [console_error "Portfolio fetch error:" (JString e)])
  | None => (match data answer with Some d => d | None => [] end, [])
  end.

Definition totalValue (portfolio : list Position) : JS.number :=
  JS.reduce (fun sum p => JS.add sum (market_value p)) JS.zero portfolio.

Definition totalCost (portfolio : list Position) : JS.number :=
  JS.reduce (fun sum p => JS.add sum (total_cost p)) JS.zero portfolio.

Definition totalProfit (portfolio : list Position) : JS.number :=
  JS.reduce (fun sum p => JS.add sum (profit_loss p)) JS.zero portfolio.

(** [totalCost > 0 ? (totalProfit / totalCost) * 100 : 0] *)
Definition rate (totalProfit totalCost : JS.number) : JS.number :=
  if JS.gt totalCost JS.zero
  then JS.mul (JS.div totalProfit totalCost) (JS.of_Z 100)
  else JS.zero.

Definition totalProfitRate (portfolio : list Position) : JS.number :=
  rate (totalProfit portfolio) (totalCost portfolio).

End PortfolioPage.

(** ** Strategies: the card, the chat and the save *)

Module StrategyCard.

Import UseNotifications.

Record State := {
  isActive : bool;
  isUpdating : bool;
  refreshes : nat;                       (** calls of [router.refresh()] *)
  sent : list (Z * bool)                 (** [update({is_active}).eq("id", id)] *)
}.

(** [useState(strategy.is_active)], [useState(false)] *)
Definition mount (is_active : bool) : State :=
  {| isActive := is_active; isUpdating := false; refreshes := 0; sent := [] |}.

(** [handleToggle]: nothing catches a throw, so the lines after the
    [await] do not run then. *)
Definition handleToggle (id : Z) (answer : Outcome UpdateResult) (s : State) : State :=
  let newStatus := negb (isActive s) in
  match answer with
  | ClientThrows _ =>
      {| isActive := isActive s; isUpdating := true;
         refreshes := refreshes s; sent := sent s |}
  | RequestThrows _ =>
      {| isActive := isActive s; isUpdating := true;
         refreshes := refreshes s; sent := (sent s ++ [(id, newStatus)])%list |}
  | Resolves r =>
      {| isActive := match upd_error r with
                     | None => newStatus
                     | Some _ => isActive s
                     end;
         isUpdating := false;
         refreshes := S (refreshes s);
         sent := (sent s ++ [(id, newStatus)])%list |}
  end.

End StrategyCard.

Module NewStrategy.

Import UseNotifications.

Inductive StrategyType := ma_crossover | rsi_oversold | bollinger_bands | macd | custom.

(** The [Strategy] of lib/ai/strategy-tools.ts. *)
Record Strategy := {
  name : string;
  description : string;
  strategy_type : StrategyType;
  parameters : option (list (string * json));
  stock_codes : option string;
  max_investment : option JS.number;
  max_loss_rate : option JS.number;
  take_profit_rate : option JS.number;
  is_active : bool;
  priority : Z
}.

(** [{ ...args, is_active: false, priority: 0 }] *)
Definition generated (args : Strategy) : Strategy :=
  {| name := name args; description := description args;
     strategy_type := strategy_type args; parameters := parameters args;
     stock_codes := stock_codes args; max_investment := max_investment args;
     max_loss_rate := max_loss_rate args; take_profit_rate := take_profit_rate args;
     is_active := false; priority := 0 |}.

(** A part of a chat message, with the fields the effect looks at. *)
Record Part := {
  type : option string;
  toolCallId : option string;
  input : option Strategy
}.

Inductive Role := user | assistant | system.

Record Message := { role : Role; parts : option (list Part) }.

(** [part.type?.startsWith("tool-") && "toolCallId" in part], then
    [toolPart.type === "tool-create_strategy" && toolPart.input] *)
Definition created (p : Part) : option Strategy :=
  match type p, toolCallId p with
  | Some ty, Some _ =>
      if String.prefix "tool-" ty && String.eqb ty "tool-create_strategy"
      then input p else None
  | _, _ => None
  end.

(** The effect on [messages]: [onStrategyGenerated] is called for every
    tool part that creates a strategy, in the order of the conversation;
    with [handleStrategyGenerated] the last call is the preview. *)
Definition generated_calls (messages : list Message) : list Strategy :=
  flat_map
    (fun m =>
       match role m, parts m with
       | assistant, Some ps =>
           flat_map (fun p => match created p with
                              | Some args => [generated args]
                              | None => []
                              end) ps
       | _, _ => []
       end) messages.

(** The row [handleSave] inserts into [strategies]. *)
Record Row := {
  row_name : string;
  row_description : string;
  row_strategy_type : StrategyType;
  row_parameters : list (string * json);
  row_stock_codes : option string;
  row_max_investment : option JS.number;
  row_max_loss_rate : option JS.number;
  row_take_profit_rate : option JS.number;
  row_is_active : bool;
  row_priority : Z
}.

(** [x || null] on an optional number *)
Definition or_null (x : option JS.number) : option JS.number :=
  match x with
  | Some v => if JS.truthy v then Some v else None
  | None => None
  end.

Definition row_of (strategy : Strategy) : Row :=
  {| row_name := name strategy;
     row_description := description strategy;
     row_strategy_type := strategy_type strategy;
     row_parameters := match parameters strategy with Some p => p | None => [] end;
     row_stock_codes := if Edge.truthy (stock_codes strategy)
                        then stock_codes strategy else None;
     row_max_investment := or_null (max_investment strategy);
     row_max_loss_rate := or_null (max_loss_rate strategy);
     row_take_profit_rate := or_null (take_profit_rate strategy);
     row_is_active := false;
     row_priority := 0 |}.

Record State := { strategy : option Strategy; isSaving : bool }.

Record Saved := {
  state : State;
  insert_requests : list Row;
  printed : list LogEntry;
  alerts : list string;
  pushed : list string        (** [router.push] *)
}.

(** [handleStrategyGenerated], [handleClear] *)
Definition handleStrategyGenerated (newStrategy : Strategy) (s : State) : State :=
  {| strategy := Some newStrategy; isSaving := isSaving s |}.

Definition handleClear (s : State) : State :=
  {| strategy := None; isSaving := isSaving s |}.

(** [handleSave] *)
Definition handleSave (answer : Outcome UpdateResult) (s : State) : Saved :=
  match strategy s with
  | None =>
      {| state := s; insert_requests := []; printed := []; alerts := []; pushed := [] |}
  | Some st =>
      let done := {| strategy := strategy s; isSaving := false |} in
      match answer with
      | ClientThrows e =>
          {| state := done; insert_requests := [];
             printed := [console_error "Error saving strategy:" (JString e)];
             alerts := ["전략 저장 중 오류가 발생했습니다."]; pushed := [] |}
      | RequestThrows e =>
          {| state := done; insert_requests := [row_of st];
             printed := [console_error "Error saving strategy:" (JString e)];
             alerts := ["전략 저장 중 오류가 발생했습니다."]; pushed := [] |}
      | Resolves r =>
          match upd_error r with
          | Some e =>
              {| state := done; insert_requests := [row_of st];
                 printed := [console_error "Failed to save strategy:" (JString e)];
                 alerts := ["전략 저장에 실패했습니다: " ++ e]; pushed := [] |}
          | None =>
              {| state := done; insert_requests := [row_of st]; printed := []; alerts := [];
                 pushed := ["/dashboard/strategies"] |}
          end
      end
  end.

End NewStrategy.

(** ** Keys of an object literal

    The names every object literal inherits from [Object.prototype]:
    [o[k]] finds a value under them although the literal does not list
    them. *)
Definition inherited_keys : list string :=
  [ "constructor"; "__proto__"; "hasOwnProperty"; "isPrototypeOf";
    "propertyIsEnumerable"; "toLocaleString"; "toString"; "valueOf";
    "__defineGetter__"; "__defineSetter__"; "__lookupGetter__"; "__lookupSetter__" ].

(** ** Other deployments of the edge functions *)

Module Deployments.

Import Edge.

(** A deployment whose [getSupabaseClient] throws [e]. *)
Definition without_client (e : string) (rt : Runtime) : Runtime :=
  {| env_get := env_get rt;
     getSupabaseClient := Some e;
     database_reachable := database_reachable rt;
     fetch := fetch rt;
     clock := clock rt;
     toLocaleString := toLocaleString rt;
     corsHeaders := corsHeaders rt |}.

(** A deployment whose requests to the database are lost. *)
Definition offline (rt : Runtime) : Runtime :=
  {| env_get := env_get rt;
     getSupabaseClient := getSupabaseClient rt;
     database_reachable := false;
     fetch := fetch rt;
     clock := clock rt;
     toLocaleString := toLocaleString rt;
     corsHeaders := corsHeaders rt |}.

(** The response of a handler's [catch] block. *)
Definition server_error (rt : Runtime) (e : string) : Response :=
  {| status := 500;
     headers := json_headers rt;
     payload := Json (JObject [("success", JBool false); ("error", JString e)]) |}.

(** The world with one more line on the console. *)
Definition printed (e : LogEntry) (w : World) : World :=
  {| db := db w; console := (console w ++ [e])%list;
     posted := posted w; clock_reads := clock_reads w |}.

End Deployments.

(** * Facts *)

(** ** Lists cut to a window *)

Lemma firstn_app_firstn {A : Type} (n : nat) (l1 l2 : list A) :
  firstn n (l1 ++ firstn n l2) = firstn n (l1 ++ l2).
Proof.
  rewrite !firstn_app, firstn_firstn.
  f_equal. f_equal. lia.
Qed.

Lemma filter_all {A : Type} (f : A -> bool) (l : list A) :
  Forall (fun x => f x = true) l -> filter f l = l.
Proof.
  induction 1 as [|x l Hx _ IH]; simpl; [reflexivity|].
  rewrite Hx, IH. reflexivity.
Qed.

(** ** [useNotifications] *)

Section UseNotificationsFacts.

Import UseNotifications.

Lemma run_app (s : State) (a b : list Action) :
  run s (a ++ b) = run (run s a) b.
Proof. apply fold_left_app. Qed.

Lemma count_unread_nonneg (l : list Notification.t) : 0 <= count_unread l.
Proof. unfold count_unread. lia. Qed.

Lemma count_unread_app (l1 l2 : list Notification.t) :
  count_unread (l1 ++ l2) = count_unread l1 + count_unread l2.
Proof.
  unfold count_unread. rewrite filter_app, length_app. lia.
Qed.

Lemma fetched_state (data : list Notification.t) :
  notifications (fetched data) = data
  /\ unreadCount (fetched data) = count_unread data
  /\ isLoading (fetched data) = false.
Proof. repeat split. Qed.

Lemma inserts_unreadCount (ins : list Notification.t) (s : State) :
  unreadCount (run s (map Insert ins)) = unreadCount s + Z.of_nat (length ins).
Proof.
  revert s. induction ins as [|n ins IH]; intros s.
  - simpl. lia.
  - change (run s (map Insert (n :: ins)))
      with (run (onInsert n s) (map Insert ins)).
    rewrite IH. simpl unreadCount. simpl length. lia.
Qed.

Lemma inserts_notifications (ins : list Notification.t) (s : State) :
  (length (notifications s) <= 50)%nat ->
  notifications (run s (map Insert ins))
  = firstn 50 (rev ins ++ notifications s).
Proof.
  revert s. induction ins as [|n ins IH]; intros s Hlen.
  - simpl rev. simpl app. cbn [map run fold_left].
    symmetry. apply firstn_all2. exact Hlen.
  - change (run s (map Insert (n :: ins)))
      with (run (onInsert n s) (map Insert ins)).
    rewrite IH.
    + cbn [onInsert setNotifications setUnreadCount notifications JS.slice0].
      rewrite firstn_app_firstn. simpl rev. rewrite <- app_assoc. reflexivity.
    + cbn [onInsert setNotifications setUnreadCount notifications JS.slice0].
      rewrite length_firstn. lia.
Qed.

Lemma step_unreadCount_nonneg (s : State) (a : Action) :
  0 <= unreadCount s -> 0 <= unreadCount (step s a).
Proof.
  intros H. destruct a as [answer|n|old new|clock answer id|clock answer]; simpl.
  - destruct answer as [e|e|[data [e|]]]; simpl; try exact H.
    destruct data; simpl; lia.
  - lia.
  - unfold onUpdate.
    destruct (negb (Notification.is_read old) && Notification.is_read new); simpl; lia.
  - destruct answer; simpl; exact H.
  - destruct answer; simpl; try exact H. lia.
Qed.

Lemma run_unreadCount_nonneg (actions : list Action) (s : State) :
  0 <= unreadCount s -> 0 <= unreadCount (run s actions).
Proof.
  revert s. induction actions as [|a actions IH]; intros s H.
  - exact H.
  - apply IH. apply step_unreadCount_nonneg. exact H.
Qed.

Lemma mark_all_length (clock : Clock) (l : list Notification.t) (k : nat) :
  length (mark_all clock k l) = length l.
Proof.
  revert k. induction l as [|n l IH]; intros k; simpl; [reflexivity|].
  rewrite IH. reflexivity.
Qed.

Lemma mark_all_ids (clock : Clock) (l : list Notification.t) (k : nat) :
  map Notification.id (mark_all clock k l) = map Notification.id l.
Proof.
  revert k. induction l as [|n l IH]; intros k; simpl; [reflexivity|].
  rewrite IH. reflexivity.
Qed.

Lemma mark_all_read (clock : Clock) (l : list Notification.t) (k : nat) :
  Forall (fun n => Notification.is_read n = true /\ Notification.read_at n <> None)
         (mark_all clock k l).
Proof.
  revert k. induction l as [|n l IH]; intros k; simpl; constructor.
  - split; [reflexivity | discriminate].
  - apply IH.
Qed.

Lemma onUpdate_replaces (old new : Notification.t) (s : State) (n : Notification.t) :
  In n (notifications (onUpdate old new s)) ->
  Notification.id n = Notification.id new -> n = new.
Proof.
  intros Hin Hid.
  assert (Hin' : In n (map (fun m => if Notification.id m =? Notification.id new
                                     then new else m) (notifications s))).
  { unfold onUpdate in Hin.
    destruct (negb (Notification.is_read old) && Notification.is_read new);
      exact Hin. }
  apply in_map_iff in Hin'. destruct Hin' as (m & Hm & _).
  destruct (Z.eqb_spec (Notification.id m) (Notification.id new)) as [_|Hne].
  - symmetry. exact Hm.
  - subst n. contradiction.
Qed.

End UseNotificationsFacts.


(** *** Unread count against the held rows (C3) *)

Section UnreadCountAfterInserts.

Import UseNotifications.

(** C3, as stated, fails: with fifty unread rows fetched, one more insert
    leaves fifty unread rows in the held list and an unread count of 51. *)
Lemma unreadCount_exceeds_held_unread :
  let s := run (fetched (Samples.unread_rows 50))
               (map Insert [Samples.notification 51 false]) in
  unreadCount s = 51
  /\ count_unread (notifications s) = 50
  /\ unreadCount s <> count_unread (notifications s).
Proof. vm_compute. repeat split; congruence. Qed.

(** C3, amended: after any sequence of insert events on a fetched state
    the unread count is the fetched unread count plus the number of
    events, the held list is the newest fifty rows, and the count agrees
    with the unread rows held as long as every inserted row is unread and
    nothing has left the fifty-row window. *)
Theorem unreadCount_after_inserts (data inserted : list Notification.t) :
  (length data <= 50)%nat ->
  let s := run (fetched data) (map Insert inserted) in
  unreadCount s = count_unread data + Z.of_nat (length inserted)
  /\ notifications s = firstn 50 (rev inserted ++ data)
  /\ (Forall (fun n => Notification.is_read n = false) inserted ->
      (length data + length inserted <= 50)%nat ->
      unreadCount s = count_unread (notifications s)).
Proof.
  intros Hlen s.
  assert (Hc : unreadCount s = count_unread data + Z.of_nat (length inserted)).
  { subst s. rewrite inserts_unreadCount. reflexivity. }
  assert (Hn : notifications s = firstn 50 (rev inserted ++ data)).
  { subst s. rewrite inserts_notifications; [reflexivity | exact Hlen]. }
  split; [exact Hc|]. split; [exact Hn|].
  intros Hunread Hfit.
  rewrite Hc, Hn.
  rewrite firstn_all2 by (rewrite length_app, length_rev; lia).
  rewrite count_unread_app.
  assert (Hrev : count_unread (rev inserted) = Z.of_nat (length inserted)).
  { unfold count_unread. rewrite filter_all.
    - rewrite length_rev. reflexivity.
    - apply Forall_rev.
      eapply Forall_impl; [|exact Hunread].
      intros n Hn'. unfold unread. rewrite Hn'. reflexivity. }
  lia.
Qed.

Lemma unreadCount_after_inserts_witness :
  let s := run (fetched (Samples.unread_rows 2))
               (map Insert [Samples.notification 3 false]) in
  unreadCount s = 3 /\ unreadCount s = count_unread (notifications s).
Proof.
  pose proof (unreadCount_after_inserts
                (Samples.unread_rows 2) [Samples.notification 3 false]) as H.
  destruct H as (Hc & _ & Hheld).
  - vm_compute. lia.
  - split.
    + exact Hc.
    + apply Hheld.
      * repeat constructor.
      * vm_compute. lia.
Defined.

End UnreadCountAfterInserts.

(** *** The unread count stays non-negative (C9) *)

Section UnreadCountNonNegative.

Import UseNotifications.

(** C9: every operation of the hook (fetch, insert event, update event,
    [markAsRead], [markAllAsRead]) keeps the unread count non-negative;
    hence so does every run from the initial state or from a fetched
    state. *)
Theorem unreadCount_never_negative (s : State) (actions : list Action) :
  0 <= unreadCount s ->
  (forall a, 0 <= unreadCount (step s a))
  /\ 0 <= unreadCount (run s actions)
  /\ 0 <= unreadCount (run initial actions)
  /\ (forall data, 0 <= unreadCount (run (fetched data) actions)).
Proof.
  intros H. repeat split.
  - intros a. apply step_unreadCount_nonneg. exact H.
  - apply run_unreadCount_nonneg. exact H.
  - apply run_unreadCount_nonneg. simpl. lia.
  - intros data. apply run_unreadCount_nonneg.
    destruct (fetched_state data) as (_ & Hc & _).
    rewrite Hc. apply count_unread_nonneg.
Qed.

Lemma unreadCount_never_negative_witness :
  0 <= unreadCount
         (run initial
            [ Insert (Samples.notification 1 false);
              Update (Samples.notification 1 false) (Samples.notification 1 true);
              Update (Samples.notification 2 false) (Samples.notification 2 true);
              MarkAllAsRead Samples.clock Samples.updated ]).
Proof.
  apply (unreadCount_never_negative initial).
  simpl. lia.
Defined.

End UnreadCountNonNegative.

(** *** [markAllAsRead] (C10) *)

Section MarkAllAsRead.

Import UseNotifications.

(** C10: when the client or the update throws, [markAllAsRead] leaves the
    held rows and the unread count as they were and only prints the
    error; when the update resolves, every held row is read and carries a
    read timestamp, the rows are otherwise the same, and the unread count
    is zero. *)
Theorem markAllAsRead_all_or_nothing (clock : Clock) (s : State) :
  (forall e,
      state (markAllAsRead clock (ClientThrows e) s) = s
      /\ console (markAllAsRead clock (ClientThrows e) s)
         = [console_error "Error marking all notifications as read:" (JString e)])
  /\ (forall e,
      state (markAllAsRead clock (RequestThrows e) s) = s
      /\ console (markAllAsRead clock (RequestThrows e) s)
         = [console_error "Error marking all notifications as read:" (JString e)])
  /\ (forall r,
      let s' := state (markAllAsRead clock (Resolves r) s) in
      unreadCount s' = 0
      /\ Forall (fun n => Notification.is_read n = true
                          /\ Notification.read_at n <> None) (notifications s')
      /\ map Notification.id (notifications s') = map Notification.id (notifications s)
      /\ console (markAllAsRead clock (Resolves r) s) = []).
Proof.
  split; [|split].
  - intros e. split; reflexivity.
  - intros e. split; reflexivity.
  - intros r. cbn. repeat split.
    + apply mark_all_read.
    + apply mark_all_ids.
Qed.

End MarkAllAsRead.

(** *** [markAsRead] (C4, C5) *)

Section MarkAsRead.

Import UseNotifications.

(** C4, as stated, fails: after [markAsRead(7)] has resolved, the held row
    7 is still unread and the unread count is still 1. *)
Lemma markAsRead_is_not_optimistic :
  let s' := state (markAsRead Samples.clock Samples.updated 7 Samples.one_unread) in
  s' = Samples.one_unread
  /\ map Notification.is_read (notifications s') = [false]
  /\ unreadCount s' = 1.
Proof. repeat split. Qed.

(** C4, amended: [markAsRead(id)] sends one update that sets [is_read] and
    [read_at] on the rows with that id (unless the client cannot be
    built), and leaves the held list and the unread count untouched; the
    local state follows only when the update event comes back. *)
Theorem markAsRead_writes_and_waits (clock : Clock) (id : Z) (s : State)
    (table : list Notification.t) (n : Notification.t) :
  In n table ->
  (forall answer, state (markAsRead clock answer id s) = s)
  /\ (forall e, requests (markAsRead clock (ClientThrows e) id s) = [])
  /\ (forall e, requests (markAsRead clock (RequestThrows e) id s)
                = [UpdateRead (clock 0%nat) (EqId id)])
  /\ (forall r, requests (markAsRead clock (Resolves r) id s)
                = [UpdateRead (clock 0%nat) (EqId id)])
  /\ In (if Notification.id n =? id
         then Notification.mark_read (clock 0%nat) n else n)
        (apply_request (UpdateRead (clock 0%nat) (EqId id)) table)
  /\ (Notification.id n = id ->
      In (n, Notification.mark_read (clock 0%nat) n)
         (echo (UpdateRead (clock 0%nat) (EqId id)) table)).
Proof.
  intros Hin. repeat split.
  - intros [e|e|r]; reflexivity.
  - simpl. apply in_map_iff. exists n. split; [reflexivity | exact Hin].
  - intros Hid. simpl. apply in_map_iff. exists n. split; [reflexivity|].
    apply filter_In. split; [exact Hin|].
    apply Z.eqb_eq. exact Hid.
Qed.

Lemma markAsRead_writes_and_waits_witness :
  In (Samples.notification 7 false,
      Notification.mark_read (Samples.clock 0%nat) (Samples.notification 7 false))
     (echo (UpdateRead (Samples.clock 0%nat) (EqId 7))
           [Samples.notification 8 false; Samples.notification 7 false]).
Proof.
  apply (markAsRead_writes_and_waits Samples.clock 7 initial
           [Samples.notification 8 false; Samples.notification 7 false]
           (Samples.notification 7 false)).
  - simpl. right. left. reflexivity.
  - reflexivity.
Defined.

(** C5: with an unread row [id] held, [markAsRead(id)] followed by the
    update event of that row (unread before, read after) applies the
    floored decrement to the unread count once, not twice: the count goes
    down by one when it was positive, and the held rows with that id are
    the row the event carries. *)
Theorem markAsRead_then_update_decrements_once (clock : Clock)
    (answer : Outcome UpdateResult) (id : Z) (old new : Notification.t) (s : State) :
  (exists n, In n (notifications s)
             /\ Notification.id n = id /\ Notification.is_read n = false) ->
  Notification.id old = id ->
  Notification.id new = id ->
  Notification.is_read old = false ->
  Notification.is_read new = true ->
  let s1 := state (markAsRead clock answer id s) in
  let s2 := onUpdate old new s1 in
  unreadCount s1 = unreadCount s
  /\ unreadCount s2 = Z.max 0 (unreadCount s - 1)
  /\ (1 <= unreadCount s -> unreadCount s2 = unreadCount s - 1)
  /\ (2 <= unreadCount s -> unreadCount s2 <> unreadCount s - 2)
  /\ In new (notifications s2)
  /\ (forall n, In n (notifications s2) -> Notification.id n = id -> n = new).
Proof.
  intros (n & Hin & Hid & Hunread) Hold Hnew Hro Hrn s1 s2.
  assert (Hs1 : s1 = s) by (subst s1; destruct answer; reflexivity).
  assert (Hc : unreadCount s2 = Z.max 0 (unreadCount s - 1)).
  { subst s2. rewrite Hs1. unfold onUpdate. rewrite Hro, Hrn. reflexivity. }
  split; [rewrite Hs1; reflexivity|].
  split; [exact Hc|].
  split; [intros; lia|].
  split; [intros; lia|].
  split.
  - assert (Hmap : In new (map (fun m => if Notification.id m =? Notification.id new
                                         then new else m) (notifications s))).
    { apply in_map_iff. exists n. split; [|exact Hin].
      rewrite Hid, Hnew, Z.eqb_refl. reflexivity. }
    subst s2. rewrite Hs1. unfold onUpdate. rewrite Hro, Hrn. exact Hmap.
  - intros m Hm Hmid. subst s2.
    apply (onUpdate_replaces old new s1 m Hm). congruence.
Qed.

Lemma markAsRead_then_update_decrements_once_witness :
  unreadCount
    (onUpdate (Samples.notification 7 false) (Samples.notification 7 true)
       (state (markAsRead Samples.clock Samples.updated 7 Samples.one_unread)))
  = 0.
Proof.
  destruct (markAsRead_then_update_decrements_once
              Samples.clock Samples.updated 7
              (Samples.notification 7 false) (Samples.notification 7 true)
              Samples.one_unread) as (_ & H & _).
  - exists (Samples.notification 7 false).
    split; [left; reflexivity | split; reflexivity].
  - reflexivity.
  - reflexivity.
  - reflexivity.
  - reflexivity.
  - exact H.
Defined.

End MarkAsRead.

(** ** [RecentTrades] (C6) *)

Section RecentTradesFacts.

Import RecentTradesPanel.

Lemma onNewTrade_length (trade : Trade.t) (s : State) :
  (length (trades (onNewTrade trade s)) <= 5)%nat.
Proof.
  unfold onNewTrade, JS.slice0. cbn [trades].
  rewrite length_firstn. lia.
Qed.

Lemma onTradeUpdate_length (updatedTrade : Trade.t) (s : State) :
  length (trades (onTradeUpdate updatedTrade s)) = length (trades s).
Proof. unfold onTradeUpdate. cbn [trades]. apply length_map. Qed.

Lemma insertAll_length (inserted : list Trade.t) (s : State) :
  (length (trades s) <= 5)%nat ->
  (length (trades (insertAll inserted s)) <= 5)%nat.
Proof.
  revert s. induction inserted as [|t inserted IH]; intros s H.
  - exact H.
  - apply IH. apply onNewTrade_length.
Qed.

(** C6, as stated, fails: the component starts from the list it is given,
    so with six initial trades and no insert event it holds six rows. *)
Lemma recent_trades_initial_list_uncapped :
  length (trades (insertAll [] (mount Samples.six_trades))) = 6%nat
  /\ ~ (length (trades (insertAll [] (mount Samples.six_trades))) <= 5)%nat.
Proof. vm_compute. split; [reflexivity | lia]. Qed.

(** C6, amended: whatever the initial list, the recent-trades list holds at
    most five rows once at least one insert event has been processed; from
    an initial list of at most five rows it never holds more than five. *)
Theorem recent_trades_at_most_five (initialTrades inserted : list Trade.t) :
  inserted <> [] \/ (length initialTrades <= 5)%nat ->
  (length (trades (insertAll inserted (mount initialTrades))) <= 5)%nat.
Proof.
  intros [Hne | Hlen].
  - destruct inserted as [|t inserted]; [contradiction|].
    change (insertAll (t :: inserted) (mount initialTrades))
      with (insertAll inserted (onNewTrade t (mount initialTrades))).
    apply insertAll_length. apply onNewTrade_length.
  - apply insertAll_length. exact Hlen.
Qed.

Lemma recent_trades_at_most_five_witness :
  (length (trades (insertAll [Samples.trade 7 "pending"]
                             (mount Samples.six_trades))) <= 5)%nat.
Proof.
  apply (recent_trades_at_most_five Samples.six_trades [Samples.trade 7 "pending"]).
  left. discriminate.
Defined.

End RecentTradesFacts.

(** ** The dashboard page (C1) *)

(** C1 at its own input: with total value 100 and total profit 100 the
    guard [totalValue > 0] passes, the divisor [totalValue - totalProfit]
    is zero, and the profit rate is [Infinity], not [0].  The guard turns
    the rate into [0] only for a total value that is not positive, such
    as the one of an empty portfolio. *)
Theorem profitRate_value_equals_profit :
  let summary :=
    Dashboard.getPortfolioSummary (T := Trade.t) (Some [Samples.free_shares]) (Some []) in
  Dashboard.totalValue summary = JS.of_Z 100
  /\ Dashboard.totalProfit summary = JS.of_Z 100
  /\ Dashboard.profitRate summary = JS.infinity
  /\ Dashboard.computeProfitRate (JS.of_Z 100) (JS.of_Z 100) = JS.infinity
  /\ JS.infinity <> JS.zero
  /\ Dashboard.profitRate
       (Dashboard.getPortfolioSummary (T := Trade.t) (Some []) (Some [])) = JS.zero.
Proof. vm_compute. repeat split; discriminate. Qed.

(** ** The portfolio alert trigger (C7) *)

Section PortfolioAlerts.

Import Sql.

Lemma loss_threshold_is_5 (rate : numeric) :
  Numeric.leb rate (Numeric.neg loss_threshold) = Numeric.leb rate (Numeric.of_Z (-5)).
Proof.
  unfold Numeric.leb, Numeric.neg, loss_threshold, Numeric.of_Z, Numeric.pow10.
  cbn [unscaled scale].
  change (10 ^ Z.of_nat 1) with 10. change (10 ^ Z.of_nat 0) with 1.
  destruct (Z.leb_spec (unscaled rate * 10) (- (50) * 10 ^ Z.of_nat (scale rate)));
    destruct (Z.leb_spec (unscaled rate * 1) (-5 * 10 ^ Z.of_nat (scale rate)));
    try reflexivity; lia.
Qed.

Lemma profit_threshold_is_10 (rate : numeric) :
  Numeric.leb profit_threshold rate = Numeric.leb (Numeric.of_Z 10) rate.
Proof.
  unfold Numeric.leb, profit_threshold, Numeric.of_Z, Numeric.pow10.
  cbn [unscaled scale].
  change (10 ^ Z.of_nat 1) with 10. change (10 ^ Z.of_nat 0) with 1.
  destruct (Z.leb_spec (100 * 10 ^ Z.of_nat (scale rate)) (unscaled rate * 10));
    destruct (Z.leb_spec (10 * 10 ^ Z.of_nat (scale rate)) (unscaled rate * 1));
    try reflexivity; lia.
Qed.

Lemma pow10_pos (n : nat) : 0 < Numeric.pow10 n.
Proof. unfold Numeric.pow10. apply Z.pow_pos_nonneg; lia. Qed.

(** Two rates on different sides of a level are different values. *)
Lemma leb_separates (a b t : numeric) :
  Numeric.leb a t = false -> Numeric.leb b t = true -> Numeric.eqb a b = false.
Proof.
  unfold Numeric.leb, Numeric.eqb. intros Ha Hb.
  apply Z.leb_gt in Ha. apply Z.leb_le in Hb. apply Z.eqb_neq. intros Heq.
  pose proof (pow10_pos (scale a)) as Pa.
  pose proof (pow10_pos (scale b)) as Pb.
  pose proof (pow10_pos (scale t)) as Pt.
  assert (H1 : unscaled t * Numeric.pow10 (scale a) * Numeric.pow10 (scale b)
               < unscaled a * Numeric.pow10 (scale t) * Numeric.pow10 (scale b))
    by (apply Z.mul_lt_mono_pos_r; assumption).
  assert (H2 : unscaled b * Numeric.pow10 (scale t) * Numeric.pow10 (scale a)
               <= unscaled t * Numeric.pow10 (scale b) * Numeric.pow10 (scale a))
    by (apply Z.mul_le_mono_nonneg_r; lia).
  assert (H3 : unscaled a * Numeric.pow10 (scale b) * Numeric.pow10 (scale t)
               = unscaled b * Numeric.pow10 (scale a) * Numeric.pow10 (scale t))
    by (rewrite Heq; reflexivity).
  lia.
Qed.

Lemma leb_separates' (a b t : numeric) :
  Numeric.leb t a = false -> Numeric.leb t b = true -> Numeric.eqb a b = false.
Proof.
  unfold Numeric.leb, Numeric.eqb. intros Ha Hb.
  apply Z.leb_gt in Ha. apply Z.leb_le in Hb. apply Z.eqb_neq. intros Heq.
  pose proof (pow10_pos (scale a)) as Pa.
  pose proof (pow10_pos (scale b)) as Pb.
  pose proof (pow10_pos (scale t)) as Pt.
  assert (H1 : unscaled a * Numeric.pow10 (scale t) * Numeric.pow10 (scale b)
               < unscaled t * Numeric.pow10 (scale a) * Numeric.pow10 (scale b))
    by (apply Z.mul_lt_mono_pos_r; assumption).
  assert (H2 : unscaled t * Numeric.pow10 (scale b) * Numeric.pow10 (scale a)
               <= unscaled b * Numeric.pow10 (scale t) * Numeric.pow10 (scale a))
    by (apply Z.mul_le_mono_nonneg_r; lia).
  assert (H3 : unscaled a * Numeric.pow10 (scale b) * Numeric.pow10 (scale t)
               = unscaled b * Numeric.pow10 (scale a) * Numeric.pow10 (scale t))
    by (rewrite Heq; reflexivity).
  lia.
Qed.

Lemma varchar_fits (n : nat) (s : string) :
  Nat.ltb n (char_length s) = false -> varchar n s = Some s.
Proof. intros H. unfold varchar. rewrite H. reflexivity. Qed.

Lemma severity_fits (x : string) (sev : Severity) :
  severity_of_text x = Some sev -> varchar 20 x = Some x.
Proof.
  unfold severity_of_text.
  destruct (String.eqb_spec x "info") as [->|_]; [reflexivity|].
  destruct (String.eqb_spec x "warning") as [->|_]; [reflexivity|].
  destruct (String.eqb_spec x "critical") as [->|_]; [reflexivity|].
  discriminate.
Qed.

(** An insert whose constant columns pass the table's constraints stores
    the row under the next id. *)
Lemma insert_notification_accepted (ty ti msg : string) (sev : option string)
    (s : Severity) (data : option json) (at_ : string) (db : Database) :
  Nat.ltb 50 (char_length ty) = false ->
  Nat.ltb 200 (char_length ti) = false ->
  severity_of_text (match sev with Some x => x | None => "info" end) = Some s ->
  insert_notification
    {| new_type := Some ty; new_title := Some ti; new_message := Some msg;
       new_severity := sev; new_data := data; new_created_at := at_ |} db
  = (inl tt,
     {| notifications :=
          (notifications db
           ++ [ {| Notification.id := notifications_id_seq db;
                   Notification.type := ty;
                   Notification.title := ti;
                   Notification.message := msg;
                   Notification.severity := s;
                   Notification.data := data;
                   Notification.is_read := false;
                   Notification.read_at := None;
                   Notification.created_at := at_ |} ])%list;
        notifications_id_seq := notifications_id_seq db + 1;
        strategies := strategies db;
        notified := notified db |}).
Proof.
  intros Hty Hti Hsev.
  unfold insert_notification, check_row.
  cbn [new_type new_title new_message new_severity new_data new_created_at].
  rewrite (varchar_fits _ _ Hty), (varchar_fits _ _ Hti), (severity_fits _ _ Hsev), Hsev.
  reflexivity.
Qed.

(** What the trigger appends, as a function of the two rates. *)
Lemma portfolio_alerts_added (OLD NEW : Position) (NOW : string) (db : Database) :
  let r := trigger_check_portfolio_alerts OLD NEW NOW db in
  fst r = None
  /\ exists added,
       notifications (snd r) = (notifications db ++ added)%list
       /\ types_and_severities added
          = if negb (Numeric.eqb (profit_loss_rate OLD) (profit_loss_rate NEW))
            then ((if Numeric.leb (profit_loss_rate NEW) (Numeric.of_Z (-5))
                   then [("stop_loss", critical)] else [])
                  ++ (if Numeric.leb (Numeric.of_Z 10) (profit_loss_rate NEW)
                      then [("take_profit", info)] else []))%list
            else [].
Proof.
  cbv zeta. unfold trigger_check_portfolio_alerts.
  rewrite <- loss_threshold_is_5, <- profit_threshold_is_10.
  destruct (negb (Numeric.eqb (profit_loss_rate OLD) (profit_loss_rate NEW))).
  - unfold after_row, check_portfolio_alerts, Exn.bind, Exn.when, Exn.ret.
    destruct (Numeric.leb (profit_loss_rate NEW) (Numeric.neg loss_threshold));
      destruct (Numeric.leb profit_threshold (profit_loss_rate NEW));
      repeat (erewrite insert_notification_accepted by reflexivity);
      cbn [fst snd notifications]; (split; [reflexivity|]); eexists.
    + split; [rewrite <- app_assoc; reflexivity | reflexivity].
    + split; reflexivity.
    + split; reflexivity.
    + split; [symmetry; apply app_nil_r | reflexivity].
  - split; [reflexivity|]. exists []. rewrite app_nil_r. split; reflexivity.
Qed.

(** The trigger never reads the [strategies] table. *)
Lemma portfolio_alerts_ignore_strategies (OLD NEW : Position) (NOW : string)
    (db : Database) (configured : list Strategy) :
  notifications (snd (trigger_check_portfolio_alerts OLD NEW NOW
                        (with_strategies configured db)))
  = notifications (snd (trigger_check_portfolio_alerts OLD NEW NOW db)).
Proof.
  unfold trigger_check_portfolio_alerts.
  destruct (negb (Numeric.eqb (profit_loss_rate OLD) (profit_loss_rate NEW)));
    [|reflexivity].
  unfold after_row, check_portfolio_alerts, Exn.bind, Exn.when, Exn.ret.
  destruct (Numeric.leb (profit_loss_rate NEW) (Numeric.neg loss_threshold));
    destruct (Numeric.leb profit_threshold (profit_loss_rate NEW));
    repeat (erewrite insert_notification_accepted by reflexivity);
    reflexivity.
Qed.

(** C7: the trigger on [portfolio] updates never fails and, when the rate
    has changed, appends a critical [stop_loss] row if the new rate is at
    most -5 and an info [take_profit] row if it is at least 10, and
    nothing else; in particular a rate that crosses one of the two levels
    gets its notification.  The levels are these constants whatever the
    [strategies] table holds. *)
Theorem portfolio_alert_fixed_thresholds (OLD NEW : Position) (NOW : string)
    (db : Database) :
  let r := trigger_check_portfolio_alerts OLD NEW NOW db in
  let rate := profit_loss_rate NEW in
  fst r = None
  /\ (exists added,
        notifications (snd r) = (notifications db ++ added)%list
        /\ types_and_severities added
           = (if negb (Numeric.eqb (profit_loss_rate OLD) rate)
              then ((if Numeric.leb rate (Numeric.of_Z (-5))
                     then [("stop_loss", critical)] else [])
                    ++ (if Numeric.leb (Numeric.of_Z 10) rate
                        then [("take_profit", info)] else []))%list
              else [])
        /\ (Numeric.leb (profit_loss_rate OLD) (Numeric.of_Z (-5)) = false ->
            Numeric.leb rate (Numeric.of_Z (-5)) = true ->
            In ("stop_loss", critical) (types_and_severities added))
        /\ (Numeric.leb (Numeric.of_Z 10) (profit_loss_rate OLD) = false ->
            Numeric.leb (Numeric.of_Z 10) rate = true ->
            In ("take_profit", info) (types_and_severities added)))
  /\ (forall configured,
        notifications (snd (trigger_check_portfolio_alerts OLD NEW NOW
                              (with_strategies configured db)))
        = notifications (snd r)).
Proof.
  intros r rate.
  destruct (portfolio_alerts_added OLD NEW NOW db) as (Hok & added & Hrows & Hkinds).
  fold r in Hok, Hrows. fold rate in Hkinds.
  split; [exact Hok|]. split.
  - exists added. split; [exact Hrows|]. split; [exact Hkinds|]. split.
    + intros Hold Hnew. rewrite Hkinds.
      rewrite (leb_separates _ _ _ Hold Hnew), Hnew. cbn. left. reflexivity.
    + intros Hold Hnew. rewrite Hkinds.
      rewrite (leb_separates' _ _ _ Hold Hnew), Hnew. cbn [negb].
      apply in_or_app. right. left. reflexivity.
  - intros configured. apply portfolio_alerts_ignore_strategies.
Qed.

Lemma portfolio_alert_fixed_thresholds_witness :
  exists added,
    Sql.notifications
      (snd (trigger_check_portfolio_alerts
              (Samples.position (-400)) (Samples.position (-525))
              "2026-02-04T00:00:05.000Z" Sql.empty)) = added
    /\ In ("stop_loss", critical) (types_and_severities added).
Proof.
  destruct (portfolio_alert_fixed_thresholds
              (Samples.position (-400)) (Samples.position (-525))
              "2026-02-04T00:00:05.000Z" Sql.empty)
    as (_ & (added & Hrows & _ & Hdown & _) & _).
  exists added. split.
  - exact Hrows.
  - apply Hdown; reflexivity.
Defined.

End PortfolioAlerts.

(** ** The edge functions (C2, C8) *)

Section EdgeFacts.

Import Edge.

Lemma relay_missing_url (rt : Runtime) (make_body : string -> json) (w : World) :
  truthy (env_get rt "NOTIFICATION_WEBHOOK_URL") = false ->
  relay rt make_body w
  = (inl tt,
     {| db := db w;
        console := (console w
                    ++ [console_log "No webhook URL configured, skipping external notification"])%list;
        posted := posted w;
        clock_reads := clock_reads w |}).
Proof. intros H. unfold relay. rewrite H. reflexivity. Qed.

Lemma relay_answered (rt : Runtime) (make_body : string -> json) (w : World) (st : Z) :
  truthy (env_get rt "NOTIFICATION_WEBHOOK_URL") = true ->
  (forall u b, fetch rt u b = FetchResponse st) ->
  relay rt make_body w
  = (inl tt,
     {| db := db w;
        console := if response_ok st then console w
                   else (console w
                         ++ [console_error "Webhook notification failed:" (JInt st)])%list;
        posted := (posted w
                   ++ [ {| url := match env_get rt "NOTIFICATION_WEBHOOK_URL" with
                                  | Some u => u
                                  | None => ""
                                  end;
                           body := make_body (clock rt (clock_reads w)) |} ])%list;
        clock_reads := S (clock_reads w) |}).
Proof.
  intros H Hf. unfold relay. rewrite H. cbn [negb].
  unfold Exn.try_catch, Exn.bind, now, post. rewrite Hf.
  cbn [db console posted clock_reads].
  destruct (response_ok st); reflexivity.
Qed.

Lemma relay_thrown (rt : Runtime) (make_body : string -> json) (w : World) (e : string) :
  truthy (env_get rt "NOTIFICATION_WEBHOOK_URL") = true ->
  (forall u b, fetch rt u b = FetchThrows e) ->
  relay rt make_body w
  = (inl tt,
     {| db := db w;
        console := (console w
                    ++ [console_error "Error sending webhook notification:" (JString e)])%list;
        posted := (posted w
                   ++ [ {| url := match env_get rt "NOTIFICATION_WEBHOOK_URL" with
                                  | Some u => u
                                  | None => ""
                                  end;
                           body := make_body (clock rt (clock_reads w)) |} ])%list;
        clock_reads := S (clock_reads w) |}).
Proof.
  intros H Hf. unfold relay. rewrite H. cbn [negb].
  unfold Exn.try_catch, Exn.bind, now, post. rewrite Hf. reflexivity.
Qed.

(** The relay never throws and never touches the database. *)
Lemma relay_swallows (rt : Runtime) (make_body : string -> json) (w : World) :
  exists w', relay rt make_body w = (inl tt, w')
             /\ db w' = db w
             /\ exists printed, console w' = (console w ++ printed)%list.
Proof.
  unfold relay.
  destruct (truthy (env_get rt "NOTIFICATION_WEBHOOK_URL")); cbn [negb].
  - unfold Exn.try_catch, Exn.bind, now, post.
    destruct (fetch rt _ _) as [st|e].
    + unfold Exn.when. destruct (response_ok st); cbn.
      * eexists. split; [reflexivity|]. split; [reflexivity|].
        exists []. symmetry. apply app_nil_r.
      * eexists. split; [reflexivity|]. split; [reflexivity|].
        eexists. reflexivity.
    + cbn. eexists. split; [reflexivity|]. split; [reflexivity|].
      eexists. reflexivity.
  - cbn. eexists. split; [reflexivity|]. split; [reflexivity|].
    eexists. reflexivity.
Qed.

(** A failing relay prints its line last and changes nothing else that the
    handlers look at. *)
Lemma relay_failure_logged (rt : Runtime) (entry : LogEntry)
    (make_body : string -> json) (w : World) :
  RelayFails rt entry ->
  exists w', relay rt make_body w = (inl tt, w')
             /\ db w' = db w
             /\ console w' = (console w ++ [entry])%list.
Proof.
  intros [Hurl | st Hurl Hf Hst | e Hurl Hf].
  - rewrite (relay_missing_url _ _ _ Hurl). eexists. repeat split.
  - rewrite (relay_answered _ _ _ st Hurl Hf). rewrite Hst. eexists. repeat split.
  - rewrite (relay_thrown _ _ _ e Hurl Hf). eexists. repeat split.
Qed.

Ltac expose_relay :=
  cbv beta iota zeta delta
    [ respond Exn.bind Exn.when Exn.ret Exn.throw Exn.modify Exn.gets
      req_json log supabase now insert with_db
      NotifyTrade.serve NotifyTrade.sendTradeExecutedNotification
      NotifyTrade.sendNewTradeNotification NotifyTrade.sendWebhookNotification
      NotifyAlert.serve NotifyAlert.processAlert NotifyAlert.sendWebhookNotification
      NotifyAlert.sendUrgentNotification
      with_webhook getSupabaseClient database_reachable clock toLocaleString
      corsHeaders json_headers success preflight
      db console posted clock_reads fst snd ].

Ltac swallow_relay :=
  match goal with
  | |- context [relay ?r ?mk ?w] =>
      let w' := fresh "w'" in
      let E := fresh "E" in
      let D := fresh "D" in
      destruct (relay_swallows r mk w) as (w' & E & D & _);
      rewrite E; clear E
  end.

Ltac finish_independent :=
  repeat swallow_relay;
  cbv beta iota zeta delta [fst snd db] in *;
  split; [reflexivity | congruence].

Lemma trade_serve_webhook_independent (rt : Runtime) (webhookUrl : option string)
    (net : string -> json -> FetchOutcome)
    (req : Request NotifyTrade.WebhookPayload) (w : World) :
  fst (NotifyTrade.serve (with_webhook webhookUrl net rt) req w)
  = fst (NotifyTrade.serve rt req w)
  /\ db (snd (NotifyTrade.serve (with_webhook webhookUrl net rt) req w))
     = db (snd (NotifyTrade.serve rt req w)).
Proof.
  destruct rt as [eg [cl|] dr fe ck tl ch];
    destruct req as [m [[ty tb rcd old sch]|e]];
    unfold NotifyTrade.serve; cbn [method json_body];
    (destruct (String.eqb m "OPTIONS"); [split; reflexivity|]);
    try (split; reflexivity);
    destruct ty;
    try (split; reflexivity);
    unfold NotifyTrade.became_executed;
    cbn [NotifyTrade.type NotifyTrade.record NotifyTrade.old_record
         Sql.is_update Sql.is_insert andb];
    try (split; reflexivity).
  - expose_relay.
    cbn [json_body NotifyTrade.type NotifyTrade.record NotifyTrade.old_record
         Sql.is_update Sql.is_insert andb].
    finish_independent.
  - expose_relay.
    cbn [json_body NotifyTrade.type NotifyTrade.record NotifyTrade.old_record
         Sql.is_update Sql.is_insert andb].
    destruct (negb _ && _); [|split; reflexivity].
    finish_independent.
Qed.

Lemma alert_serve_webhook_independent (rt : Runtime) (webhookUrl : option string)
    (net : string -> json -> FetchOutcome)
    (req : Request NotifyAlert.AlertRequest) (w : World) :
  fst (NotifyAlert.serve (with_webhook webhookUrl net rt) req w)
  = fst (NotifyAlert.serve rt req w)
  /\ db (snd (NotifyAlert.serve (with_webhook webhookUrl net rt) req w))
     = db (snd (NotifyAlert.serve rt req w)).
Proof.
  destruct rt as [eg [cl|] dr fe ck tl ch];
    destruct req as [m [alert|e]];
    unfold NotifyAlert.serve; cbn [method json_body];
    (destruct (String.eqb m "OPTIONS"); [split; reflexivity|]);
    try (split; reflexivity).
  expose_relay. cbn [json_body env_get].
  destruct (NotifyAlert.missing_fields alert); [split; reflexivity|].
  destruct (String.eqb (NotifyAlert.severity alert) "critical").
  - cbv beta iota.
    change (String.eqb "EMAIL_API_KEY" "NOTIFICATION_WEBHOOK_URL") with false.
    change (String.eqb "ALERT_EMAIL" "NOTIFICATION_WEBHOOK_URL") with false.
    change (String.eqb "SMS_API_KEY" "NOTIFICATION_WEBHOOK_URL") with false.
    change (String.eqb "ALERT_PHONE" "NOTIFICATION_WEBHOOK_URL") with false.
    cbv beta iota.
    destruct (truthy (eg "EMAIL_API_KEY") && truthy (eg "ALERT_EMAIL"));
      destruct (truthy (eg "SMS_API_KEY") && truthy (eg "ALERT_PHONE"));
      finish_independent.
  - finish_independent.
Qed.

Ltac run_to_relay :=
  cbv beta iota zeta delta
    [ respond Exn.bind Exn.when Exn.ret Exn.throw Exn.modify Exn.gets
      req_json log supabase now insert with_db
      NotifyTrade.serve NotifyTrade.sendTradeExecutedNotification
      NotifyTrade.sendNewTradeNotification NotifyTrade.sendWebhookNotification
      NotifyAlert.serve NotifyAlert.processAlert NotifyAlert.sendWebhookNotification
      NotifyAlert.sendUrgentNotification
      getSupabaseClient database_reachable clock toLocaleString
      corsHeaders json_headers success preflight ];
  cbn [db console posted clock_reads fst snd json_body method].

Ltac fail_relay H :=
  match goal with
  | |- context [relay ?r ?mk ?w] =>
      let w' := fresh "w'" in
      let E := fresh "E" in
      let D := fresh "D" in
      let C := fresh "C" in
      destruct (relay_failure_logged r _ mk w H) as (w' & E & D & C);
      rewrite E; clear E;
      cbn [db console posted clock_reads fst snd] in C, D |- *
  end.

Ltac printed_before_entry C :=
  rewrite C;
  match goal with
  | |- context [(?cw ++ _ ++ [_])%list] =>
      repeat rewrite <- (app_assoc cw); eexists; reflexivity
  end.

Lemma trade_serve_relay_failure (rt : Runtime) (entry : LogEntry) (m : string)
    (p : NotifyTrade.WebhookPayload) (w : World) :
  RelayFails rt entry ->
  String.eqb m "OPTIONS" = false ->
  getSupabaseClient rt = None ->
  NotifyTrade.became_executed p || Sql.is_insert (NotifyTrade.type p) = true ->
  let r := NotifyTrade.serve rt {| method := m; json_body := inl p |} w in
  fst r = success rt "Notification processed"
  /\ exists printed, console (snd r) = (console w ++ printed ++ [entry])%list.
Proof.
  destruct rt as [eg cl [|] fe ck tl ch]; destruct p as [ty tb rcd old sch];
    intros H Hm Hc Hp r; subst r; cbn in Hc; subst cl;
    unfold NotifyTrade.serve; cbn [method]; rewrite Hm;
    unfold NotifyTrade.became_executed in *;
    cbn [NotifyTrade.type NotifyTrade.record NotifyTrade.old_record] in *;
    destruct ty; cbn [Sql.is_update Sql.is_insert andb orb] in *;
    try discriminate.
  all: run_to_relay.
  all: cbn [NotifyTrade.type NotifyTrade.record NotifyTrade.old_record
            Sql.is_update Sql.is_insert andb].
  all: try (rewrite orb_false_r in Hp; rewrite Hp).
  all: fail_relay H; (split; [reflexivity | printed_before_entry C]).
Qed.

Lemma alert_serve_relay_failure (rt : Runtime) (entry : LogEntry) (m : string)
    (alert : NotifyAlert.AlertRequest) (w : World) :
  RelayFails rt entry ->
  String.eqb m "OPTIONS" = false ->
  getSupabaseClient rt = None ->
  NotifyAlert.missing_fields alert = false ->
  let r := NotifyAlert.serve rt {| method := m; json_body := inl alert |} w in
  fst r = success rt "Alert processed"
  /\ exists printed, console (snd r) = (console w ++ printed ++ [entry])%list.
Proof.
  destruct rt as [eg cl [|] fe ck tl ch];
    intros H Hm Hc Hp r; subst r; cbn in Hc; subst cl;
    unfold NotifyAlert.serve; cbn [method]; rewrite Hm.
  all: run_to_relay; rewrite Hp.
  all: destruct (String.eqb (NotifyAlert.severity alert) "critical").
  all: cbn [env_get].
  all: try (destruct (truthy (eg "EMAIL_API_KEY") && truthy (eg "ALERT_EMAIL"));
            destruct (truthy (eg "SMS_API_KEY") && truthy (eg "ALERT_PHONE"))).
  all: cbn [db console posted clock_reads fst snd].
  all: fail_relay H; (split; [reflexivity | printed_before_entry C]).
Qed.

(** C8: whatever fails in the outbound relay (no URL configured, an
    answer that is not OK, a [fetch] that throws), the handlers print the
    failure and go on: a request that gets as far as the relay is answered
    200 with [success: true], and for every request the answer and the
    notifications table are the ones of any other webhook configuration,
    a working one included. *)
Theorem webhook_failure_is_swallowed (rt : Runtime) (entry : LogEntry) (w : World) :
  RelayFails rt entry ->
  getSupabaseClient rt = None ->
  (forall m p,
      String.eqb m "OPTIONS" = false ->
      NotifyTrade.became_executed p || Sql.is_insert (NotifyTrade.type p) = true ->
      let r := NotifyTrade.serve rt {| method := m; json_body := inl p |} w in
      status (fst r) = 200
      /\ payload (fst r)
         = Json (JObject [ ("success", JBool true);
                           ("message", JString "Notification processed") ])
      /\ exists printed, console (snd r) = (console w ++ printed ++ [entry])%list)
  /\ (forall m alert,
      String.eqb m "OPTIONS" = false ->
      NotifyAlert.missing_fields alert = false ->
      let r := NotifyAlert.serve rt {| method := m; json_body := inl alert |} w in
      status (fst r) = 200
      /\ payload (fst r)
         = Json (JObject [ ("success", JBool true);
                           ("message", JString "Alert processed") ])
      /\ exists printed, console (snd r) = (console w ++ printed ++ [entry])%list)
  /\ (forall webhookUrl net req,
      fst (NotifyTrade.serve (with_webhook webhookUrl net rt) req w)
      = fst (NotifyTrade.serve rt req w)
      /\ db (snd (NotifyTrade.serve (with_webhook webhookUrl net rt) req w))
         = db (snd (NotifyTrade.serve rt req w)))
  /\ (forall webhookUrl net req,
      fst (NotifyAlert.serve (with_webhook webhookUrl net rt) req w)
      = fst (NotifyAlert.serve rt req w)
      /\ db (snd (NotifyAlert.serve (with_webhook webhookUrl net rt) req w))
         = db (snd (NotifyAlert.serve rt req w))).
Proof.
  intros Hfail Hclient. split; [|split; [|split]].
  - intros m p Hm Hp r.
    destruct (trade_serve_relay_failure rt entry m p w Hfail Hm Hclient Hp)
      as (Hr & Hlog).
    fold r in Hr, Hlog. rewrite Hr. repeat split. exact Hlog.
  - intros m alert Hm Hp r.
    destruct (alert_serve_relay_failure rt entry m alert w Hfail Hm Hclient Hp)
      as (Hr & Hlog).
    fold r in Hr, Hlog. rewrite Hr. repeat split. exact Hlog.
  - intros. apply trade_serve_webhook_independent.
  - intros. apply alert_serve_webhook_independent.
Qed.

Lemma webhook_failure_is_swallowed_witness :
  let r := NotifyTrade.serve Samples.runtime_webhook_down
             (NotifyTrade.post_request
                (NotifyTrade.update_payload (Samples.trade 1 "pending")
                                            (Samples.trade 1 "executed")))
             Samples.world in
  status (fst r) = 200
  /\ Sql.count_type "trade_executed" (db (snd r)) = 1%nat.
Proof.
  assert (Hfail : RelayFails Samples.runtime_webhook_down
                    (console_error "Webhook notification failed:" (JInt 503))).
  { apply NotOk; [reflexivity | intros; reflexivity | reflexivity]. }
  destruct (webhook_failure_is_swallowed
              Samples.runtime_webhook_down _ Samples.world Hfail eq_refl)
    as (Htrade & _).
  split.
  - apply (Htrade "POST"
             (NotifyTrade.update_payload (Samples.trade 1 "pending")
                                         (Samples.trade 1 "executed")));
      reflexivity.
  - vm_compute. reflexivity.
Defined.

(** *** Both trigger paths on one update (C2) *)

Lemma count_type_appended (ty : string) (rows : list Notification.t)
    (row : Notification.t) :
  length (filter (fun n => String.eqb (Notification.type n) ty) (rows ++ [row]))
  = (length (filter (fun n => String.eqb (Notification.type n) ty) rows)
     + if String.eqb (Notification.type row) ty then 1 else 0)%nat.
Proof.
  rewrite filter_app, length_app. cbn [filter].
  destruct (String.eqb (Notification.type row) ty); reflexivity.
Qed.

(** The trigger function alone: one [trade_executed] row. *)
Lemma trigger_inserts_one_executed (octet_length : json -> Z) (OLD NEW : Trade.t)
    (NOW : string) (d : Sql.Database) :
  Trade.status OLD = "pending" ->
  Trade.status NEW = "executed" ->
  Trade.executed_quantity NEW <> None ->
  Trade.executed_price NEW <> None ->
  octet_length (Sql.trade_payload Sql.UPDATE (Some OLD) NEW) < Sql.payload_limit ->
  let r := Sql.trigger_notify_trade_changes octet_length Sql.UPDATE (Some OLD) NEW NOW d in
  fst r = None
  /\ Sql.count_type "trade_executed" (snd r) = S (Sql.count_type "trade_executed" d).
Proof.
  intros Hold Hnew Hq Hp Hfit r. subst r.
  apply Z.leb_gt in Hfit.
  destruct (Trade.executed_quantity NEW) as [q|] eqn:Eq; [|contradiction].
  destruct (Trade.executed_price NEW) as [px|] eqn:Ep; [|contradiction].
  unfold Sql.trigger_notify_trade_changes, Sql.after_row, Sql.notify_trade_changes,
    Exn.bind, Exn.when, Exn.ret, Sql.pg_notify.
  cbv zeta. rewrite Hfit. unfold Exn.modify.
  rewrite Hold, Hnew, Eq, Ep.
  cbn [Sql.is_update Sql.is_insert andb negb option_map Sql.concat].
  change (String.eqb "pending" "executed") with false.
  change (String.eqb "executed" "executed") with true.
  cbn [negb andb].
  destruct (Trade.order_type NEW); cbn [Sql.is_buy];
    erewrite insert_notification_accepted by reflexivity;
    unfold Sql.count_type; cbn [fst snd Sql.notifications];
    (split; [reflexivity|]);
    rewrite count_type_appended; cbn [Notification.type];
    change (String.eqb "trade_executed" "trade_executed") with true;
    cbv iota; lia.
Qed.

(** The handler alone: one [trade_executed] row. *)
Lemma handler_inserts_one_executed (rt : Runtime) (OLD NEW : Trade.t) (w : World) :
  Trade.status OLD = "pending" ->
  Trade.status NEW = "executed" ->
  getSupabaseClient rt = None ->
  database_reachable rt = true ->
  Sql.count_type "trade_executed"
    (db (snd (NotifyTrade.serve rt
                (NotifyTrade.post_request (NotifyTrade.update_payload OLD NEW)) w)))
  = S (Sql.count_type "trade_executed" (db w)).
Proof.
  destruct rt as [eg cl dr fe ck tl ch]. intros Hold Hnew Hc Hd.
  cbn in Hc, Hd. subst cl dr.
  unfold NotifyTrade.serve, NotifyTrade.post_request, NotifyTrade.update_payload.
  cbn [method].
  change (String.eqb "POST" "OPTIONS") with false. cbv iota.
  run_to_relay.
  unfold NotifyTrade.became_executed.
  cbn [NotifyTrade.type NotifyTrade.record NotifyTrade.old_record].
  rewrite Hold, Hnew.
  change (String.eqb "pending" "executed") with false.
  change (String.eqb "executed" "executed") with true.
  cbn [Sql.is_update Sql.is_insert andb negb].
  swallow_relay.
  cbn [fst snd db] in D |- *. rewrite D.
  unfold NotifyTrade.action.
  destruct (Trade.order_type NEW);
    erewrite insert_notification_accepted by reflexivity;
    unfold Sql.count_type; cbn [snd Sql.notifications];
    rewrite count_type_appended; cbn [Notification.type];
    change (String.eqb "trade_executed" "trade_executed") with true;
    cbv iota; lia.
Qed.

(** C2, as stated, fails: for one update from pending to executed the
    trigger function and the handler each insert a [trade_executed] row,
    two rows in all. *)
Lemma trade_executed_is_notified_twice :
  Sql.count_type "trade_executed"
    (db (NotifyTrade.both_paths Samples.runtime Samples.octet_length
           (Samples.trade 1 "pending") (Samples.trade 1 "executed")
           "2026-02-04T00:00:05.000Z" Samples.world))
  = 2%nat
  /\ Sql.count_type "trade_executed"
       (db (NotifyTrade.both_paths Samples.runtime Samples.octet_length
              (Samples.trade 1 "pending") (Samples.trade 1 "executed")
              "2026-02-04T00:00:05.000Z" Samples.world))
     <> 1%nat.
Proof. vm_compute. split; [reflexivity | discriminate]. Qed.

(** A payload of 8000 bytes or more makes [pg_notify] raise before the
    trigger function inserts anything: the statement is aborted and the
    database is as before. *)
Lemma oversize_payload_aborts (octet_length : json -> Z) (op : Sql.TG_OP)
    (OLD : option Trade.t) (NEW : Trade.t) (NOW : string) (d : Sql.Database) :
  op <> Sql.DELETE ->
  Sql.payload_limit <= octet_length (Sql.trade_payload op OLD NEW) ->
  Sql.trigger_notify_trade_changes octet_length op OLD NEW NOW d
  = (Some Sql.PayloadTooLong, d).
Proof.
  intros Hop Hbig. apply Z.leb_le in Hbig.
  unfold Sql.trigger_notify_trade_changes, Sql.after_row, Sql.notify_trade_changes,
    Exn.bind, Sql.pg_notify.
  cbv zeta. rewrite Hbig. unfold Exn.throw.
  destruct d; destruct op; try reflexivity.
  contradiction Hop; reflexivity.
Qed.

(** C2, amended: for a [trades] row updated from pending to executed, each
    trigger path on its own inserts exactly one [trade_executed] row (the
    trigger function when the executed quantity and price are set and its
    [pg_notify] payload stays under 8000 bytes, the handler when its
    database client works), and nothing removes the duplicate: when both
    paths see the update there are two rows.  With a payload of 8000
    bytes or more the trigger function raises, the update is aborted and
    no row is produced on its path. *)
Theorem trade_executed_rows_per_path (rt : Runtime) (octet_length : json -> Z)
    (OLD NEW : Trade.t) (NOW : string) (w : World) :
  Trade.status OLD = "pending" ->
  Trade.status NEW = "executed" ->
  Trade.executed_quantity NEW <> None ->
  Trade.executed_price NEW <> None ->
  getSupabaseClient rt = None ->
  database_reachable rt = true ->
  let before := Sql.count_type "trade_executed" (db w) in
  let payload := Sql.trade_payload Sql.UPDATE (Some OLD) NEW in
  let trigger :=
    Sql.trigger_notify_trade_changes octet_length Sql.UPDATE (Some OLD) NEW NOW (db w) in
  Sql.count_type "trade_executed"
    (db (snd (NotifyTrade.serve rt
                (NotifyTrade.post_request (NotifyTrade.update_payload OLD NEW)) w)))
  = S before
  /\ (octet_length payload < Sql.payload_limit ->
      fst trigger = None
      /\ Sql.count_type "trade_executed" (snd trigger) = S before
      /\ Sql.count_type "trade_executed"
           (db (NotifyTrade.both_paths rt octet_length OLD NEW NOW w))
         = S (S before))
  /\ (Sql.payload_limit <= octet_length payload ->
      trigger = (Some Sql.PayloadTooLong, db w)
      /\ NotifyTrade.both_paths rt octet_length OLD NEW NOW w = w).
Proof.
  intros Hold Hnew Hq Hp Hc Hd before payload trigger.
  split; [apply handler_inserts_one_executed; assumption|]. split.
  - intros Hfit.
    destruct (trigger_inserts_one_executed octet_length OLD NEW NOW (db w)
                Hold Hnew Hq Hp Hfit) as (Hdone & Htrigger).
    split; [exact Hdone|]. split; [exact Htrigger|].
    unfold NotifyTrade.both_paths.
    destruct (Sql.trigger_notify_trade_changes octet_length Sql.UPDATE (Some OLD) NEW
                NOW (db w))
      as [[e|] d]; cbn [fst snd] in Hdone, Htrigger; [discriminate|].
    rewrite (handler_inserts_one_executed rt OLD NEW _ Hold Hnew Hc Hd).
    cbn [db with_db]. rewrite Htrigger. reflexivity.
  - intros Hbig.
    assert (Habort : trigger = (Some Sql.PayloadTooLong, db w)).
    { apply oversize_payload_aborts; [discriminate | exact Hbig]. }
    split; [exact Habort|].
    unfold NotifyTrade.both_paths. fold trigger. rewrite Habort.
    destruct w; reflexivity.
Qed.

Lemma trade_executed_rows_per_path_witness :
  Sql.count_type "trade_executed"
    (db (NotifyTrade.both_paths Samples.runtime Samples.octet_length
           (Samples.trade 1 "pending") (Samples.trade 1 "executed")
           "2026-02-04T00:00:05.000Z" Samples.world))
  = 2%nat.
Proof.
  refine (proj2 (proj2 (proj1 (proj2
            (trade_executed_rows_per_path Samples.runtime Samples.octet_length
               (Samples.trade 1 "pending") (Samples.trade 1 "executed")
               "2026-02-04T00:00:05.000Z" Samples.world
               eq_refl eq_refl _ _ eq_refl eq_refl)) _)));
    first [discriminate | reflexivity].
Defined.

(** Without an executed price the trigger function raises on the
    [NOT NULL] message column and the statement leaves no row. *)
Lemma trigger_refuses_missing_price :
  let NEW := Samples.trade 1 "executed" in
  let unpriced :=
    {| Trade.id := Trade.id NEW; Trade.order_no := Trade.order_no NEW;
       Trade.stock_code := Trade.stock_code NEW;
       Trade.stock_name := Trade.stock_name NEW;
       Trade.order_type := Trade.order_type NEW; Trade.status := Trade.status NEW;
       Trade.quantity := Trade.quantity NEW; Trade.price := Trade.price NEW;
       Trade.executed_quantity := Trade.executed_quantity NEW;
       Trade.executed_price := None;
       Trade.strategy_id := None; Trade.signal_id := None; Trade.notes := None;
       Trade.executed_at := Trade.executed_at NEW;
       Trade.created_at := Trade.created_at NEW;
       Trade.updated_at := Trade.updated_at NEW |} in
  let r := Sql.trigger_notify_trade_changes Samples.octet_length Sql.UPDATE
             (Some (Samples.trade 1 "pending")) unpriced
             "2026-02-04T00:00:05.000Z" Sql.empty in
  fst r = Some (Sql.NotNullViolation "message")
  /\ Sql.notifications (snd r) = [].
Proof. vm_compute. split; reflexivity. Qed.

End EdgeFacts.

(** * Further facts *)

(** ** [useNotifications] and its subscription *)

Section UseNotificationsMore.

Import UseNotifications.

Lemma step_keeps_window (s : State) (a : Action) :
  (length (notifications s) <= 50)%nat ->
  within_limit a ->
  (length (notifications (step s a)) <= 50)%nat.
Proof.
  intros H Ha. destruct a as [answer|n|old new|clock answer id|clock answer];
    cbn [step].
  - destruct answer as [e|e|[data [e|]]]; simpl; try exact H.
    destruct data as [d|]; simpl in *; [exact Ha | lia].
  - unfold onInsert, JS.slice0. cbn [setUnreadCount setNotifications notifications].
    rewrite length_firstn. lia.
  - unfold onUpdate.
    destruct (negb (Notification.is_read old) && Notification.is_read new);
      cbn [setUnreadCount setNotifications notifications];
      rewrite length_map; exact H.
  - destruct answer; simpl; exact H.
  - destruct answer; simpl; try exact H. rewrite mark_all_length. exact H.
Qed.

(** X1: the hook never holds more than fifty rows: a fetch that respects
    its limit, an insert, an update, [markAsRead] and [markAllAsRead] all
    keep the held list within the window. *)
Theorem held_rows_stay_in_window (s : State) (actions : list Action) :
  (length (notifications s) <= 50)%nat ->
  Forall within_limit actions ->
  (length (notifications (run s actions)) <= 50)%nat.
Proof.
  revert s. induction actions as [|a actions IH]; intros s H Hall.
  - exact H.
  - inversion Hall as [|a' l' Ha Hrest]; subst.
    apply IH; [|exact Hrest].
    apply step_keeps_window; assumption.
Qed.

Lemma held_rows_stay_in_window_witness :
  (length (notifications
             (run (fetched (Samples.unread_rows 50))
                  [ Insert (Samples.notification 51 false);
                    MarkAllAsRead Samples.clock Samples.updated;
                    Insert (Samples.notification 52 false) ])) <= 50)%nat.
Proof.
  apply held_rows_stay_in_window.
  - vm_compute. lia.
  - repeat constructor.
Defined.

(** X2: [fetchNotifications] always ends the loading state.  When the
    client cannot be built, the request rejects or the answer carries an
    error (even next to data), the held rows and the unread count stay as
    they were and one error is printed; an answer without data and
    without error empties the list and resets the count. *)
Theorem fetchNotifications_outcomes (s : State) :
  (forall answer, isLoading (state (fetchNotifications answer s)) = false)
  /\ (forall e,
        let r := fetchNotifications (ClientThrows e) s in
        notifications (state r) = notifications s
        /\ unreadCount (state r) = unreadCount s
        /\ requests r = []
        /\ console r = [console_error "Error fetching notifications:" (JString e)])
  /\ (forall e,
        let r := fetchNotifications (RequestThrows e) s in
        notifications (state r) = notifications s
        /\ unreadCount (state r) = unreadCount s
        /\ console r = [console_error "Error fetching notifications:" (JString e)])
  /\ (forall data e,
        let r := fetchNotifications
                   (Resolves {| sel_data := data; sel_error := Some e |}) s in
        notifications (state r) = notifications s
        /\ unreadCount (state r) = unreadCount s
        /\ console r = [console_error "Error fetching notifications:" (JString e)])
  /\ (let r := fetchNotifications
                 (Resolves {| sel_data := None; sel_error := None |}) s in
      notifications (state r) = [] /\ unreadCount (state r) = 0 /\ console r = [])
  /\ (forall data,
        let r := fetchNotifications
                   (Resolves {| sel_data := Some data; sel_error := None |}) s in
        notifications (state r) = data
        /\ unreadCount (state r) = count_unread data
        /\ 0 <= unreadCount (state r) <= Z.of_nat (length data)).
Proof.
  repeat split.
  - intros [e|e|[data [e|]]]; reflexivity.
  - cbn. lia.
  - cbn. pose proof (filter_length_le unread data). lia.
Qed.

Lemma onUpdate_notifications (old new : Notification.t) (s : State) :
  notifications (onUpdate old new s)
  = map (fun n => if Notification.id n =? Notification.id new then new else n)
        (notifications s).
Proof.
  unfold onUpdate.
  destruct (negb (Notification.is_read old) && Notification.is_read new); reflexivity.
Qed.

Lemma onUpdate_unreadCount (old new : Notification.t) (s : State) :
  unreadCount (onUpdate old new s)
  = if negb (Notification.is_read old) && Notification.is_read new
    then Z.max 0 (unreadCount s - 1) else unreadCount s.
Proof.
  unfold onUpdate.
  destruct (negb (Notification.is_read old) && Notification.is_read new); reflexivity.
Qed.

Lemma onUpdate_ids (old new : Notification.t) (s : State) :
  map Notification.id (notifications (onUpdate old new s))
  = map Notification.id (notifications s).
Proof.
  rewrite onUpdate_notifications, map_map.
  apply map_ext. intros n.
  destruct (Z.eqb_spec (Notification.id n) (Notification.id new)); congruence.
Qed.

(** X3: an update event replaces rows in place: the held ids, in their
    order, are the same before and after, every held row with the id of
    the event has become the event's new row and every other row is as
    it was.  When no held row has that id the list is untouched, and in
    every case the unread count is decremented (not below 0) if the
    event is a transition from unread to read. *)
Theorem onUpdate_keeps_ids (old new : Notification.t) (s : State) :
  map Notification.id (notifications (onUpdate old new s))
  = map Notification.id (notifications s)
  /\ Forall2 (fun before after =>
                if Notification.id before =? Notification.id new
                then after = new else after = before)
             (notifications s) (notifications (onUpdate old new s))
  /\ (Forall (fun n => Notification.id n <> Notification.id new) (notifications s) ->
      notifications (onUpdate old new s) = notifications s)
  /\ (Notification.is_read old = false -> Notification.is_read new = true ->
      unreadCount (onUpdate old new s) = Z.max 0 (unreadCount s - 1)).
Proof.
  split; [apply onUpdate_ids|]. split; [|split].
  - rewrite onUpdate_notifications.
    induction (notifications s) as [|n l IH]; cbn [map]; constructor; [|exact IH].
    destruct (Notification.id n =? Notification.id new); reflexivity.
  - intros Habsent. rewrite onUpdate_notifications.
    induction Habsent as [|n l Hn _ IH]; [reflexivity|].
    cbn [map]. rewrite IH.
    destruct (Z.eqb_spec (Notification.id n) (Notification.id new));
      [contradiction | reflexivity].
  - intros Ho Hn. rewrite onUpdate_unreadCount, Ho, Hn. reflexivity.
Qed.

Lemma onUpdate_keeps_ids_witness :
  let s := onUpdate (Samples.notification 9 false) (Samples.notification 9 true)
                    Samples.one_unread in
  notifications s = notifications Samples.one_unread /\ unreadCount s = 0.
Proof.
  destruct (onUpdate_keeps_ids (Samples.notification 9 false)
              (Samples.notification 9 true) Samples.one_unread) as (_ & _ & Hl & Hc).
  split.
  - apply Hl. repeat constructor. discriminate.
  - apply Hc; reflexivity.
Defined.

(** X4: the same update event delivered twice leaves the held rows as
    after the first delivery, but a transition to read decrements the
    unread count a second time. *)
Theorem update_event_delivered_twice (old new : Notification.t) (s : State) :
  Notification.is_read old = false ->
  Notification.is_read new = true ->
  let once := onUpdate old new s in
  let twice := onUpdate old new once in
  notifications twice = notifications once
  /\ map Notification.id (notifications twice) = map Notification.id (notifications s)
  /\ unreadCount once = Z.max 0 (unreadCount s - 1)
  /\ unreadCount twice = Z.max 0 (unreadCount s - 2).
Proof.
  intros Ho Hn once twice. subst once twice. repeat split.
  - rewrite (onUpdate_notifications old new (onUpdate old new s)).
    rewrite onUpdate_notifications, map_map.
    apply map_ext. intros n.
    destruct (Z.eqb_spec (Notification.id n) (Notification.id new)) as [E|E].
    + rewrite Z.eqb_refl. reflexivity.
    + apply Z.eqb_neq in E. rewrite E. reflexivity.
  - rewrite !onUpdate_ids. reflexivity.
  - rewrite onUpdate_unreadCount, Ho, Hn. reflexivity.
  - rewrite !onUpdate_unreadCount, Ho, Hn. cbn [negb andb]. lia.
Qed.

Lemma update_event_delivered_twice_witness :
  unreadCount
    (onUpdate (Samples.notification 1 false) (Samples.notification 1 true)
       (onUpdate (Samples.notification 1 false) (Samples.notification 1 true)
          (fetched (Samples.unread_rows 3))))
  = 1.
Proof.
  destruct (update_event_delivered_twice
              (Samples.notification 1 false) (Samples.notification 1 true)
              (fetched (Samples.unread_rows 3)) eq_refl eq_refl)
    as (_ & _ & _ & H).
  exact H.
Defined.

Lemma read_updates_keep_all_read (events : list (Notification.t * Notification.t))
    (s : State) :
  Forall (fun e => Notification.is_read (snd e) = true) events ->
  unreadCount s = 0 ->
  Forall (fun n => Notification.is_read n = true) (notifications s) ->
  unreadCount (run s (update_actions events)) = 0
  /\ Forall (fun n => Notification.is_read n = true)
            (notifications (run s (update_actions events))).
Proof.
  intros Hev. revert s. induction Hev as [|[o n] events Hn _ IH]; intros s Hc Hall.
  - split; assumption.
  - cbn [update_actions map fst snd run fold_left step].
    apply IH.
    + rewrite onUpdate_unreadCount, Hc.
      destruct (negb (Notification.is_read o) && Notification.is_read n); reflexivity.
    + rewrite onUpdate_notifications. apply Forall_map.
      eapply Forall_impl; [|exact Hall].
      intros m Hm. cbn beta.
      destruct (Notification.id m =? Notification.id n); [exact Hn | exact Hm].
Qed.

(** X5: after [markAllAsRead] has resolved, the update events that mark
    rows read (the echo of its own write among them) change nothing that
    is shown: the unread count stays 0 and every held row stays read. *)
Theorem markAllAsRead_then_read_events (clock : Clock) (r : UpdateResult)
    (s : State) (events : list (Notification.t * Notification.t)) :
  Forall (fun e => Notification.is_read (snd e) = true) events ->
  let s' := run (state (markAllAsRead clock (Resolves r) s)) (update_actions events) in
  unreadCount s' = 0
  /\ Forall (fun n => Notification.is_read n = true) (notifications s')
  /\ map Notification.id (notifications s') = map Notification.id (notifications s).
Proof.
  intros Hev s'.
  destruct (read_updates_keep_all_read events
              (state (markAllAsRead clock (Resolves r) s)) Hev) as (Hc & Hall).
  - reflexivity.
  - cbn. eapply Forall_impl; [|apply mark_all_read].
    intros n [Hn _]. exact Hn.
  - split; [exact Hc|]. split; [exact Hall|].
    subst s'. clear Hc Hall Hev.
    transitivity (map Notification.id
                    (notifications (state (markAllAsRead clock (Resolves r) s)))).
    + generalize (state (markAllAsRead clock (Resolves r) s)) as t.
      induction events as [|[o n] events IH]; intros t; [reflexivity|].
      cbn [update_actions map fst snd run fold_left step].
      etransitivity; [apply IH|]. apply onUpdate_ids.
    + cbn. apply mark_all_ids.
Qed.

Lemma markAllAsRead_then_read_events_witness :
  unreadCount
    (run (state (markAllAsRead Samples.clock Samples.updated
                   (fetched (Samples.unread_rows 2))))
         (update_actions
            [ (Samples.notification 2 false, Samples.notification 2 true);
              (Samples.notification 1 false, Samples.notification 1 true) ]))
  = 0.
Proof.
  apply (markAllAsRead_then_read_events Samples.clock
           {| upd_error := None |} (fetched (Samples.unread_rows 2))).
  repeat constructor.
Defined.

(** X6: through [handleChange] the hook reacts to insert events with
    [onInsert] and to update events with [onUpdate], and to nothing else:
    a stream of changes acts like the stream without its delete events,
    so a row deleted in the database stays held and counted. *)
Theorem delete_events_are_ignored
    (changes : list (Realtime.Change Notification.t)) (s : State) :
  Realtime.deliver Realtime.notifications changes s = run s (hook_actions changes)
  /\ Realtime.deliver Realtime.notifications changes s
     = Realtime.deliver Realtime.notifications
         (filter (fun c => negb (Realtime.is_delete c)) changes) s
  /\ (forall old, Realtime.handleChange Realtime.notifications (Realtime.DELETE old) s = s).
Proof.
  assert (Hrun : forall cs t,
             Realtime.deliver Realtime.notifications cs t = run t (hook_actions cs)).
  { induction cs as [|c cs IH]; intros t; [reflexivity|].
    change (Realtime.deliver Realtime.notifications (c :: cs) t)
      with (Realtime.deliver Realtime.notifications cs
              (Realtime.handleChange Realtime.notifications c t)).
    rewrite IH. destruct c; reflexivity. }
  split; [apply Hrun|]. split; [|reflexivity].
  rewrite !Hrun. f_equal.
  induction changes as [|c cs IH]; [reflexivity|].
  destruct c; cbn [filter negb Realtime.is_delete hook_actions flat_map app];
    fold (hook_actions cs);
    fold (hook_actions (filter (fun c => negb (Realtime.is_delete c)) cs));
    rewrite IH; reflexivity.
Qed.

End UseNotificationsMore.

(** ** The notification bell *)

Section NotificationBellFacts.

Import UseNotifications.

(** X7: the badge on the bell is hidden exactly when the unread count is
    not positive, and what it shows is never wider than two characters:
    the count itself up to 9, ["9+"] beyond. *)
Theorem badge_is_short (unreadCount : Z) :
  match NotificationBell.badge unreadCount with
  | None => unreadCount <= 0
  | Some label =>
      0 < unreadCount
      /\ (1 <= String.length label <= 2)%nat
      /\ label = (if unreadCount <=? 9 then Numeric.int_text unreadCount else "9+")
  end.
Proof.
  unfold NotificationBell.badge.
  destruct (Z.gtb_spec unreadCount 0) as [Hpos|Hnonpos]; [|exact Hnonpos].
  split; [exact Hpos|].
  destruct (Z.gtb_spec unreadCount 9) as [Hbig|Hsmall].
  - destruct (Z.leb_spec unreadCount 9); [lia|]. split; [cbn; lia | reflexivity].
  - destruct (Z.leb_spec unreadCount 9); [|lia]. split; [|reflexivity].
    assert (Hcases : unreadCount = 1 \/ unreadCount = 2 \/ unreadCount = 3
                     \/ unreadCount = 4 \/ unreadCount = 5 \/ unreadCount = 6
                     \/ unreadCount = 7 \/ unreadCount = 8 \/ unreadCount = 9) by lia.
    repeat (destruct Hcases as [->|Hcases]; [vm_compute; lia|]).
    subst. vm_compute. lia.
Qed.

(** X8: a notification that arrives is the first row of the dropdown,
    followed by the nine newest rows held before; the dropdown never
    lists more than ten rows. *)
Theorem new_notification_is_shown_first (n : Notification.t) (s : State) :
  NotificationBell.shown (onInsert n s) = n :: firstn 9 (notifications s)
  /\ (length (NotificationBell.shown s) <= 10)%nat.
Proof.
  unfold NotificationBell.shown, onInsert, JS.slice0.
  cbn [setUnreadCount setNotifications notifications].
  split.
  - rewrite firstn_firstn. reflexivity.
  - rewrite length_firstn. lia.
Qed.

End NotificationBellFacts.

(** ** [RecentTrades] *)

Section RecentTradesMore.

Import RecentTradesPanel.
Import RecentTradesEvents.

Lemma step_keeps_five (s : State) (e : Event) :
  (length (trades s) <= 5)%nat -> bounded e ->
  (length (trades (step s e)) <= 5)%nat.
Proof.
  intros H He. destruct e as [t|o n|t|l]; cbn [step].
  - apply onNewTrade_length.
  - rewrite onTradeUpdate_length. exact H.
  - exact H.
  - exact He.
Qed.

(** X9: whatever the component goes through (inserts, updates, highlight
    timers, a new [initialTrades] of at most five rows), a list of at most
    five trades stays a list of at most five trades, and an update
    changes neither the number nor the ids of the rows. *)
Theorem recent_trades_window_all_events (s : State) (events : list Event) :
  (length (trades s) <= 5)%nat ->
  Forall bounded events ->
  (length (trades (run s events)) <= 5)%nat
  /\ (forall old new,
        map Trade.id (trades (step s (TradeUpdate old new))) = map Trade.id (trades s)).
Proof.
  intros H Hall. split.
  - revert s H. induction Hall as [|e events He _ IH]; intros s H.
    + exact H.
    + apply IH. apply step_keeps_five; assumption.
  - intros old new. cbn [step onTradeUpdate trades].
    rewrite map_map. apply map_ext. intros t.
    destruct (Z.eqb_spec (Trade.id t) (Trade.id new)); congruence.
Qed.

Lemma recent_trades_window_all_events_witness :
  (length (trades
             (run (mount (firstn 5 Samples.six_trades))
                  [ NewTrade (Samples.trade 7 "pending");
                    TradeUpdate (Samples.trade 7 "pending") (Samples.trade 7 "executed");
                    HighlightExpired (Samples.trade 7 "pending") ])) <= 5)%nat.
Proof.
  apply recent_trades_window_all_events.
  - vm_compute. lia.
  - repeat constructor.
Defined.

Lemma set_add_In (x y : Z) (l : list Z) :
  In y (set_add x l) <-> y = x \/ In y l.
Proof.
  unfold set_add. destruct (existsb (Z.eqb x) l) eqn:E.
  - split; [intros H; right; exact H|].
    intros [->|H]; [|exact H].
    apply existsb_exists in E. destruct E as (z & Hz & Hxz).
    apply Z.eqb_eq in Hxz. subst z. exact Hz.
  - rewrite in_app_iff. cbn. intuition.
Qed.

Lemma set_delete_In (x y : Z) (l : list Z) :
  In y (set_delete x l) <-> In y l /\ y <> x.
Proof.
  unfold set_delete. rewrite filter_In.
  destruct (Z.eqb_spec y x); cbn; intuition congruence.
Qed.

Lemma expiries_clear (ts : list Trade.t) (s : State) (y : Z) :
  In y (newTradeIds (run s (map HighlightExpired ts)))
  <-> In y (newTradeIds s) /\ ~ In y (map Trade.id ts).
Proof.
  revert s. induction ts as [|t ts IH]; intros s.
  - cbn. intuition.
  - cbn [map run fold_left step]. fold (run (highlightExpired t s) (map HighlightExpired ts)).
    rewrite IH. cbn [highlightExpired newTradeIds]. rewrite set_delete_In.
    cbn [In]. intuition congruence.
Qed.

Lemma inserts_highlight (ts : list Trade.t) (s : State) (y : Z) :
  In y (newTradeIds (run s (map NewTrade ts)))
  <-> In y (newTradeIds s) \/ In y (map Trade.id ts).
Proof.
  revert s. induction ts as [|t ts IH]; intros s.
  - cbn. intuition.
  - cbn [map run fold_left step]. fold (run (onNewTrade t s) (map NewTrade ts)).
    rewrite IH. cbn [onNewTrade newTradeIds]. rewrite set_add_In.
    cbn [In]. intuition congruence.
Qed.

Lemma highlight_after (events : list Event) (s : State) (y : Z) :
  In y (newTradeIds (run s events))
  <-> match last_highlight y events with
      | Some b => b = true
      | None => In y (newTradeIds s)
      end.
Proof.
  revert s. induction events as [|e rest IH]; intros s.
  - cbn. reflexivity.
  - cbn [run fold_left last_highlight]. fold (run (step s e) rest).
    rewrite IH. destruct (last_highlight y rest) as [b|]; [reflexivity|].
    destruct e as [t|old new|t|l]; cbn [step]; try reflexivity.
    + cbn [onNewTrade newTradeIds]. rewrite set_add_In.
      destruct (Z.eqb_spec (Trade.id t) y); intuition congruence.
    + cbn [highlightExpired newTradeIds]. rewrite set_delete_In.
      destruct (Z.eqb_spec (Trade.id t) y); intuition congruence.
Qed.

(** X10: an inserted trade is highlighted until its timer fires, in any
    order of events: after a run a trade is highlighted exactly when the
    last of its inserts and timers in the run is an insert (or, if the
    run has neither, when it was highlighted before); the timer of one
    trade leaves the highlights of the others, and updates and a new
    [initialTrades] change no highlight.  Once the timer of every
    inserted trade has fired no trade is highlighted. *)
Theorem highlights_expire (s : State) (events : list Event) (y : Z) :
  (In y (newTradeIds (run s events))
   <-> match last_highlight y events with
       | Some b => b = true
       | None => In y (newTradeIds s)
       end)
  /\ (forall initialTrades,
        (forall z, last_highlight z events <> Some true) ->
        newTradeIds (run (mount initialTrades) events) = []).
Proof.
  split; [apply highlight_after|].
  intros initialTrades Hfired.
  destruct (newTradeIds (run (mount initialTrades) events)) as [|z l] eqn:E;
    [reflexivity|].
  exfalso.
  assert (Hz : In z (newTradeIds (run (mount initialTrades) events)))
    by (rewrite E; left; reflexivity).
  apply highlight_after in Hz. specialize (Hfired z).
  destruct (last_highlight z events) as [[|]|].
  - apply Hfired. reflexivity.
  - discriminate Hz.
  - exact Hz.
Qed.

Lemma highlights_expire_witness :
  newTradeIds
    (run (mount [])
         [ NewTrade (Samples.trade 1 "pending");
           NewTrade (Samples.trade 2 "pending");
           HighlightExpired (Samples.trade 1 "pending");
           TradeUpdate (Samples.trade 2 "pending") (Samples.trade 2 "executed");
           HighlightExpired (Samples.trade 2 "pending") ]) = [].
Proof.
  apply (proj2 (highlights_expire (mount []) _ 0)).
  intros z. cbn [last_highlight Samples.trade Trade.id].
  destruct (2 =? z); [discriminate|]. destruct (1 =? z); discriminate.
Defined.

(** X11: the status badge of the panel and the one of the trades page
    agree on every status but ["rejected"], which the page shows as a
    destructive badge of its own and the panel as an outline badge with
    the raw status. *)
Theorem status_badges_agree_except_rejected (status : string) :
  (status <> "rejected" ->
   RecentTradesEvents.getStatusBadge status = TradesPage.getStatusBadge status)
  /\ RecentTradesEvents.getStatusBadge "rejected"
     = {| variant := "outline"; label := "rejected" |}
  /\ TradesPage.getStatusBadge "rejected"
     = {| variant := "destructive"; label := "거부" |}.
Proof.
  split; [|split; reflexivity].
  intros Hne. unfold RecentTradesEvents.getStatusBadge, TradesPage.getStatusBadge.
  destruct (String.eqb status "executed"); [reflexivity|].
  destruct (String.eqb status "partial"); [reflexivity|].
  destruct (String.eqb status "pending"); [reflexivity|].
  destruct (String.eqb status "cancelled"); [reflexivity|].
  destruct (String.eqb_spec status "rejected"); [contradiction | reflexivity].
Qed.

Lemma status_badges_agree_except_rejected_witness :
  RecentTradesEvents.getStatusBadge "partial" = TradesPage.getStatusBadge "partial".
Proof.
  apply (status_badges_agree_except_rejected "partial"). discriminate.
Defined.

End RecentTradesMore.

(** ** The trades page *)

(** X12: on the trades page the buy and the sell count add up to the
    number of rows and the executed count does not exceed it; when the
    query answers with an error the page has no rows, all counts are 0
    and the error is printed once. *)
Theorem trades_page_counts (answer : TradesPage.QueryResult Trade.t) :
  let trades := fst (TradesPage.getTrades answer) in
  (TradesPage.buyCount trades + TradesPage.sellCount trades = length trades)%nat
  /\ (TradesPage.executedCount trades <= length trades)%nat
  /\ (forall e, TradesPage.error answer = Some e ->
        trades = []
        /\ snd (TradesPage.getTrades answer)
           = [console_error "Trades fetch error:" (JString e)]).
Proof.
  intros trades. split; [|split].
  - unfold TradesPage.buyCount, TradesPage.sellCount.
    induction trades as [|t l IH]; [reflexivity|].
    cbn [filter]. destruct (Trade.order_type t); cbn [Sql.is_buy TradesPage.is_sell length];
      lia.
  - apply filter_length_le.
  - intros e He. subst trades. unfold TradesPage.getTrades. rewrite He.
    split; reflexivity.
Qed.

Lemma trades_page_counts_witness :
  fst (TradesPage.getTrades
         {| TradesPage.data := Some Samples.six_trades;
            TradesPage.error := Some "permission denied" |}) = [].
Proof.
  apply (trades_page_counts
           {| TradesPage.data := Some Samples.six_trades;
              TradesPage.error := Some "permission denied" |}) with (e := "permission denied").
  reflexivity.
Defined.

(** ** [LiveStats] *)

Section LiveStatsFacts.

Import LiveStats.


Lemma count_occ_step (s : State) (e : Event) :
  is_refresh e = false ->
  Dashboard.totalValue (stats (step s e)) = Dashboard.totalValue (stats s)
  /\ Dashboard.totalProfit (stats (step s e)) = Dashboard.totalProfit (stats s)
  /\ Dashboard.profitRate (stats (step s e)) = Dashboard.profitRate (stats s)
  /\ Dashboard.positionCount (stats (step s e)) = Dashboard.positionCount (stats s)
  /\ Dashboard.todayTradeCount (stats (step s e))
     = Dashboard.todayTradeCount (stats s) + (if is_trade e then 1 else 0)
  /\ refreshes (step s e) = (refreshes s + if is_realtime e then 1 else 0)%nat.
Proof.
  destruct e; cbn; intros H; try discriminate; repeat split; lia.
Qed.

(** X13: between two server refreshes the live panel changes one figure
    only: every realtime insert of a trade adds one to today's trade
    count, the money totals, the rate and the position count stay as the
    server rendered them, and every realtime event asks for exactly one
    refresh.  A refresh then replaces all figures by the server's. *)
Theorem live_stats_between_refreshes (s : State) (events : list Event) :
  forallb (fun e => negb (is_refresh e)) events = true ->
  let s' := run s events in
  Dashboard.totalValue (stats s') = Dashboard.totalValue (stats s)
  /\ Dashboard.totalProfit (stats s') = Dashboard.totalProfit (stats s)
  /\ Dashboard.profitRate (stats s') = Dashboard.profitRate (stats s)
  /\ Dashboard.positionCount (stats s') = Dashboard.positionCount (stats s)
  /\ Dashboard.todayTradeCount (stats s')
     = Dashboard.todayTradeCount (stats s) + Z.of_nat (length (filter is_trade events))
  /\ refreshes s' = (refreshes s + length (filter is_realtime events))%nat
  /\ (forall fresh, stats (step s' (InitialStatsChanged fresh)) = fresh).
Proof.
  revert s. induction events as [|e events IH]; intros s Hall s'.
  - subst s'. cbn. repeat split; lia.
  - cbn [forallb] in Hall. apply andb_prop in Hall. destruct Hall as [He Hrest].
    apply negb_true_iff in He.
    destruct (count_occ_step s e He) as (H1 & H2 & H3 & H4 & H5 & H6).
    specialize (IH (step s e) Hrest). cbv zeta in IH.
    destruct IH as (I1 & I2 & I3 & I4 & I5 & I6 & I7).
    subst s'. change (run s (e :: events)) with (run (step s e) events).
    rewrite I1, I2, I3, I4, I5, I6, H1, H2, H3, H4, H5, H6.
    repeat split; try exact I7.
    + cbn [filter]. destruct (is_trade e); cbn [length]; lia.
    + cbn [filter]. destruct (is_realtime e); cbn [length]; lia.
Qed.

Lemma live_stats_between_refreshes_witness :
  Dashboard.todayTradeCount
    (stats (run (mount (Dashboard.getPortfolioSummary (T := Trade.t)
                          (Some [Samples.free_shares]) (Some [])))
                [TradeInserted; PositionUpdated; FlashExpired; TradeInserted]))
  = 0 + Z.of_nat 2.
Proof.
  apply (live_stats_between_refreshes
           (mount (Dashboard.getPortfolioSummary (T := Trade.t)
                     (Some [Samples.free_shares]) (Some [])))
           [TradeInserted; PositionUpdated; FlashExpired; TradeInserted]).
  reflexivity.
Defined.

End LiveStatsFacts.

(** ** The notifications table *)

Section TableFacts.

Import Sql.

(** What one [INSERT INTO notifications] does to the database. *)
Lemma char_length_take (n : nat) (s : string) :
  char_length (take_chars n s) = Nat.min n (char_length s).
Proof.
  revert n. induction s as [|c rest IH]; intros n; cbn [take_chars char_length].
  - rewrite Nat.min_0_r. reflexivity.
  - cbv zeta.
    destruct (Nat.leb 128 (nat_of_ascii c) && Nat.ltb (nat_of_ascii c) 192) eqn:E.
    + cbn [char_length]. cbv zeta. rewrite E. cbn [Nat.add]. apply IH.
    + destruct n as [|m]; [reflexivity|].
      cbn [char_length]. cbv zeta. rewrite E. cbn [Nat.add Nat.min].
      rewrite IH. reflexivity.
Qed.

(** Cutting a severity to its column leaves it outside the allowed
    values if it was. *)
Lemma severity_refused (x x' : string) :
  varchar 20 x = Some x' -> severity_of_text x = None -> severity_of_text x' = None.
Proof.
  unfold varchar. destruct (Nat.ltb 20 (char_length x)) eqn:Hlong.
  - destruct (all_spaces (drop_chars 20 x)); [|discriminate].
    intros H _. injection H as <-.
    apply Nat.ltb_lt in Hlong.
    assert (Hlen : char_length (take_chars 20 x) = 20%nat).
    { rewrite char_length_take. apply Nat.min_l. apply Nat.lt_le_incl. exact Hlong. }
    unfold severity_of_text.
    destruct (String.eqb_spec (take_chars 20 x) "info") as [E|_];
      [rewrite E in Hlen; discriminate Hlen|].
    destruct (String.eqb_spec (take_chars 20 x) "warning") as [E|_];
      [rewrite E in Hlen; discriminate Hlen|].
    destruct (String.eqb_spec (take_chars 20 x) "critical") as [E|_];
      [rewrite E in Hlen; discriminate Hlen|].
    reflexivity.
  - intros H. injection H as <-. intros H. exact H.
Qed.

Lemma insert_notification_rows (v : NewNotification) (db : Database) :
  let r := insert_notification v db in
  notifications_id_seq (snd r) = notifications_id_seq db + 1
  /\ strategies (snd r) = strategies db
  /\ notified (snd r) = notified db
  /\ ((exists e, fst r = inr e /\ notifications (snd r) = notifications db)
      \/ (exists row,
            fst r = inl tt
            /\ notifications (snd r) = (notifications db ++ [row])%list
            /\ Notification.id row = notifications_id_seq db
            /\ (exists ty, new_type v = Some ty
                           /\ varchar 50 ty = Some (Notification.type row))
            /\ new_message v = Some (Notification.message row)
            /\ Notification.is_read row = false
            /\ Notification.read_at row = None)).
Proof.
  unfold insert_notification, check_row.
  destruct (new_type v) as [ty|]; [|cbn; repeat split; left; eexists; split; reflexivity].
  destruct (new_title v) as [ti|]; [|cbn; repeat split; left; eexists; split; reflexivity].
  destruct (new_message v) as [msg|]; [|cbn; repeat split; left; eexists; split; reflexivity].
  destruct (varchar 50 ty) as [ty'|] eqn:Hty;
    [|cbn; repeat split; left; eexists; split; reflexivity].
  destruct (varchar 200 ti) as [ti'|];
    [|cbn; repeat split; left; eexists; split; reflexivity].
  destruct (varchar 20 _) as [sev'|];
    [|cbn; repeat split; left; eexists; split; reflexivity].
  destruct (severity_of_text sev');
    [|cbn; repeat split; left; eexists; split; reflexivity].
  cbn. split; [reflexivity|]. split; [reflexivity|]. split; [reflexivity|].
  right. eexists. split; [reflexivity|]. split; [reflexivity|]. split; [reflexivity|].
  split; [exists ty; split; [reflexivity | exact Hty]|].
  repeat split.
Qed.

End TableFacts.

(** ** The trade trigger *)

Section TradeTriggerFacts.

Import Sql.

(** X14: an insert into [trades] whose [pg_notify] payload is under 8000
    bytes is announced once: the trigger function does not fail on it,
    publishes the one [trade_changes] payload and stores exactly one
    unread [trade_new] row under the next id, and no [trade_executed]
    row, even for a trade inserted as executed.  With a payload of 8000
    bytes or more the function raises and the insert is aborted: the
    database is as before. *)
Theorem trade_insert_is_announced_once (octet_length : json -> Z)
    (OLD : option Trade.t) (NEW : Trade.t) (NOW : string) (db : Database) :
  let r := trigger_notify_trade_changes octet_length INSERT OLD NEW NOW db in
  let payload := trade_payload INSERT OLD NEW in
  (octet_length payload < payload_limit ->
   fst r = None
   /\ (exists row,
         notifications (snd r) = (notifications db ++ [row])%list
         /\ Notification.type row = "trade_new"
         /\ Notification.id row = notifications_id_seq db
         /\ Notification.severity row = info
         /\ fresh row)
   /\ count_type "trade_executed" (snd r) = count_type "trade_executed" db
   /\ notified (snd r) = (notified db ++ [("trade_changes", payload)])%list)
  /\ (payload_limit <= octet_length payload -> r = (Some PayloadTooLong, db)).
Proof.
  cbv zeta. split.
  - intros Hfit. apply Z.leb_gt in Hfit.
    unfold trigger_notify_trade_changes, after_row, notify_trade_changes,
      Exn.bind, Exn.when, Exn.ret, pg_notify.
    cbv zeta. rewrite Hfit. unfold Exn.modify.
    cbn [is_update is_insert andb concat option_map].
    destruct (Trade.order_type NEW); cbn [is_buy];
      erewrite insert_notification_accepted by reflexivity;
      cbn [fst snd notifications notified notifications_id_seq];
      (split; [reflexivity|]); (split; [|split]).
    all: try (eexists; repeat split; reflexivity).
    all: try reflexivity.
    all: unfold count_type; cbn [notifications]; rewrite count_type_appended;
      cbn [Notification.type];
      change (String.eqb "trade_new" "trade_executed") with false; cbv iota; lia.
  - intros Hbig. apply oversize_payload_aborts; [discriminate | exact Hbig].
Qed.

Lemma trade_insert_is_announced_once_witness :
  types_and_severities
    (notifications
       (snd (trigger_notify_trade_changes Samples.octet_length INSERT None
               (Samples.trade 1 "pending") "2026-02-04T00:00:00.000Z" Sql.empty)))
  = [("trade_new", info)].
Proof.
  destruct (proj1 (trade_insert_is_announced_once Samples.octet_length None
                     (Samples.trade 1 "pending") "2026-02-04T00:00:00.000Z" Sql.empty)
              eq_refl) as (_ & (row & Hrows & Hty & _ & Hsev & _) & _).
  rewrite Hrows. cbn. rewrite Hty, Hsev. reflexivity.
Defined.

(** X15: an update that turns a trade into executed without an executed
    price or without an executed quantity is always aborted by the
    trigger function: no notification is stored and nothing is
    published.  With a payload under 8000 bytes the error is the
    [NOT NULL] violation of the message and only the id sequence has
    moved; with a longer payload [pg_notify] raises first and the
    sequence has not moved either. *)
Theorem executed_without_price_aborts (octet_length : json -> Z) (OLD NEW : Trade.t)
    (NOW : string) (db : Database) :
  Trade.status OLD <> "executed" ->
  Trade.status NEW = "executed" ->
  Trade.executed_price NEW = None \/ Trade.executed_quantity NEW = None ->
  let r := trigger_notify_trade_changes octet_length UPDATE (Some OLD) NEW NOW db in
  let payload := trade_payload UPDATE (Some OLD) NEW in
  fst r <> None
  /\ notifications (snd r) = notifications db
  /\ notified (snd r) = notified db
  /\ (octet_length payload < payload_limit ->
      fst r = Some (NotNullViolation "message")
      /\ notifications_id_seq (snd r) = notifications_id_seq db + 1)
  /\ (payload_limit <= octet_length payload ->
      fst r = Some PayloadTooLong
      /\ notifications_id_seq (snd r) = notifications_id_seq db).
Proof.
  intros Hold Hnew Hnull. cbv zeta.
  destruct (Z.leb_spec payload_limit
              (octet_length (trade_payload UPDATE (Some OLD) NEW))) as [Hbig|Hfit].
  - rewrite (oversize_payload_aborts octet_length UPDATE (Some OLD) NEW NOW db)
      by (discriminate || exact Hbig).
    cbn [fst snd]. repeat split; try discriminate; exfalso; lia.
  - assert (Hrun : trigger_notify_trade_changes octet_length UPDATE (Some OLD) NEW NOW db
                   = (Some (NotNullViolation "message"),
                      {| notifications := notifications db;
                         notifications_id_seq := notifications_id_seq db + 1;
                         strategies := strategies db;
                         notified := notified db |})).
    { apply String.eqb_neq in Hold. pose proof Hfit as Hleb. apply Z.leb_gt in Hleb.
      unfold trigger_notify_trade_changes, after_row, notify_trade_changes,
        Exn.bind, Exn.when, Exn.ret, pg_notify.
      cbv zeta. rewrite Hleb. unfold Exn.modify.
      rewrite Hold, Hnew.
      change (String.eqb "executed" "executed") with true.
      cbn [is_update is_insert andb negb].
      assert (Hmsg : forall a b,
                 concat (concat (concat a (option_map Numeric.int_text
                                             (Trade.executed_quantity NEW))) b)
                        (option_map Numeric.text (Trade.executed_price NEW)) = None).
      { intros a b. destruct Hnull as [-> | ->].
        - destruct (concat (concat a _) b); reflexivity.
        - destruct a; reflexivity. }
      rewrite Hmsg. unfold insert_notification, check_row.
      cbn [new_type new_title new_message]. reflexivity. }
    rewrite Hrun. cbn [fst snd notifications notified notifications_id_seq].
    repeat split; try discriminate; exfalso; lia.
Qed.

Lemma executed_without_price_aborts_witness :
  fst (trigger_notify_trade_changes Samples.octet_length UPDATE
         (Some (Samples.trade 1 "pending"))
         {| Trade.id := 1; Trade.order_no := "ORD-1"; Trade.stock_code := "005930";
            Trade.stock_name := "삼성전자"; Trade.order_type := buy;
            Trade.status := "executed"; Trade.quantity := 10;
            Trade.price := {| unscaled := 7000000; scale := 2 |};
            Trade.executed_quantity := Some 10; Trade.executed_price := None;
            Trade.strategy_id := None; Trade.signal_id := None; Trade.notes := None;
            Trade.executed_at := None;
            Trade.created_at := "2026-02-04T00:00:00.000Z";
            Trade.updated_at := "2026-02-04T00:00:05.000Z" |}
         "2026-02-04T00:00:05.000Z" Sql.empty)
  = Some (NotNullViolation "message").
Proof.
  apply executed_without_price_aborts.
  - discriminate.
  - reflexivity.
  - left. reflexivity.
  - reflexivity.
Defined.

(** One guarded insert: the stored rows are kept, at most one is added. *)
Lemma guarded_insert_rows (b : bool) (v : NewNotification) (db : Database) :
  let r := Exn.when b (insert_notification v) db in
  notifications_id_seq db <= notifications_id_seq (snd r)
  /\ strategies (snd r) = strategies db
  /\ notified (snd r) = notified db
  /\ exists added,
       notifications (snd r) = (notifications db ++ added)%list
       /\ (length added <= 1)%nat
       /\ (added = [] \/ fst r = inl tt)
       /\ Forall (fun n => fresh n
                           /\ notifications_id_seq db <= Notification.id n
                              < notifications_id_seq (snd r)
                           /\ exists ty, new_type v = Some ty
                                         /\ varchar 50 ty = Some (Notification.type n))
                 added.
Proof.
  destruct b; cbn [Exn.when].
  - destruct (insert_notification_rows v db)
      as (Hseq & Hs & Hn & [(e & He & Hrows) | (row & Hok & Hrows & Hid & Hty & _ & Hr & Hat)]).
    + rewrite Hseq, Hs, Hn, Hrows. repeat split; try lia.
      exists []. rewrite app_nil_r. repeat split; [cbn; lia | left; reflexivity | constructor].
    + rewrite Hseq, Hs, Hn, Hrows. repeat split; try lia.
      exists [row]. repeat split; [cbn; lia | right; exact Hok |].
      constructor; [|constructor]. unfold fresh. repeat split; try assumption; lia.
  - cbn. repeat split; try lia.
    exists []. rewrite app_nil_r. repeat split; [cbn; lia | left; reflexivity | constructor].
Qed.

(** Every firing of the trade trigger keeps the stored rows and adds at
    most one, which is unread and of one of the two trade types. *)
Lemma trade_trigger_appends (octet_length : json -> Z) (op : TG_OP)
    (OLD : option Trade.t) (NEW : Trade.t) (NOW : string) (db : Database) :
  let r := trigger_notify_trade_changes octet_length op OLD NEW NOW db in
  notifications_id_seq db <= notifications_id_seq (snd r)
  /\ strategies (snd r) = strategies db
  /\ exists added,
       notifications (snd r) = (notifications db ++ added)%list
       /\ (length added <= 1)%nat
       /\ Forall (fun n => fresh n
                           /\ notifications_id_seq db <= Notification.id n
                              < notifications_id_seq (snd r)
                           /\ (Notification.type n = "trade_new"
                               \/ Notification.type n = "trade_executed")) added.
Proof.
  assert (Hnone : notifications_id_seq db <= notifications_id_seq db
                  /\ strategies db = strategies db
                  /\ exists added : list Notification.t,
                       notifications db = (notifications db ++ added)%list
                       /\ (length added <= 1)%nat
                       /\ Forall (fun n => fresh n
                                           /\ notifications_id_seq db <= Notification.id n
                                              < notifications_id_seq db
                                           /\ (Notification.type n = "trade_new"
                                               \/ Notification.type n = "trade_executed"))
                                  added).
  { split; [lia|]. split; [reflexivity|]. exists []. rewrite app_nil_r.
    repeat split; [cbn; lia | constructor]. }
  destruct (Z.leb_spec payload_limit (octet_length (trade_payload op OLD NEW)))
    as [Hbig|Hfit].
  { destruct op; [| |exact Hnone];
      rewrite (oversize_payload_aborts octet_length _ OLD NEW NOW db)
        by (discriminate || exact Hbig);
      exact Hnone. }
  apply Z.leb_gt in Hfit.
  unfold trigger_notify_trade_changes.
  destruct op; [| |exact Hnone].
  - (* INSERT *)
    unfold after_row, notify_trade_changes, Exn.bind, Exn.ret, pg_notify.
    cbv zeta. rewrite Hfit. unfold Exn.modify.
    cbn [is_update is_insert andb Exn.when]. unfold Exn.ret. cbv beta iota zeta.
    match goal with
    | |- context [insert_notification ?v ?d] =>
        destruct (guarded_insert_rows true v d)
          as (Hseq & Hs & _ & added & Hrows & Hlen & Hok & Hall);
        cbn [Exn.when] in Hseq, Hs, Hrows, Hok, Hall;
        destruct (insert_notification v d) as [[[]|e] d']
    end; cbn [fst snd notifications notifications_id_seq strategies] in *.
    + split; [exact Hseq|]. split; [exact Hs|]. exists added.
      split; [exact Hrows|]. split; [exact Hlen|].
      eapply Forall_impl; [|exact Hall].
      intros n (Hf & Hid & ty & Hty & Hcut). repeat split; try apply Hf; try lia.
      left. cbn in Hty. injection Hty as <-.
      change (varchar 50 "trade_new") with (Some "trade_new") in Hcut. congruence.
    + destruct Hok as [->|Hok]; [|discriminate].
      split; [exact Hseq|]. split; [reflexivity|]. exists [].
      rewrite app_nil_r. repeat split; [cbn; lia | constructor].
  - (* UPDATE *)
    unfold after_row, notify_trade_changes, Exn.bind, Exn.ret, pg_notify.
    cbv zeta. rewrite Hfit. unfold Exn.modify.
    cbn [is_update is_insert andb].
    change (Exn.when false) with (fun (_ : Tx unit) => @Exn.ret Database Error unit tt).
    unfold Exn.ret. cbv beta iota zeta.
    match goal with
    | |- context [Exn.when ?b (insert_notification ?v) ?d] =>
        destruct (guarded_insert_rows b v d)
          as (Hseq & Hs & _ & added & Hrows & Hlen & Hok & Hall);
        destruct (Exn.when b (insert_notification v) d) as [[[]|e] d']
    end; cbn [fst snd notifications notifications_id_seq strategies Exn.when] in *.
    + split; [exact Hseq|]. split; [exact Hs|]. exists added.
      split; [exact Hrows|]. split; [exact Hlen|].
      eapply Forall_impl; [|exact Hall].
      intros n (Hf & Hid & ty & Hty & Hcut). repeat split; try apply Hf; try lia.
      right. cbn in Hty. injection Hty as <-.
      change (varchar 50 "trade_executed") with (Some "trade_executed") in Hcut.
      congruence.
    + destruct Hok as [->|Hok]; [|discriminate].
      split; [exact Hseq|]. split; [reflexivity|]. exists [].
      rewrite app_nil_r. repeat split; [cbn; lia | constructor].
Qed.

End TradeTriggerFacts.

(** ** The portfolio trigger, once more *)

Section PortfolioTriggerMore.

Import Sql.

Lemma thresholds_exclusive (rate : numeric) :
  Numeric.leb rate (Numeric.neg loss_threshold) = true ->
  Numeric.leb profit_threshold rate = true -> False.
Proof.
  unfold Numeric.leb, Numeric.neg, loss_threshold, profit_threshold, Numeric.pow10.
  cbn [unscaled scale]. change (10 ^ Z.of_nat 1) with 10.
  intros H1 H2. apply Z.leb_le in H1. apply Z.leb_le in H2.
  assert (0 < 10 ^ Z.of_nat (scale rate)) by (apply Z.pow_pos_nonneg; lia).
  lia.
Qed.

Lemma portfolio_trigger_appends (OLD NEW : Position) (NOW : string) (db : Database) :
  let r := trigger_check_portfolio_alerts OLD NEW NOW db in
  fst r = None
  /\ strategies (snd r) = strategies db
  /\ notified (snd r) = notified db
  /\ exists added,
       appended db (snd r) added
       /\ Forall (fun n => Notification.type n = "stop_loss"
                           \/ Notification.type n = "take_profit") added.
Proof.
  assert (Hnone : fst (@None Error, db) = None
                  /\ strategies (snd (@None Error, db)) = strategies db
                  /\ notified (snd (@None Error, db)) = notified db
                  /\ exists added,
                       appended db (snd (@None Error, db)) added
                       /\ Forall (fun n => Notification.type n = "stop_loss"
                                           \/ Notification.type n = "take_profit") added).
  { repeat split. exists []. unfold appended. cbn [snd]. rewrite app_nil_r.
    repeat split; try constructor; cbn; lia. }
  unfold trigger_check_portfolio_alerts.
  destruct (negb (Numeric.eqb (profit_loss_rate OLD) (profit_loss_rate NEW)));
    [|exact Hnone].
  unfold after_row, check_portfolio_alerts, Exn.bind, Exn.when, Exn.ret.
  destruct (Numeric.leb (profit_loss_rate NEW) (Numeric.neg loss_threshold)) eqn:Hloss;
    destruct (Numeric.leb profit_threshold (profit_loss_rate NEW)) eqn:Hprofit.
  - exfalso. exact (thresholds_exclusive _ Hloss Hprofit).
  - erewrite insert_notification_accepted by reflexivity.
    cbn [fst snd strategies notified]. repeat split.
    eexists. split.
    + unfold appended. cbn [notifications notifications_id_seq].
      split; [reflexivity|]. split; [cbn; lia|]. split; [lia|].
      repeat constructor; cbn; lia.
    + repeat constructor.
  - erewrite insert_notification_accepted by reflexivity.
    cbn [fst snd strategies notified]. repeat split.
    eexists. split.
    + unfold appended. cbn [notifications notifications_id_seq].
      split; [reflexivity|]. split; [cbn; lia|]. split; [lia|].
      repeat constructor; cbn; lia.
    + constructor; [right; reflexivity | constructor].
  - exact Hnone.
Qed.

Lemma appended_keeps_keys (before after : Database) (added : list Notification.t) :
  well_keyed before -> appended before after added -> well_keyed after.
Proof.
  intros (Hnodup & Hbelow) (Hrows & Hlen & Hseq & Hadded).
  unfold well_keyed. rewrite Hrows.
  destruct added as [|row [|row' rest]]; [| |cbn in Hlen; lia].
  - rewrite app_nil_r. split; [exact Hnodup|].
    eapply Forall_impl; [|exact Hbelow]. cbn beta. intros; lia.
  - inversion Hadded as [|x l (_ & Hid) _]; subst.
    split.
    + rewrite map_app. cbn [map].
      apply NoDup_app.
      * exact Hnodup.
      * repeat constructor. intros [].
      * intros x Hx [Hy|[]]. subst x.
        apply in_map_iff in Hx. destruct Hx as (m & Hm & Hin).
        rewrite Forall_forall in Hbelow. specialize (Hbelow m Hin). lia.
    + apply Forall_app. split.
      * eapply Forall_impl; [|exact Hbelow]. cbn beta. intros; lia.
      * repeat constructor. lia.
Qed.

End PortfolioTriggerMore.

(** ** The edge functions, once more *)

Section EdgeMore.

Import Edge.

Lemma appended_nothing (d : Sql.Database) : appended d d [].
Proof.
  unfold appended. rewrite app_nil_r. repeat split; try constructor; cbn; lia.
Qed.

Lemma stored_appended (v : Sql.NewNotification) (d : Sql.Database) :
  exists added,
    appended d (snd (Sql.insert_notification v d)) added
    /\ Forall (fun n => (exists ty, Sql.new_type v = Some ty
                                    /\ Sql.varchar 50 ty = Some (Notification.type n))
                        /\ Sql.new_message v = Some (Notification.message n)) added.
Proof.
  destruct (insert_notification_rows v d)
    as (Hseq & _ & _ & [(e & _ & Hrows) | (row & _ & Hrows & Hid & Hty & Hmsg & Hr & Hat)]).
  - exists []. unfold appended. rewrite Hrows, Hseq, app_nil_r.
    repeat split; try constructor; cbn; lia.
  - exists [row]. unfold appended. rewrite Hrows, Hseq.
    repeat split; try (repeat constructor; assumption); try (cbn; lia).
    repeat constructor; try assumption; lia.
Qed.

(** What the relay does to the world: nothing to the database, at most one
    request to the configured URL. *)
Lemma relay_effects (rt : Runtime) (make_body : string -> json) (w : World) :
  exists w',
    relay rt make_body w = (inl tt, w')
    /\ db w' = db w
    /\ posted w'
       = (posted w
          ++ if truthy (env_get rt "NOTIFICATION_WEBHOOK_URL")
             then [ {| url := match env_get rt "NOTIFICATION_WEBHOOK_URL" with
                              | Some u => u
                              | None => ""
                              end;
                       body := make_body (clock rt (clock_reads w)) |} ]
             else [])%list.
Proof.
  unfold relay.
  destruct (truthy (env_get rt "NOTIFICATION_WEBHOOK_URL")); cbn [negb].
  - unfold Exn.try_catch, Exn.bind, now, post.
    destruct (fetch rt _ _) as [st|e].
    + unfold Exn.when. destruct (response_ok st); cbn;
        eexists; repeat split; reflexivity.
    + cbn. eexists. repeat split; reflexivity.
  - cbn. eexists. repeat split. symmetry. apply app_nil_r.
Qed.

Ltac to_relay :=
  cbv beta iota zeta delta
    [ respond Exn.bind Exn.when Exn.ret Exn.throw Exn.modify Exn.gets
      req_json log supabase now insert with_db
      NotifyTrade.serve NotifyTrade.sendTradeExecutedNotification
      NotifyTrade.sendNewTradeNotification NotifyTrade.sendWebhookNotification
      NotifyAlert.serve NotifyAlert.processAlert NotifyAlert.sendWebhookNotification
      NotifyAlert.sendUrgentNotification
      getSupabaseClient database_reachable clock toLocaleString
      corsHeaders json_headers success preflight ];
  cbn [db console posted clock_reads fst snd json_body method].

Ltac through_relay :=
  match goal with
  | |- context [relay ?r ?mk ?w] =>
      let w' := fresh "w'" in
      let E := fresh "E" in
      let D := fresh "D" in
      let P := fresh "P" in
      destruct (relay_effects r mk w) as (w' & E & D & P);
      rewrite E; clear E;
      cbn [db console posted clock_reads fst snd env_get] in D, P |- *
  end.

Lemma no_posts (rt : Runtime) (w w' : World) :
  posted w' = posted w -> posts_between rt w w' [].
Proof.
  intros H. unfold posts_between. rewrite H, app_nil_r.
  repeat split; try constructor; cbn; lia.
Qed.

Lemma relay_posts (rt : Runtime) (w0 w w' : World) (b : json) :
  posted w = posted w0 ->
  posted w'
  = (posted w
     ++ if truthy (env_get rt "NOTIFICATION_WEBHOOK_URL")
        then [ {| url := match env_get rt "NOTIFICATION_WEBHOOK_URL" with
                         | Some u => u
                         | None => ""
                         end;
                  body := b |} ]
        else [])%list ->
  exists posts, posts_between rt w0 w' posts.
Proof.
  intros H0 H. rewrite H0 in H.
  destruct (env_get rt "NOTIFICATION_WEBHOOK_URL") as [u|] eqn:Eu; cbn [truthy] in H.
  - destruct (negb (String.eqb u "")) eqn:Et.
    + eexists. unfold posts_between. split; [exact H|].
      rewrite Eu. cbn [truthy]. rewrite Et.
      repeat split; try discriminate; repeat constructor.
    + exists []. unfold posts_between. rewrite H, Eu. cbn [truthy]. rewrite Et.
      repeat split; try constructor; cbn; lia.
  - exists []. unfold posts_between. rewrite H, Eu.
    repeat split; try constructor; cbn; lia.
Qed.

Ltac nothing_happened :=
  cbn [db posted fst snd];
  split;
  [ exists []; split; [apply appended_nothing | constructor]
  | exists []; apply no_posts; reflexivity ].

Ltac stored_one kind :=
  match goal with
  | D : db ?w' = snd (Sql.insert_notification ?v ?d) |- _ =>
      destruct (stored_appended v d) as (added & Happ & Hty);
      exists added; rewrite D; split; [exact Happ|];
      eapply Forall_impl; [|exact Hty];
      let n := fresh "n" in
      let ty := fresh "ty" in
      let H := fresh "H" in
      let Hcut := fresh "Hcut" in
      intros n [(ty & H & Hcut) _]; cbn in H; injection H as <-;
      match type of Hcut with
      | Sql.varchar 50 ?c = _ => change (Sql.varchar 50 c) with (Some c) in Hcut
      end;
      kind; congruence
  | D : db ?w' = db ?w |- _ =>
      exists []; rewrite D; split; [apply appended_nothing | constructor]
  end.

Lemma trade_serve_effects (rt : Runtime)
    (req : Request NotifyTrade.WebhookPayload) (w : World) :
  let r := NotifyTrade.serve rt req w in
  (exists added,
      appended (db w) (db (snd r)) added
      /\ Forall (fun n => Notification.type n = "trade_new"
                          \/ Notification.type n = "trade_executed") added)
  /\ (exists posts, posts_between rt w (snd r) posts).
Proof.
  destruct rt as [eg [cl|] [|] fe ck tl ch];
    destruct req as [m [[ty tb rcd old sch]|e]];
    unfold NotifyTrade.serve; cbn [method];
    (destruct (String.eqb m "OPTIONS"); [nothing_happened|]);
    to_relay;
    unfold NotifyTrade.became_executed;
    cbn [NotifyTrade.type NotifyTrade.record NotifyTrade.old_record
         Sql.is_update Sql.is_insert andb];
    try nothing_happened;
    destruct ty; cbn [Sql.is_update Sql.is_insert andb];
    try nothing_happened;
    try (destruct (negb _ && _); try nothing_happened).
  all: through_relay.
  all: split; [| eapply relay_posts; [|exact P]; reflexivity].
  all: first [ stored_one ltac:(left) | stored_one ltac:(right) ].
Qed.

Lemma alert_serve_effects (rt : Runtime)
    (req : Request NotifyAlert.AlertRequest) (w : World) :
  let r := NotifyAlert.serve rt req w in
  (exists added,
      appended (db w) (db (snd r)) added
      /\ Forall (fun n => exists alert,
                    json_body req = inl alert
                    /\ Sql.varchar 50 (NotifyAlert.type alert)
                       = Some (Notification.type n)
                    /\ Notification.message n = NotifyAlert.message alert) added)
  /\ (exists posts, posts_between rt w (snd r) posts).
Proof.
  destruct rt as [eg [cl|] [|] fe ck tl ch];
    destruct req as [m [alert|e]];
    unfold NotifyAlert.serve; cbn [method];
    (destruct (String.eqb m "OPTIONS"); [nothing_happened|]);
    to_relay;
    try nothing_happened;
    (destruct (NotifyAlert.missing_fields alert); [nothing_happened|]);
    try nothing_happened.
  all: destruct (String.eqb (NotifyAlert.severity alert) "critical").
  all: cbn [env_get].
  all: try (destruct (truthy (eg "EMAIL_API_KEY") && truthy (eg "ALERT_EMAIL"));
            destruct (truthy (eg "SMS_API_KEY") && truthy (eg "ALERT_PHONE"))).
  all: cbn [db console posted clock_reads fst snd].
  all: through_relay.
  all: split; [| eapply relay_posts; [|exact P]; reflexivity].
  all: match goal with
       | D : db ?w' = snd (Sql.insert_notification ?v ?d) |- _ =>
           destruct (stored_appended v d) as (added & Happ & Hty);
           exists added; rewrite D; split; [exact Happ|];
           eapply Forall_impl; [|exact Hty];
           intros n [(ty & H1 & Hcut) H2]; cbn in H1, H2; exists alert;
           split; [reflexivity|]; split; congruence
       | D : db ?w' = db ?w |- _ =>
           exists []; rewrite D; split; [apply appended_nothing | constructor]
       end.
Qed.

Lemma trade_trigger_appended (octet_length : json -> Z) (op : Sql.TG_OP)
    (OLD : option Trade.t) (NEW : Trade.t) (NOW : string) (d : Sql.Database) :
  exists added,
    appended d (snd (Sql.trigger_notify_trade_changes octet_length op OLD NEW NOW d))
             added
    /\ Forall (fun n => Notification.type n = "trade_new"
                        \/ Notification.type n = "trade_executed") added.
Proof.
  destruct (trade_trigger_appends octet_length op OLD NEW NOW d)
    as (Hseq & _ & added & Hrows & Hlen & Hall).
  exists added. split.
  - unfold appended. repeat split; try assumption.
    eapply Forall_impl; [|exact Hall]. intros n (Hf & Hid & _). split; assumption.
  - eapply Forall_impl; [|exact Hall]. intros n (_ & _ & Hty). exact Hty.
Qed.

(** X16: the ids of the notifications table stay distinct and below the
    sequence through everything the repository does to the table: the
    two trigger functions and the two edge functions. *)
Theorem notification_ids_stay_unique (w : World) :
  well_keyed (db w) ->
  (forall octet_length op OLD NEW NOW,
      well_keyed
        (snd (Sql.trigger_notify_trade_changes octet_length op OLD NEW NOW (db w))))
  /\ (forall OLD NEW NOW,
      well_keyed (snd (Sql.trigger_check_portfolio_alerts OLD NEW NOW (db w))))
  /\ (forall rt req, well_keyed (db (snd (NotifyTrade.serve rt req w))))
  /\ (forall rt req, well_keyed (db (snd (NotifyAlert.serve rt req w)))).
Proof.
  intros Hkeys. split; [|split; [|split]].
  - intros octet_length op OLD NEW NOW.
    destruct (trade_trigger_appended octet_length op OLD NEW NOW (db w))
      as (added & Happ & _).
    exact (appended_keeps_keys _ _ _ Hkeys Happ).
  - intros OLD NEW NOW.
    destruct (portfolio_trigger_appends OLD NEW NOW (db w))
      as (_ & _ & _ & added & Happ & _).
    exact (appended_keeps_keys _ _ _ Hkeys Happ).
  - intros rt req.
    destruct (trade_serve_effects rt req w) as ((added & Happ & _) & _).
    exact (appended_keeps_keys _ _ _ Hkeys Happ).
  - intros rt req.
    destruct (alert_serve_effects rt req w) as ((added & Happ & _) & _).
    exact (appended_keeps_keys _ _ _ Hkeys Happ).
Qed.

Lemma notification_ids_stay_unique_witness :
  well_keyed
    (db (snd (NotifyAlert.serve Samples.runtime
                (NotifyTrade.post_request Samples.stop_loss_alert) Samples.world))).
Proof.
  apply (notification_ids_stay_unique Samples.world).
  split; constructor.
Defined.

(** X17: nothing in the repository removes or rewrites a stored
    notification.  One firing of a trigger function and one request to an
    edge function leave the stored rows in place and add at most one row
    after them, unread, without read time, with an id the sequence handed
    out meanwhile; the trade paths add only [trade_new] and
    [trade_executed] rows, the portfolio trigger only [stop_loss] and
    [take_profit] rows, [notify-alert] only a row of the request's
    message and type, the type as its [VARCHAR(50)] column takes it. *)
Theorem notifications_are_append_only (rt : Runtime) (w : World) :
  (forall octet_length op OLD NEW NOW,
      exists added,
        appended (db w)
          (snd (Sql.trigger_notify_trade_changes octet_length op OLD NEW NOW (db w)))
          added
        /\ Forall (fun n => Notification.type n = "trade_new"
                            \/ Notification.type n = "trade_executed") added)
  /\ (forall OLD NEW NOW,
      exists added,
        appended (db w) (snd (Sql.trigger_check_portfolio_alerts OLD NEW NOW (db w))) added
        /\ Forall (fun n => Notification.type n = "stop_loss"
                            \/ Notification.type n = "take_profit") added)
  /\ (forall req,
      exists added,
        appended (db w) (db (snd (NotifyTrade.serve rt req w))) added
        /\ Forall (fun n => Notification.type n = "trade_new"
                            \/ Notification.type n = "trade_executed") added)
  /\ (forall req,
      exists added,
        appended (db w) (db (snd (NotifyAlert.serve rt req w))) added
        /\ Forall (fun n => exists alert,
                      json_body req = inl alert
                      /\ Sql.varchar 50 (NotifyAlert.type alert)
                         = Some (Notification.type n)
                      /\ Notification.message n = NotifyAlert.message alert) added).
Proof.
  split; [|split; [|split]].
  - intros octet_length op OLD NEW NOW. apply trade_trigger_appended.
  - intros OLD NEW NOW.
    destruct (portfolio_trigger_appends OLD NEW NOW (db w))
      as (_ & _ & _ & added & Happ & Hty).
    exists added. split; assumption.
  - intros req. apply (trade_serve_effects rt req w).
  - intros req. apply (alert_serve_effects rt req w).
Qed.

(** X18: a request makes an edge function call the outbound webhook at
    most once, never when no URL is configured, and only at the URL of
    [NOTIFICATION_WEBHOOK_URL]. *)
Theorem webhook_is_called_at_most_once (rt : Runtime) (w : World) :
  (forall req, exists posts, posts_between rt w (snd (NotifyTrade.serve rt req w)) posts)
  /\ (forall req, exists posts, posts_between rt w (snd (NotifyAlert.serve rt req w)) posts).
Proof.
  split; intros req.
  - apply (trade_serve_effects rt req w).
  - apply (alert_serve_effects rt req w).
Qed.

Lemma has_icon_trade (n : Notification.t) :
  Notification.type n = "trade_new" \/ Notification.type n = "trade_executed" ->
  NotificationBell.getTypeIcon (Notification.type n) <> "🔔".
Proof. intros [-> | ->]; vm_compute; discriminate. Qed.

Lemma has_icon_alert (n : Notification.t) :
  Notification.type n = "stop_loss" \/ Notification.type n = "take_profit" ->
  NotificationBell.getTypeIcon (Notification.type n) <> "🔔".
Proof. intros [-> | ->]; vm_compute; discriminate. Qed.

(** X19: every notification the trigger functions and [notify-trade]
    store is of a type the bell has an icon of its own for; only rows of
    [notify-alert], whose type is the caller's, can fall back to the
    default bell. *)
Theorem stored_types_have_icons (rt : Runtime) (w : World) :
  (forall octet_length op OLD NEW NOW,
      exists added,
        Sql.notifications
          (snd (Sql.trigger_notify_trade_changes octet_length op OLD NEW NOW (db w)))
        = (Sql.notifications (db w) ++ added)%list
        /\ Forall (fun n => NotificationBell.getTypeIcon (Notification.type n) <> "🔔")
                  added)
  /\ (forall OLD NEW NOW,
      exists added,
        Sql.notifications (snd (Sql.trigger_check_portfolio_alerts OLD NEW NOW (db w)))
        = (Sql.notifications (db w) ++ added)%list
        /\ Forall (fun n => NotificationBell.getTypeIcon (Notification.type n) <> "🔔")
                  added)
  /\ (forall req,
      exists added,
        Sql.notifications (db (snd (NotifyTrade.serve rt req w)))
        = (Sql.notifications (db w) ++ added)%list
        /\ Forall (fun n => NotificationBell.getTypeIcon (Notification.type n) <> "🔔")
                  added)
  /\ NotificationBell.getTypeIcon "margin_call" = "🔔".
Proof.
  split; [|split; [|split]]; [| | |reflexivity].
  - intros octet_length op OLD NEW NOW.
    destruct (trade_trigger_appended octet_length op OLD NEW NOW (db w))
      as (added & Happ & Hty).
    exists added. split; [apply Happ|].
    eapply Forall_impl; [|exact Hty]. apply has_icon_trade.
  - intros OLD NEW NOW.
    destruct (portfolio_trigger_appends OLD NEW NOW (db w))
      as (_ & _ & _ & added & Happ & Hty).
    exists added. split; [apply Happ|].
    eapply Forall_impl; [|exact Hty]. apply has_icon_alert.
  - intros req.
    destruct (trade_serve_effects rt req w) as ((added & Happ & Hty) & _).
    exists added. split; [apply Happ|].
    eapply Forall_impl; [|exact Hty]. apply has_icon_trade.
Qed.

(** X20: a request other than the preflight whose body cannot be read is
    answered 500 with the error's message by both edge functions; the
    error is printed, nothing is stored and nothing is sent.  The
    preflight is answered without reading the body at all. *)
Theorem unreadable_body_answers_500 (rt : Runtime) (m e : string) (w : World) :
  String.eqb m "OPTIONS" = false ->
  NotifyTrade.serve rt {| method := m; json_body := inr e |} w
  = (Deployments.server_error rt e,
     Deployments.printed (console_error "Error processing notification:" (JString e)) w)
  /\ NotifyAlert.serve rt {| method := m; json_body := inr e |} w
     = (Deployments.server_error rt e,
        Deployments.printed (console_error "Error processing alert:" (JString e)) w)
  /\ (forall b, NotifyTrade.serve rt {| method := "OPTIONS"; json_body := b |} w
                = (preflight rt, w))
  /\ (forall b, NotifyAlert.serve rt {| method := "OPTIONS"; json_body := b |} w
                = (preflight rt, w)).
Proof.
  intros Hm.
  unfold NotifyTrade.serve, NotifyAlert.serve. cbn [method]. rewrite Hm.
  split; [reflexivity|]. split; [reflexivity|]. split; intros b; reflexivity.
Qed.

Lemma unreadable_body_answers_500_witness :
  status (fst (NotifyAlert.serve Samples.runtime
                 {| method := "POST"; json_body := inr "Unexpected end of JSON input" |}
                 Samples.world)) = 500.
Proof.
  rewrite (proj1 (proj2 (unreadable_body_answers_500 Samples.runtime "POST"
                           "Unexpected end of JSON input" Samples.world eq_refl))).
  reflexivity.
Defined.

(** X21: when the database client cannot be built, a request that has
    something to store is answered 500 with the client's error: no row
    is stored and the webhook, which the code calls after the insert, is
    not called either. *)
Theorem client_failure_answers_500 (rt : Runtime) (e : string) (w : World) :
  getSupabaseClient rt = Some e ->
  (forall req p,
      String.eqb (method req) "OPTIONS" = false ->
      json_body req = inl p ->
      (Sql.is_insert (NotifyTrade.type p) || NotifyTrade.became_executed p) = true ->
      let r := NotifyTrade.serve rt req w in
      fst r = Deployments.server_error rt e
      /\ db (snd r) = db w /\ posted (snd r) = posted w)
  /\ (forall req alert,
      String.eqb (method req) "OPTIONS" = false ->
      json_body req = inl alert ->
      NotifyAlert.missing_fields alert = false ->
      let r := NotifyAlert.serve rt req w in
      fst r = Deployments.server_error rt e
      /\ db (snd r) = db w /\ posted (snd r) = posted w).
Proof.
  intros Hc. split.
  - intros [m b] p Hm Hb Hp. cbn [method json_body] in Hm, Hb. subst b.
    unfold NotifyTrade.serve. cbn [method]. rewrite Hm.
    destruct rt as [eg cl rc fe ck tl ch]. cbn [getSupabaseClient] in Hc. subst cl.
    to_relay.
    destruct (NotifyTrade.became_executed p) eqn:Hx.
    + cbn. repeat split.
    + rewrite Bool.orb_false_r in Hp. rewrite Hp. cbn. repeat split.
  - intros [m b] alert Hm Hb Hf. cbn [method json_body] in Hm, Hb. subst b.
    unfold NotifyAlert.serve. cbn [method]. rewrite Hm.
    destruct rt as [eg cl rc fe ck tl ch]. cbn [getSupabaseClient] in Hc. subst cl.
    to_relay. rewrite Hf. cbn. repeat split.
Qed.

Lemma client_failure_answers_500_witness :
  status (fst (NotifyAlert.serve
                 (Deployments.without_client "supabaseUrl is required." Samples.runtime)
                 (NotifyTrade.post_request Samples.stop_loss_alert) Samples.world))
  = 500.
Proof.
  rewrite (proj1 (proj2 (client_failure_answers_500
                           (Deployments.without_client "supabaseUrl is required."
                              Samples.runtime)
                           "supabaseUrl is required." Samples.world eq_refl)
                    (NotifyTrade.post_request Samples.stop_loss_alert)
                    Samples.stop_loss_alert eq_refl eq_refl eq_refl)).
  reflexivity.
Defined.

(** X22: an alert without a type or without a message is answered 400
    before the database client is built: the request is printed, nothing
    is stored and nothing is sent, whatever the deployment. *)
Theorem alert_without_fields_answers_400 (rt : Runtime)
    (req : Request NotifyAlert.AlertRequest) (alert : NotifyAlert.AlertRequest)
    (w : World) :
  String.eqb (method req) "OPTIONS" = false ->
  json_body req = inl alert ->
  NotifyAlert.type alert = "" \/ NotifyAlert.message alert = "" ->
  NotifyAlert.serve rt req w
  = (NotifyAlert.bad_request rt,
     Deployments.printed
       (console_log_with ("Alert notification triggered: " ++ NotifyAlert.type alert)
                         (NotifyAlert.to_json alert)) w).
Proof.
  destruct req as [m b]. cbn [method json_body]. intros Hm Hb Hf. subst b.
  assert (Hmiss : NotifyAlert.missing_fields alert = true).
  { unfold NotifyAlert.missing_fields.
    destruct Hf as [-> | ->]; [reflexivity | apply Bool.orb_true_r]. }
  unfold NotifyAlert.serve. cbn [method]. rewrite Hm.
  unfold respond, Exn.bind, req_json, log, Exn.modify, Exn.ret. cbn [json_body].
  rewrite Hmiss. reflexivity.
Qed.

Lemma alert_without_fields_answers_400_witness :
  status (fst (NotifyAlert.serve
                 (Deployments.without_client "supabaseUrl is required." Samples.runtime)
                 (NotifyTrade.post_request
                    {| NotifyAlert.type := "price_alert";
                       NotifyAlert.stock_code := None;
                       NotifyAlert.stock_name := None;
                       NotifyAlert.message := "";
                       NotifyAlert.severity := "info";
                       NotifyAlert.data := None |})
                 Samples.world))
  = 400.
Proof.
  erewrite alert_without_fields_answers_400;
    [reflexivity | reflexivity | reflexivity | right; reflexivity].
Defined.

(** The row [processAlert] hands to the database. *)
Lemma alert_processed (rt : Runtime) (req : Request NotifyAlert.AlertRequest)
    (alert : NotifyAlert.AlertRequest) (w : World) :
  String.eqb (method req) "OPTIONS" = false ->
  json_body req = inl alert ->
  NotifyAlert.missing_fields alert = false ->
  getSupabaseClient rt = None ->
  let r := NotifyAlert.serve rt req w in
  fst r = success rt "Alert processed"
  /\ db (snd r)
     = if database_reachable rt
       then snd (Sql.insert_notification
                   {| Sql.new_type := Some (NotifyAlert.type alert);
                      Sql.new_title :=
                        Some (match NotifyAlert.lookup (NotifyAlert.type alert)
                                      NotifyAlert.titles with
                              | Some t => t
                              | None => "알림"
                              end);
                      Sql.new_message := Some (NotifyAlert.message alert);
                      Sql.new_severity := Some (NotifyAlert.severity alert);
                      Sql.new_data := Some (NotifyAlert.alert_data alert);
                      Sql.new_created_at := clock rt (clock_reads w) |} (db w))
       else db w.
Proof.
  destruct req as [m b]. cbn [method json_body]. intros Hm Hb Hf Hc. subst b.
  destruct rt as [eg cl rc fe ck tl ch]. cbn [getSupabaseClient] in Hc. subst cl.
  unfold NotifyAlert.serve. cbn [method]. rewrite Hm.
  to_relay. rewrite Hf.
  destruct (String.eqb (NotifyAlert.severity alert) "critical").
  all: cbn [env_get].
  all: try (destruct (truthy (eg "EMAIL_API_KEY") && truthy (eg "ALERT_EMAIL"));
            destruct (truthy (eg "SMS_API_KEY") && truthy (eg "ALERT_PHONE"))).
  all: cbn [db console posted clock_reads fst snd].
  all: through_relay.
  all: split; [reflexivity|].
  all: rewrite D; destruct rc; reflexivity.
Qed.

Lemma title_fits (ty : string) :
  Nat.ltb 200 (Sql.char_length
                 (match NotifyAlert.lookup ty NotifyAlert.titles with
                  | Some t => t
                  | None => "알림"
                  end)) = false.
Proof.
  unfold NotifyAlert.titles, NotifyAlert.lookup.
  repeat match goal with
         | |- context [String.eqb ?a ty] => destruct (String.eqb a ty)
         end; vm_compute; reflexivity.
Qed.

(** X23: [notify-alert] answers 200 "Alert processed" although no row was
    stored, when the insert does not reach the database or the table
    refuses the row: a severity outside info, warning and critical, or a
    type of more than 50 characters of which those after the fiftieth are
    not all spaces. *)
Theorem alert_reports_success_without_row (rt : Runtime)
    (req : Request NotifyAlert.AlertRequest) (alert : NotifyAlert.AlertRequest)
    (w : World) :
  String.eqb (method req) "OPTIONS" = false ->
  json_body req = inl alert ->
  NotifyAlert.missing_fields alert = false ->
  getSupabaseClient rt = None ->
  database_reachable rt = false
  \/ Sql.severity_of_text (NotifyAlert.severity alert) = None
  \/ Sql.varchar 50 (NotifyAlert.type alert) = None ->
  let r := NotifyAlert.serve rt req w in
  fst r = success rt "Alert processed"
  /\ Sql.notifications (db (snd r)) = Sql.notifications (db w).
Proof.
  intros Hm Hb Hf Hc Hwhy.
  destruct (alert_processed rt req alert w Hm Hb Hf Hc) as (Hr & Hd).
  cbv zeta. split; [exact Hr|]. rewrite Hd.
  destruct (database_reachable rt); [|reflexivity].
  destruct Hwhy as [Hoff | [Hsev | Hlen]]; [discriminate| |].
  - unfold Sql.insert_notification, Sql.check_row.
    cbn [Sql.new_type Sql.new_title Sql.new_message Sql.new_severity].
    destruct (Sql.varchar 50 _); [|reflexivity].
    destruct (Sql.varchar 200 _); [|reflexivity].
    destruct (Sql.varchar 20 (NotifyAlert.severity alert)) as [sev'|] eqn:Hcut;
      [|reflexivity].
    rewrite (severity_refused _ _ Hcut Hsev). reflexivity.
  - unfold Sql.insert_notification, Sql.check_row.
    cbn [Sql.new_type Sql.new_title Sql.new_message Sql.new_severity].
    rewrite Hlen. reflexivity.
Qed.

Lemma alert_reports_success_without_row_witness :
  let r := NotifyAlert.serve Samples.runtime
             (NotifyTrade.post_request
                {| NotifyAlert.type := "price_alert";
                   NotifyAlert.stock_code := None;
                   NotifyAlert.stock_name := None;
                   NotifyAlert.message := "삼성전자 70,000원 도달";
                   NotifyAlert.severity := "error";
                   NotifyAlert.data := None |})
             Samples.world in
  fst r = success Samples.runtime "Alert processed"
  /\ Sql.notifications (db (snd r)) = Sql.notifications (db Samples.world).
Proof.
  apply alert_reports_success_without_row
    with (alert := {| NotifyAlert.type := "price_alert";
                      NotifyAlert.stock_code := None;
                      NotifyAlert.stock_name := None;
                      NotifyAlert.message := "삼성전자 70,000원 도달";
                      NotifyAlert.severity := "error";
                      NotifyAlert.data := None |});
    try reflexivity.
  right. left. reflexivity.
Defined.



(** X25: an update of a trade that is no transition into executed is
    silent on all three paths: the trigger function stores nothing, and
    lets the statement pass unless its [pg_notify] payload reaches 8000
    bytes, which aborts the update; [notify-trade] answers 200 without
    storing or sending anything, and the dashboard shows no toast. *)
Theorem update_without_transition_is_silent (rt : Runtime)
    (octet_length : json -> Z) (OLD NEW : Trade.t)
    (NOW : string) (w : World) (format : numeric -> string) :
  String.eqb (Trade.status OLD) "executed" = true
  \/ String.eqb (Trade.status NEW) "executed" = false ->
  let t := Sql.trigger_notify_trade_changes octet_length Sql.UPDATE (Some OLD) NEW NOW
             (db w) in
  let payload := Sql.trade_payload Sql.UPDATE (Some OLD) NEW in
  let r := NotifyTrade.serve rt
             (NotifyTrade.post_request (NotifyTrade.update_payload OLD NEW)) w in
  Sql.notifications (snd t) = Sql.notifications (db w)
  /\ Sql.notifications_id_seq (snd t) = Sql.notifications_id_seq (db w)
  /\ (octet_length payload < Sql.payload_limit ->
      fst t = None
      /\ Sql.notified (snd t) = (Sql.notified (db w) ++ [("trade_changes", payload)])%list)
  /\ (Sql.payload_limit <= octet_length payload ->
      t = (Some Sql.PayloadTooLong, db w))
  /\ fst r = success rt "Notification processed"
  /\ db (snd r) = db w
  /\ posted (snd r) = posted w
  /\ TradeNotifications.onTradeUpdate format OLD NEW = inl [].
Proof.
  intros Hno.
  assert (Hcond : negb (String.eqb (Trade.status OLD) "executed")
                  && String.eqb (Trade.status NEW) "executed" = false).
  { destruct Hno as [-> | ->]; [reflexivity | apply Bool.andb_false_r]. }
  assert (Hhandler :
            NotifyTrade.serve rt
              (NotifyTrade.post_request (NotifyTrade.update_payload OLD NEW)) w
            = (success rt "Notification processed",
               Deployments.printed
                 (console_log_with "Trade notification triggered: UPDATE"
                                   (Trade.to_json NEW)) w)).
  { unfold NotifyTrade.serve, NotifyTrade.post_request, NotifyTrade.update_payload,
      NotifyTrade.became_executed.
    cbn [method json_body String.eqb Ascii.eqb Bool.eqb].
    unfold respond, Exn.bind, req_json, log, Exn.modify, Exn.ret.
    cbn [json_body NotifyTrade.type NotifyTrade.record NotifyTrade.old_record
         Sql.is_update Sql.is_insert andb].
    rewrite Hcond. reflexivity. }
  cbv zeta. rewrite Hhandler. cbn [fst snd db posted Deployments.printed].
  destruct (Z.leb_spec Sql.payload_limit
              (octet_length (Sql.trade_payload Sql.UPDATE (Some OLD) NEW)))
    as [Hbig|Hfit].
  - rewrite (oversize_payload_aborts octet_length Sql.UPDATE (Some OLD) NEW NOW (db w))
      by (discriminate || exact Hbig).
    cbn [fst snd].
    split; [reflexivity|]. split; [reflexivity|].
    split; [intros Hfit; exfalso; lia|].
    split; [reflexivity|]. split; [reflexivity|]. split; [reflexivity|].
    split; [reflexivity|].
    unfold TradeNotifications.onTradeUpdate. rewrite Hcond. reflexivity.
  - pose proof Hfit as Hleb. apply Z.leb_gt in Hleb.
    assert (Hrun : Sql.trigger_notify_trade_changes octet_length Sql.UPDATE (Some OLD)
                     NEW NOW (db w)
                   = (None,
                      {| Sql.notifications := Sql.notifications (db w);
                         Sql.notifications_id_seq := Sql.notifications_id_seq (db w);
                         Sql.strategies := Sql.strategies (db w);
                         Sql.notified :=
                           (Sql.notified (db w)
                            ++ [("trade_changes",
                                 Sql.trade_payload Sql.UPDATE (Some OLD) NEW)])%list |})).
    { unfold Sql.trigger_notify_trade_changes, Sql.after_row, Sql.notify_trade_changes,
        Exn.bind, Sql.pg_notify.
      cbv zeta. rewrite Hleb. unfold Exn.modify.
      cbn [Sql.is_update Sql.is_insert andb]. rewrite Hcond. reflexivity. }
    rewrite Hrun. cbn [fst snd Sql.notifications Sql.notifications_id_seq Sql.notified].
    split; [reflexivity|]. split; [reflexivity|].
    split; [intros _; split; reflexivity|].
    split; [intros Hbig; exfalso; lia|].
    split; [reflexivity|]. split; [reflexivity|]. split; [reflexivity|].
    unfold TradeNotifications.onTradeUpdate. rewrite Hcond. reflexivity.
Qed.

Lemma update_without_transition_is_silent_witness :
  TradeNotifications.onTradeUpdate Samples.toLocaleString
    (Samples.trade 1 "pending") (Samples.trade 1 "cancelled") = inl [].
Proof.
  apply (update_without_transition_is_silent Samples.runtime Samples.octet_length
           (Samples.trade 1 "pending") (Samples.trade 1 "cancelled")
           "2026-02-04T00:00:05.000Z" Samples.world Samples.toLocaleString).
  right. reflexivity.
Defined.

(** ** [checkStopLossConditions] *)

Lemma processAlert_effects (rt : Runtime) (alert : NotifyAlert.AlertRequest) (w : World) :
  getSupabaseClient rt = None ->
  exists w',
    NotifyAlert.processAlert rt alert w = (inl tt, w')
    /\ db w'
       = if database_reachable rt
         then snd (Sql.insert_notification
                     {| Sql.new_type := Some (NotifyAlert.type alert);
                        Sql.new_title :=
                          Some (match NotifyAlert.lookup (NotifyAlert.type alert)
                                        NotifyAlert.titles with
                                | Some t => t
                                | None => "알림"
                                end);
                        Sql.new_message := Some (NotifyAlert.message alert);
                        Sql.new_severity := Some (NotifyAlert.severity alert);
                        Sql.new_data := Some (NotifyAlert.alert_data alert);
                        Sql.new_created_at := clock rt (clock_reads w) |} (db w))
         else db w.
Proof.
  intros Hc.
  destruct rt as [eg cl rc fe ck tl ch]. cbn [getSupabaseClient] in Hc. subst cl.
  to_relay.
  destruct (String.eqb (NotifyAlert.severity alert) "critical").
  all: cbn [env_get].
  all: try (destruct (truthy (eg "EMAIL_API_KEY") && truthy (eg "ALERT_EMAIL"));
            destruct (truthy (eg "SMS_API_KEY") && truthy (eg "ALERT_PHONE"))).
  all: cbn [db console posted clock_reads fst snd].
  all: through_relay.
  all: eexists; split; [reflexivity|].
  all: rewrite D; destruct rc; reflexivity.
Qed.

Lemma stop_loss_alert_stored (rt : Runtime) (toFixed2 : numeric -> string)
    (p : StopLossCheck.JoinedPosition) (w : World) :
  getSupabaseClient rt = None ->
  database_reachable rt = true ->
  exists w' row,
    NotifyAlert.processAlert rt (StopLossCheck.alert_of toFixed2 p) w = (inl tt, w')
    /\ Sql.notifications (db w') = (Sql.notifications (db w) ++ [row])%list
    /\ Notification.type row = "stop_loss"
    /\ Notification.severity row = critical
    /\ Notification.message row = NotifyAlert.message (StopLossCheck.alert_of toFixed2 p).
Proof.
  intros Hc Hon.
  destruct (processAlert_effects rt (StopLossCheck.alert_of toFixed2 p) w Hc)
    as (w' & Hrun & Hdb).
  rewrite Hon in Hdb.
  erewrite insert_notification_accepted in Hdb;
    [ | reflexivity | apply title_fits | reflexivity ].
  cbn [snd] in Hdb.
  eexists. eexists. split; [exact Hrun|]. rewrite Hdb. cbn [Sql.notifications].
  split; [reflexivity|]. repeat split.
Qed.

Lemma for_each_rows (rt : Runtime) (toFixed2 : numeric -> string)
    (positions : list StopLossCheck.JoinedPosition) :
  getSupabaseClient rt = None ->
  database_reachable rt = true ->
  forall w,
  exists w' added,
    StopLossCheck.for_each rt toFixed2 positions w = (inl tt, w')
    /\ Sql.notifications (db w') = (Sql.notifications (db w) ++ added)%list
    /\ Sql.types_and_severities added
       = map (fun _ => ("stop_loss", critical))
             (filter StopLossCheck.reached positions)
    /\ map Notification.message added
       = map (fun p => NotifyAlert.message (StopLossCheck.alert_of toFixed2 p))
             (filter StopLossCheck.reached positions).
Proof.
  intros Hc Hon.
  induction positions as [|p rest IH]; intros w.
  - exists w, []. cbn. rewrite app_nil_r. repeat split.
  - cbn [StopLossCheck.for_each filter].
    unfold Exn.bind, StopLossCheck.check_position.
    destruct (StopLossCheck.reached p); cbn [Exn.when].
    + destruct (stop_loss_alert_stored rt toFixed2 p w Hc Hon)
        as (w1 & row & Hrun & Hrows & Hty & Hsev & Hmsg).
      rewrite Hrun.
      destruct (IH w1) as (w' & added & Hrest & Hrows' & Htys & Hmsgs).
      exists w', (row :: added). split; [exact Hrest|].
      rewrite Hrows', Hrows, <- app_assoc. split; [reflexivity|].
      unfold Sql.types_and_severities in *. cbn [map].
      rewrite Htys, Hmsgs, Hty, Hsev, Hmsg. split; reflexivity.
    + unfold Exn.ret. exact (IH w).
Qed.

(** X26: [checkStopLossConditions] stores one critical [stop_loss] row
    for each position of the answer whose loss has reached its
    strategy's maximum, 10 when the strategy has none or has 0: in the
    order of the answer, with the message naming both rates, and nothing
    for the other positions.  When the query reports an error the
    function prints it and stores nothing. *)
Theorem stop_loss_check_stores_one_row_each (rt : Runtime)
    (toFixed2 : numeric -> string)
    (positions : list StopLossCheck.JoinedPosition) (w : World) :
  getSupabaseClient rt = None ->
  database_reachable rt = true ->
  (exists w' added,
      StopLossCheck.checkStopLossConditions rt toFixed2
        {| StopLossCheck.data := Some positions; StopLossCheck.error := None |} w
      = (inl tt, w')
      /\ Sql.notifications (db w') = (Sql.notifications (db w) ++ added)%list
      /\ Sql.types_and_severities added
         = map (fun _ => ("stop_loss", critical))
               (filter StopLossCheck.reached positions)
      /\ map Notification.message added
         = map (fun p => NotifyAlert.message (StopLossCheck.alert_of toFixed2 p))
               (filter StopLossCheck.reached positions))
  /\ (forall rows e,
      StopLossCheck.checkStopLossConditions rt toFixed2
        {| StopLossCheck.data := rows; StopLossCheck.error := Some e |} w
      = (inl tt,
         Deployments.printed (console_error "Error fetching positions:" (JString e)) w)).
Proof.
  intros Hc Hon.
  unfold StopLossCheck.checkStopLossConditions, supabase, Exn.bind.
  rewrite Hc. unfold Exn.ret.
  cbn [StopLossCheck.error StopLossCheck.data]. split.
  - exact (for_each_rows rt toFixed2 positions Hc Hon w).
  - intros rows e. reflexivity.
Qed.

Lemma stop_loss_check_stores_one_row_each_witness :
  exists w' added,
    StopLossCheck.checkStopLossConditions Samples.runtime
      (fun a => Numeric.text (Numeric.round a 2))
      {| StopLossCheck.data :=
           Some [ {| StopLossCheck.position := Samples.position (-1200);
                     StopLossCheck.strategies := None |};
                  {| StopLossCheck.position := Samples.position (-700);
                     StopLossCheck.strategies := None |} ];
         StopLossCheck.error := None |} Samples.world
    = (inl tt, w')
    /\ Sql.notifications (db w') = (Sql.notifications (db Samples.world) ++ added)%list
    /\ Sql.types_and_severities added = [("stop_loss", critical)]
    /\ map Notification.message added
       = ["삼성전자 손절선(10%) 도달! 현재 손실률: 12.00%"].
Proof.
  exact (proj1 (stop_loss_check_stores_one_row_each Samples.runtime
                  (fun a => Numeric.text (Numeric.round a 2))
                  [ {| StopLossCheck.position := Samples.position (-1200);
                       StopLossCheck.strategies := None |};
                    {| StopLossCheck.position := Samples.position (-700);
                       StopLossCheck.strategies := None |} ]
                  Samples.world eq_refl eq_refl)).
Defined.

(** X27: the two stop-loss paths use different levels.  For a position
    whose strategy sets no maximum loss, a rate at or below -5 but above
    -10 makes the trigger on [portfolio] store a critical [stop_loss] row
    when the rate changes to it, while [checkStopLossConditions] on the
    same position stores nothing. *)
Theorem stop_loss_levels_differ (rt : Runtime) (toFixed2 : numeric -> string)
    (OLD : Sql.Position) (p : StopLossCheck.JoinedPosition) (NOW : string) (w : World) :
  StopLossCheck.maxLossRate p = 10 ->
  Numeric.eqb (Sql.profit_loss_rate OLD)
              (Sql.profit_loss_rate (StopLossCheck.position p)) = false ->
  Numeric.leb (Sql.profit_loss_rate (StopLossCheck.position p)) (Numeric.of_Z (-5)) = true ->
  Numeric.leb (Numeric.of_Z 10)
              (Numeric.abs (Sql.profit_loss_rate (StopLossCheck.position p))) = false ->
  (exists added,
      Sql.notifications
        (snd (Sql.trigger_check_portfolio_alerts OLD (StopLossCheck.position p) NOW (db w)))
      = (Sql.notifications (db w) ++ added)%list
      /\ Sql.types_and_severities added = [("stop_loss", critical)])
  /\ db (snd (StopLossCheck.checkStopLossConditions rt toFixed2
                {| StopLossCheck.data := Some [p]; StopLossCheck.error := None |} w))
     = db w.
Proof.
  intros Hmax Hchanged Hloss Hbelow. split.
  - destruct (portfolio_alerts_added OLD (StopLossCheck.position p) NOW (db w))
      as (_ & added & Hrows & Htys).
    exists added. split; [exact Hrows|].
    rewrite Htys, Hchanged, Hloss. cbn [negb].
    destruct (Numeric.leb (Numeric.of_Z 10)
                (Sql.profit_loss_rate (StopLossCheck.position p))) eqn:Hprofit;
      [|reflexivity].
    exfalso. rewrite <- loss_threshold_is_5 in Hloss.
    rewrite <- profit_threshold_is_10 in Hprofit.
    exact (thresholds_exclusive _ Hloss Hprofit).
  - unfold StopLossCheck.checkStopLossConditions, supabase, Exn.bind.
    destruct (getSupabaseClient rt); [reflexivity|].
    unfold Exn.ret. cbn [StopLossCheck.error StopLossCheck.data StopLossCheck.for_each].
    unfold Exn.bind, StopLossCheck.check_position, StopLossCheck.reached,
      StopLossCheck.currentLossRate.
    rewrite Hmax, Hbelow. reflexivity.
Qed.

Lemma stop_loss_levels_differ_witness :
  db (snd (StopLossCheck.checkStopLossConditions Samples.runtime
             (fun a => Numeric.text (Numeric.round a 2))
             {| StopLossCheck.data :=
                  Some [ {| StopLossCheck.position := Samples.position (-700);
                            StopLossCheck.strategies := None |} ];
                StopLossCheck.error := None |} Samples.world))
  = db Samples.world.
Proof.
  apply (stop_loss_levels_differ Samples.runtime
           (fun a => Numeric.text (Numeric.round a 2))
           (Samples.position 0)
           {| StopLossCheck.position := Samples.position (-700);
              StopLossCheck.strategies := None |}
           "2026-02-04T00:00:05.000Z" Samples.world);
    reflexivity.
Defined.

End EdgeMore.

(** ** The portfolio page *)

Section PortfolioPageFacts.

Lemma sub_self (m : positive) (e : Z) :
  JS.sub (S754_finite false m e) (S754_finite false m e) = JS.zero.
Proof.
  unfold JS.sub, SFsub. cbv zeta. rewrite Z.sub_diag. reflexivity.
Qed.

(** X28: the two pages compute the total rate of the same portfolio
    differently.  For one position worth any positive amount that cost
    nothing, the dashboard divides by value minus profit and shows
    [Infinity], while the portfolio page, whose guard is on the divisor
    itself, shows 0; after a failed fetch the portfolio page shows 0 as
    well. *)
Theorem pages_disagree_on_free_position (m : positive) (e : Z) (code : string) :
  let v := S754_finite false m e in
  Dashboard.profitRate
    (Dashboard.getPortfolioSummary (T := Trade.t)
       (Some [ {| Dashboard.p_stock_code := code;
                  Dashboard.market_value := Some v;
                  Dashboard.profit_loss := Some v |} ])
       (Some [])) = JS.infinity
  /\ PortfolioPage.totalProfitRate
       [ {| PortfolioPage.stock_code := code;
            PortfolioPage.market_value := v;
            PortfolioPage.total_cost := JS.zero;
            PortfolioPage.profit_loss := v |} ] = JS.zero
  /\ (forall rows err,
        PortfolioPage.totalProfitRate
          (fst (PortfolioPage.getPortfolio
                  {| PortfolioPage.data := rows; PortfolioPage.error := Some err |}))
        = JS.zero).
Proof.
  cbv zeta. split; [|split].
  - unfold Dashboard.getPortfolioSummary, Dashboard.computeProfitRate,
      Dashboard.sum_market_value, Dashboard.sum_profit_loss.
    cbn [Dashboard.profitRate option_map JS.reduce fold_left
         Dashboard.market_value Dashboard.profit_loss JS.or_else JS.truthy].
    change (JS.add JS.zero (S754_finite false m e)) with (S754_finite false m e).
    cbn [JS.or_else JS.truthy].
    change (JS.gt (S754_finite false m e) JS.zero) with true. cbv iota.
    rewrite sub_self.
    change (JS.div (S754_finite false m e) JS.zero) with JS.infinity.
    vm_compute. reflexivity.
  - reflexivity.
  - intros rows err. reflexivity.
Qed.

End PortfolioPageFacts.

(** ** The strategy card and the strategy builder *)

Section StrategyFacts.

Import UseNotifications.

(** X29: the switch of a strategy card follows the database: it changes
    only when the update resolved without error, and two accepted
    toggles send opposite values and restore it.  An update that
    resolves, with an error or without, leaves the switch usable and
    refreshes the page once; a call that throws leaves it disabled and
    does not refresh.  Every call that gets as far as the request sends
    the opposite of the switch. *)
Theorem switch_changes_only_when_accepted (id : Z) (answer : Outcome UpdateResult)
    (s : StrategyCard.State) :
  let s' := StrategyCard.handleToggle id answer s in
  (StrategyCard.isActive s' <> StrategyCard.isActive s ->
   answer = Resolves {| upd_error := None |})
  /\ (StrategyCard.isUpdating s' = true <->
      (exists e, answer = ClientThrows e) \/ (exists e, answer = RequestThrows e))
  /\ StrategyCard.refreshes s'
     = (if StrategyCard.isUpdating s'
        then StrategyCard.refreshes s else S (StrategyCard.refreshes s))
  /\ StrategyCard.sent s'
     = (match answer with
        | ClientThrows _ => StrategyCard.sent s
        | _ => StrategyCard.sent s ++ [(id, negb (StrategyCard.isActive s))]
        end)%list
  /\ (forall e,
        StrategyCard.isActive
          (StrategyCard.handleToggle id (Resolves {| upd_error := Some e |}) s)
        = StrategyCard.isActive s)
  /\ (let twice :=
        StrategyCard.handleToggle id (Resolves {| upd_error := None |})
          (StrategyCard.handleToggle id (Resolves {| upd_error := None |}) s) in
      StrategyCard.isActive twice = StrategyCard.isActive s
      /\ StrategyCard.sent twice
         = (StrategyCard.sent s
            ++ [ (id, negb (StrategyCard.isActive s)); (id, StrategyCard.isActive s) ])%list).
Proof.
  cbv zeta. split; [|split; [|split; [|split; [|split]]]].
  - destruct answer as [e|e|[[e|]]]; cbn; intros H; try (exfalso; apply H; reflexivity).
    reflexivity.
  - destruct answer as [e|e|r]; cbn; split.
    + intros _. left. exists e. reflexivity.
    + reflexivity.
    + intros _. right. exists e. reflexivity.
    + reflexivity.
    + discriminate.
    + intros [[e He] | [e He]]; discriminate He.
  - destruct answer as [e|e|r]; reflexivity.
  - destruct answer as [e|e|r]; reflexivity.
  - intros e. reflexivity.
  - cbn. rewrite Bool.negb_involutive, <- app_assoc. split; reflexivity.
Qed.

Lemma generated_is_inactive (messages : list NewStrategy.Message) :
  Forall (fun st => NewStrategy.is_active st = false /\ NewStrategy.priority st = 0)
         (NewStrategy.generated_calls messages).
Proof.
  unfold NewStrategy.generated_calls.
  apply Forall_flat_map. apply Forall_forall. intros msg _.
  destruct (NewStrategy.role msg); try constructor.
  destruct (NewStrategy.parts msg) as [ps|]; [|constructor].
  apply Forall_flat_map. apply Forall_forall. intros part _.
  destruct (NewStrategy.created part); repeat constructor.
Qed.

(** X30: a strategy of the builder is never stored active.  The chat
    hands over every generated strategy as inactive with priority 0,
    whatever the tool call said, and [handleSave] sends at most one
    insert, of an inactive row with priority 0 whose limits are only
    numbers that are neither 0 nor NaN.  It leaves to the list page only
    when the insert resolved without error, reports every other outcome
    once, keeps the preview and always lowers the saving flag; without a
    preview it does nothing. *)
Theorem built_strategy_is_saved_inactive (messages : list NewStrategy.Message)
    (answer : Outcome UpdateResult) (st : NewStrategy.Strategy) (s : NewStrategy.State) :
  let r := NewStrategy.handleSave answer (NewStrategy.handleStrategyGenerated st s) in
  Forall (fun g => NewStrategy.is_active g = false /\ NewStrategy.priority g = 0)
         (NewStrategy.generated_calls messages)
  /\ (length (NewStrategy.insert_requests r) <= 1)%nat
  /\ Forall (fun row =>
               NewStrategy.row_is_active row = false
               /\ NewStrategy.row_priority row = 0
               /\ NewStrategy.row_name row = NewStrategy.name st
               /\ (forall v, NewStrategy.row_max_investment row = Some v
                             -> JS.truthy v = true)
               /\ (forall v, NewStrategy.row_max_loss_rate row = Some v
                             -> JS.truthy v = true)
               /\ (forall v, NewStrategy.row_take_profit_rate row = Some v
                             -> JS.truthy v = true))
            (NewStrategy.insert_requests r)
  /\ NewStrategy.state r = {| NewStrategy.strategy := Some st;
                              NewStrategy.isSaving := false |}
  /\ (NewStrategy.pushed r
      = if match answer with
           | Resolves {| upd_error := None |} => true
           | _ => false
           end
        then ["/dashboard/strategies"] else [])
  /\ (NewStrategy.pushed r = [] ->
      length (NewStrategy.alerts r) = 1%nat /\ length (NewStrategy.printed r) = 1%nat)
  /\ (let idle := NewStrategy.handleSave answer (NewStrategy.handleClear s) in
      NewStrategy.state idle = NewStrategy.handleClear s
      /\ NewStrategy.insert_requests idle = []
      /\ NewStrategy.alerts idle = []
      /\ NewStrategy.pushed idle = []).
Proof.
  assert (Hnull : forall x v, NewStrategy.or_null x = Some v -> JS.truthy v = true).
  { intros [x|] v; cbn; [|discriminate].
    destruct (JS.truthy x) eqn:Hx; [|discriminate].
    intros H. injection H as <-. exact Hx. }
  cbv zeta. split; [apply generated_is_inactive|].
  unfold NewStrategy.handleSave, NewStrategy.handleStrategyGenerated.
  cbn [NewStrategy.strategy NewStrategy.handleClear].
  destruct answer as [e|e|[[e|]]];
    cbn [NewStrategy.insert_requests NewStrategy.state NewStrategy.pushed
         NewStrategy.alerts NewStrategy.printed upd_error length];
    (split; [lia|]);
    (split; [repeat constructor; cbn [NewStrategy.row_of NewStrategy.row_max_investment
                NewStrategy.row_max_loss_rate NewStrategy.row_take_profit_rate];
             apply Hnull|]);
    (split; [reflexivity|]);
    (split; [reflexivity|]);
    (split; [first [discriminate | intros _; split; reflexivity]|]);
    repeat split.
Qed.

End StrategyFacts.
